(** * DatAlive: query orchestration and adaptive cache

    A shallow embedding of the orchestration layer of the repository:

    - [CAGAgent]          src/datalive_agent/src/agents/cag_agent.py
    - [OrchestratorAgent] src/agents/src/agents/orchestrator.py
    - [RAGAgent], [KAGAgent], [KAGInsights]  src/agents/src/agents/{rag,kag}_agent.py
    - [EmbeddingClient]   src/datalive_agent/src/core/embeddings.py
    - [UnifiedAgent]      src/agents/src/agents/unified_agent.py

    Conventions of the embedding.

    - Python floats and [datetime] instants are rationals ([Q]); an instant is
      the number of seconds since an arbitrary origin.  Every operation takes
      the instant [now] at which it runs.
    - Python dictionaries that travel through JSON are [gmap string pyval].
    - A Python exception is the [Raise] case of [outcome]; [try/except] is a
      [match] on it.
    - Collaborators outside the repository (md5, numpy, the embedding client,
      the language model, pydantic, the search back ends, the pattern matcher
      of Redis) are fields of type classes, so every theorem holds whatever
      they compute.
    - Strings are sequences of ASCII characters. *)

From Stdlib Require Import QArith Qminmax Lqa ZArith String Ascii List Lia DecimalString.
From stdpp Require Import gmap strings list sorting.

Set Warnings "-register-all".

(** ** Exceptions and results *)

Inductive exn :=
| KeyError (key : string)
| TypeError
| ValueError
| AttributeError
| ValidationError
| ServiceError (msg : string).

Inductive outcome (A : Type) :=
| Ok (a : A)
| Raise (e : exn).
Arguments Ok {A} a.
Arguments Raise {A} e.

#[global] Instance outcome_ret : MRet outcome := fun A a => Ok a.

#[global] Instance outcome_bind : MBind outcome := fun A B k m =>
  match m with
  | Ok a => k a
  | Raise e => Raise e
  end.

#[global] Instance outcome_fmap : FMap outcome := fun A B f m =>
  match m with
  | Ok a => Ok (f a)
  | Raise e => Raise e
  end.

(** [try: m except Exception: h] *)
Definition try_except {A} (m : outcome A) (h : exn -> A) : A :=
  match m with
  | Ok a => a
  | Raise e => h e
  end.

(** ** Python values that survive [json.dumps] / [json.loads]

    [PTime t] is the ISO-8601 string that [datetime.isoformat()] produces for
    the instant [t]; [datetime.fromisoformat] reads it back and fails on any
    other value. *)

Inductive pyval :=
| PNone
| PBool (b : bool)
| PNum (q : Q)
| PStr (s : string)
| PTime (t : Q)
| PList (l : list pyval)
| PDict (d : gmap string pyval).

Definition Qltb (x y : Q) : bool := negb (Qle_bool y x).

(** [bool(v)] *)
Definition truthy (v : pyval) : bool :=
  match v with
  | PNone => false
  | PBool b => b
  | PNum q => negb (Qeq_bool q 0)
  | PStr s => negb (String.eqb s EmptyString)
  | PTime _ => true
  | PList l => match l with [] => false | _ => true end
  | PDict d => negb (bool_decide (d = ∅))
  end.

(** A value usable as a number in a comparison: [bool] is a subclass of
    [int] in Python. *)
Definition as_number (v : pyval) : outcome Q :=
  match v with
  | PNum q => Ok q
  | PBool b => Ok (if b then 1 else 0)%Q
  | _ => Raise TypeError
  end.

(** [d[k]] *)
Definition getitem (d : gmap string pyval) (k : string) : outcome pyval :=
  match d !! k with
  | Some v => Ok v
  | None => Raise (KeyError k)
  end.

(** [d.get(k, default)] *)
Definition dict_get (d : gmap string pyval) (k : string) (default : pyval) : pyval :=
  match d !! k with
  | Some v => v
  | None => default
  end.

Definition opt_str (o : option string) : pyval :=
  match o with
  | Some s => PStr s
  | None => PNone
  end.

(** ** String operations of the Python standard library (ASCII) *)

Module Str.

Definition lower_ascii (c : ascii) : ascii :=
  let n := nat_of_ascii c in
  if (65 <=? n)%nat && (n <=? 90)%nat then ascii_of_nat (n + 32) else c.

(** [s.lower()] *)
Fixpoint lower (s : string) : string :=
  match s with
  | EmptyString => EmptyString
  | String c r => String (lower_ascii c) (lower r)
  end.

(** [str.isspace] on one ASCII character *)
Definition is_space (c : ascii) : bool :=
  let n := nat_of_ascii c in
  ((9 <=? n)%nat && (n <=? 13)%nat) || ((28 <=? n)%nat && (n <=? 32)%nat).

Fixpoint lstrip (s : string) : string :=
  match s with
  | EmptyString => EmptyString
  | String c r => if is_space c then lstrip r else s
  end.

Fixpoint rev_string (acc s : string) : string :=
  match s with
  | EmptyString => acc
  | String c r => rev_string (String c acc) r
  end.

Definition rstrip (s : string) : string :=
  rev_string EmptyString (lstrip (rev_string EmptyString s)).

(** [s.strip()] *)
Definition strip (s : string) : string := rstrip (lstrip s).

(** [needle in hay] *)
Fixpoint contains (needle hay : string) : bool :=
  String.prefix needle hay ||
  match hay with
  | EmptyString => false
  | String _ r => contains needle r
  end.

(** [s[:n]] *)
Definition take (n : nat) (s : string) : string := substring 0 n s.

(** [\w] *)
Definition is_word (c : ascii) : bool :=
  let n := nat_of_ascii c in
  ((48 <=? n)%nat && (n <=? 57)%nat) || ((65 <=? n)%nat && (n <=? 90)%nat)
  || ((97 <=? n)%nat && (n <=? 122)%nat) || (n =? 95)%nat.

(** [re.findall(r'\b\w+\b', s)]: the maximal runs of word characters.
    [cur] is the run being read, most recent character first. *)
Fixpoint findall_words (cur : string) (s : string) : list string :=
  match s with
  | EmptyString =>
      match cur with
      | EmptyString => []
      | _ => [rev_string EmptyString cur]
      end
  | String c r =>
      if is_word c then findall_words (String c cur) r
      else match cur with
           | EmptyString => findall_words EmptyString r
           | _ => rev_string EmptyString cur :: findall_words EmptyString r
           end
  end.

Fixpoint insert_sorted (w : string) (l : list string) : list string :=
  match l with
  | [] => [w]
  | x :: r => if String.leb w x then w :: l else x :: insert_sorted w r
  end.

(** [l.sort()] on strings *)
Definition sort (l : list string) : list string :=
  fold_right insert_sorted [] l.

(** [sep.join(l)] *)
Fixpoint join (sep : string) (l : list string) : string :=
  match l with
  | [] => EmptyString
  | [x] => x
  | x :: r => x +:+ sep +:+ join sep r
  end.

(** Glob-style matching of a pattern made of literal characters, [*] and
    [?].  This is how Redis matches a pattern that is [simple]; the
    character classes and escapes of Redis are not read here, see
    [RedisServer]. *)
Fixpoint glob (pat s : string) : bool :=
  match pat with
  | EmptyString => match s with EmptyString => true | _ => false end
  | String "*" p =>
      (fix star (t : string) : bool :=
         glob p t || match t with
                     | EmptyString => false
                     | String _ t' => star t'
                     end) s
  | String "?" p => match s with EmptyString => false | String _ t => glob p t end
  | String c p =>
      match s with
      | EmptyString => false
      | String d t => Ascii.eqb c d && glob p t
      end
  end.

(** A pattern without the characters that open or close a character class
    or escape the next character in a Redis pattern. *)
Fixpoint simple (pat : string) : bool :=
  match pat with
  | EmptyString => true
  | String c p =>
      negb (Ascii.eqb c "[") && negb (Ascii.eqb c "]") && negb (Ascii.eqb c "\")
      && simple p
  end.

(** [re.search(r'\{.*\}', s, re.DOTALL)]: from the first opening brace to
    the last closing brace after it. *)
Fixpoint upto_last_close (s : string) : option string :=
  match s with
  | EmptyString => None
  | String c r =>
      match upto_last_close r with
      | Some t => Some (String c t)
      | None => if Ascii.eqb c "}" then Some (String c EmptyString) else None
      end
  end.

Fixpoint search_braces (s : string) : option string :=
  match s with
  | EmptyString => None
  | String c r =>
      if Ascii.eqb c "{"
      then match upto_last_close r with
           | Some t => Some (String c t)
           | None => None
           end
      else search_braces r
  end.

End Str.

(** ** The key-value store (Redis)

    A key holds a JSON document, represented by the value it denotes, and the
    instant at which Redis expires it.  An expired key is invisible to every
    command.  The connection is taken to be reliable: a command fails only
    where noted.

    How the server matches a key against the pattern of [KEYS] is not part
    of the repository: [key_matches] stands for it, character classes and
    escapes included.  All that is taken for granted is that a pattern
    without [[], []] and [\] is matched as a plain glob. *)

Class RedisServer := {
  key_matches : string -> string -> bool;
  key_matches_simple :
    forall pat k, Str.simple pat = true -> key_matches pat k = Str.glob pat k
}.

Module Redis.

Definition alive (now : Q) (e : pyval * Q) : bool := Qltb now (snd e).

(** [GET key] *)
Definition get (now : Q) (s : gmap string (pyval * Q)) (k : string) : option pyval :=
  match s !! k with
  | Some e => if alive now e then Some (fst e) else None
  | None => None
  end.

(** [SETEX key ttl value]; Redis rejects a non-positive expire time. *)
Definition setex (now : Q) (s : gmap string (pyval * Q)) (k : string) (ttl : Z) (v : pyval)
  : outcome (gmap string (pyval * Q)) :=
  if (ttl <=? 0)%Z then Raise (ServiceError "invalid expire time")
  else Ok (<[k := (v, now + inject_Z ttl)%Q]> s).

(** [DEL key ...] *)
Definition delete (ks : list string) (s : gmap string (pyval * Q)) : gmap string (pyval * Q) :=
  foldr (fun k acc => base.delete k acc) s ks.

(** [KEYS pattern].  Redis promises no order; the keys come in the order of
    the map. *)
Definition keys {server : RedisServer} (now : Q) (s : gmap string (pyval * Q))
           (pat : string) : list string :=
  List.map fst
    (List.filter (fun '(k, e) => alive now e && key_matches pat k) (map_to_list s)).

End Redis.

(** ** Collaborators of the cache and its configuration *)

Class CacheServices := {
  (** [hashlib.md5(text.encode()).hexdigest()] *)
  md5_hex : string -> string;
  (** the square root taken by [np.linalg.norm] *)
  np_sqrt : Q -> Q;
  (** [embedding_client.embed_text] *)
  embed_text : string -> outcome (list Q)
}.

(** The four [settings.cache_ttl_*] values read by [CAGAgent.__init__]. *)
Record Settings := {
  cache_ttl_factual : Z;
  cache_ttl_analytical : Z;
  cache_ttl_temporal : Z;
  cache_ttl_personal : Z
}.

(** What [Settings()] yields without environment variables.  The class of
    src/datalive_agent/src/config/settings.py declares the four fields twice;
    the later declarations (3600, 1800, 900 and 300 seconds) are the ones in
    force. *)
Definition default_settings : Settings :=
  {| cache_ttl_factual := 3600; cache_ttl_analytical := 1800;
     cache_ttl_temporal := 900; cache_ttl_personal := 300 |}.

Record UserContext := {
  user_id : option string;
  session_id : option string
}.

(** ** cag_agent.py *)

Module CAGAgent.
Section CAGAgent.

Context {cache : CacheServices} {server : RedisServer}.
Variable settings : Settings.

(** [self.cache_ttl] *)
Definition cache_ttl : gmap string Z :=
  <["factual" := cache_ttl_factual settings]>
  (<["analytical" := cache_ttl_analytical settings]>
  (<["temporal" := cache_ttl_temporal settings]>
  (<["personal" := cache_ttl_personal settings]>
  (<["general" := cache_ttl_factual settings]> ∅)))).

(** [self.cache_ttl['general']] *)
Definition ttl_general : Z := cache_ttl_factual settings.

(** [self.cache_ttl.get(query_type, self.cache_ttl['general'])] *)
Definition ttl_for (query_type : string) : Z :=
  default ttl_general (cache_ttl !! query_type).

Definition _hash_text (text : string) : string := md5_hex text.

Definition stop_words : list string :=
  ["a"; "an"; "and"; "are"; "as"; "at"; "be"; "by"; "for"; "from";
   "has"; "he"; "in"; "is"; "it"; "its"; "of"; "on"; "that"; "the";
   "to"; "was"; "will"; "with"; "what"; "how"; "when"; "where"; "who"].

Definition _get_semantic_hash (text : string) : option string :=
  let words := Str.findall_words EmptyString (Str.lower text) in
  let meaningful_words :=
    List.filter (fun word => (3 <? String.length word)%nat
                             && negb (existsb (String.eqb word) stop_words)) words in
  match meaningful_words with
  | [] => None
  | _ => Some (_hash_text (Str.join " " (take 10 (Str.sort meaningful_words))))
  end.

(** [user_context and user_context.get(field)] *)
Definition ctx_field (user_context : option UserContext)
           (field : UserContext -> option string) : option string :=
  match user_context with
  | Some c =>
      match field c with
      | Some s => if String.eqb s EmptyString then None else Some s
      | None => None
      end
  | None => None
  end.

Definition exact_key (query : string) : string := "exact:" +:+ _hash_text query.

Definition normalized_key (query : string) : string :=
  "normalized:" +:+ _hash_text (Str.strip (Str.lower query)).

Definition user_key (uid query : string) : string :=
  "user:" +:+ uid +:+ ":" +:+ _hash_text query.

Definition session_key (sid query : string) : string :=
  "session:" +:+ sid +:+ ":" +:+ _hash_text query.

Definition semantic_key (h : string) : string := "semantic:" +:+ h.

Definition _generate_cache_keys (query : string) (user_context : option UserContext)
  : list string :=
  [exact_key query; normalized_key query]
  ++ match ctx_field user_context user_id with
     | Some uid => [user_key uid query]
     | None => []
     end
  ++ match ctx_field user_context session_id with
     | Some sid => [session_key sid query]
     | None => []
     end
  ++ match _get_semantic_hash query with
     | Some h => [semantic_key h]
     | None => []
     end.

(** [datetime.fromisoformat] *)
Definition fromisoformat (v : pyval) : outcome Q :=
  match v with
  | PTime t => Ok t
  | PStr _ => Raise ValueError
  | _ => Raise TypeError
  end.

Definition _is_fresh (now : Q) (cached_result : pyval) : bool :=
  try_except
    (match cached_result with
     | PDict d =>
         at_v ← getitem d "cached_at";
         cached_at ← fromisoformat at_v;
         ttl ← as_number (dict_get d "ttl" (PNum (inject_Z ttl_general)));
         let age := (now - cached_at)%Q in
         mret (Qltb age ttl)
     | _ => Raise TypeError
     end)
    (fun _ => false).

(** [v[k] = x] *)
Definition setitem (v : pyval) (k : string) (x : pyval) : outcome pyval :=
  match v with
  | PDict d => Ok (PDict (<[k := x]> d))
  | _ => Raise TypeError
  end.

(** The [for key in cache_keys] loop of [check_cache]. *)
Fixpoint probe (now : Q) (cache_keys : list string) (s : gmap string (pyval * Q))
  : outcome (option pyval) * gmap string (pyval * Q) :=
  match cache_keys with
  | [] => (Ok None, s)
  | key :: rest =>
      match Redis.get now s key with
      | Some result =>
          if _is_fresh now result
          then (r ← setitem result "cache_key" (PStr key); mret (Some r), s)
          else probe now rest (Redis.delete [key] s)
      | None => probe now rest s
      end
  end.

(** A key that the loop passes over: it holds nothing, or a stale record. *)
Definition passes (now : Q) (s : gmap string (pyval * Q)) (key : string) : bool :=
  match Redis.get now s key with
  | Some result => negb (_is_fresh now result)
  | None => true
  end.

(** The keys of [ks] that hold a record. *)
Definition holding (now : Q) (s : gmap string (pyval * Q)) (ks : list string)
  : list string :=
  List.filter (fun key => match Redis.get now s key with
                          | Some _ => true
                          | None => false
                          end) ks.

Fixpoint dot (v1 v2 : list Q) : Q :=
  match v1, v2 with
  | x :: r1, y :: r2 => (x * y + dot r1 r2)%Q
  | _, _ => 0%Q
  end.

(** [np.linalg.norm] *)
Definition norm (v : list Q) : Q := np_sqrt (dot v v).

(** [np.array] on a flat JSON list: numbers are taken as they are and
    [true] and [false] as 1 and 0.  On a list with any other element
    ([null], a string, a dictionary) the arithmetic of numpy raises; lists
    of lists and values that are not lists are not the concern of this
    model, the index holding the flat lists of numbers that
    [_store_semantic_cache] writes. *)
Fixpoint as_vector (l : list pyval) : option (list Q) :=
  match l with
  | [] => Some []
  | PNum q :: r => option_map (cons q) (as_vector r)
  | PBool b :: r => option_map (cons (if b then 1%Q else 0%Q)) (as_vector r)
  | _ => None
  end.

(** [_cosine_similarity]; whatever makes numpy raise gives [0.0]. *)
Definition _cosine_similarity (vec1 : list Q) (vec2 : pyval) : Q :=
  match vec2 with
  | PList l =>
      match as_vector l with
      | Some v2 =>
          if negb (length vec1 =? length v2)%nat then 0%Q
          else
            let dot_product := dot vec1 v2 in
            let norm1 := norm vec1 in
            let norm2 := norm v2 in
            if Qeq_bool norm1 0 || Qeq_bool norm2 0 then 0%Q
            else (dot_product / (norm1 * norm2))%Q
      | None => 0%Q
      end
  | _ => 0%Q
  end.

Definition similarity_threshold : Q := 85 # 100.

(** One turn of the loop of [_find_similar_cached_query] on the document
    [cached_data]; the state is [(best_match, best_similarity)].  The
    assignments made before an exception inside the inner [try] stay. *)
Definition scan_one (query_embedding : list Q) (cached_data : pyval)
           (st : option pyval * Q) : option pyval * Q :=
  let '(best_match, best_similarity) := st in
  match cached_data with
  | PDict data =>
      match data !! "embedding" with
      | None => st
      | Some cached_embedding =>
          let similarity := _cosine_similarity query_embedding cached_embedding in
          if Qltb similarity_threshold similarity && Qltb best_similarity similarity
          then
            match data !! "cache_data" with
            | None => (best_match, similarity)
            | Some (PDict cd) =>
                let cd1 := <["similarity_score" := PNum similarity]> cd in
                match data !! "query" with
                | None => (Some (PDict cd1), similarity)
                | Some q => (Some (PDict (<["original_query" := q]> cd1)), similarity)
                end
            | Some other => (Some other, similarity)
            end
          else st
      end
  | _ => st
  end.

Definition scan (now : Q) (s : gmap string (pyval * Q)) (query_embedding : list Q)
           (keys : list string) : option pyval * Q :=
  fold_left
    (fun st key =>
       match Redis.get now s key with
       | Some cached_data => scan_one query_embedding cached_data st
       | None => st
       end)
    keys (None, 0%Q).

Definition _find_similar_cached_query (now : Q) (s : gmap string (pyval * Q))
           (query : string) : option pyval :=
  try_except
    (query_embedding ← embed_text query;
     let keys := Redis.keys now s "semantic_embeddings:*" in
     mret (fst (scan now s query_embedding (take 50 keys))))
    (fun _ => None).

Definition check_cache (now : Q) (s : gmap string (pyval * Q))
           (query : string) (user_context : option UserContext)
  : option pyval * gmap string (pyval * Q) :=
  let cache_keys := _generate_cache_keys query user_context in
  match probe now cache_keys s with
  | (Raise _, s') => (None, s')
  | (Ok (Some result), s') => (Some result, s')
  | (Ok None, s') =>
      match _find_similar_cached_query now s' query with
      | Some similar_result =>
          if truthy similar_result then (Some similar_result, s') else (None, s')
      | None => (None, s')
      end
  end.

(** [user_context or {}] as it is serialised *)
Definition user_context_py (user_context : option UserContext) : pyval :=
  match user_context with
  | Some c =>
      PDict (<["user_id" := opt_str (user_id c)]>
             (<["session_id" := opt_str (session_id c)]> ∅))
  | None => PDict ∅
  end.

(** The dictionary [cache_data] built by [update_cache]. *)
Definition make_cache_data (now : Q) (query : string) (result : gmap string pyval)
           (user_context : option UserContext) (query_type : string)
  : gmap string pyval :=
  <["query" := PStr query]>
  (<["result" := PDict result]>
  (<["user_context" := user_context_py user_context]>
  (<["query_type" := PStr query_type]>
  (<["cached_at" := PTime now]>
  (<["confidence" := dict_get result "confidence" (PNum (1 # 2))]>
  (<["ttl" := PNum (inject_Z (ttl_for query_type))]> ∅)))))).

(** The [for key in cache_keys: setex(...)] loop of [update_cache]. *)
Fixpoint setex_all (now : Q) (cache_keys : list string) (ttl : Z) (v : pyval)
         (s : gmap string (pyval * Q)) : outcome unit * gmap string (pyval * Q) :=
  match cache_keys with
  | [] => (Ok tt, s)
  | key :: rest =>
      match Redis.setex now s key ttl v with
      | Ok s' => setex_all now rest ttl v s'
      | Raise e => (Raise e, s)
      end
  end.

Definition semantic_embeddings_key (query : string) : string :=
  "semantic_embeddings:" +:+ _hash_text query.

Definition make_semantic_data (now : Q) (query : string) (embedding : list Q)
           (cache_data : gmap string pyval) : gmap string pyval :=
  <["query" := PStr query]>
  (<["embedding" := PList (List.map PNum embedding)]>
  (<["cache_data" := PDict cache_data]>
  (<["created_at" := PTime now]> ∅))).

Definition _store_semantic_cache (now : Q) (s : gmap string (pyval * Q))
           (query : string) (cache_data : gmap string pyval)
  : gmap string (pyval * Q) :=
  try_except
    (embedding ← embed_text query;
     let semantic_data := make_semantic_data now query embedding cache_data in
     Redis.setex now s (semantic_embeddings_key query)
                 (cache_ttl_analytical settings) (PDict semantic_data))
    (fun _ => s).

Definition update_cache (now : Q) (s : gmap string (pyval * Q)) (query : string)
           (result : gmap string pyval) (user_context : option UserContext)
           (query_type : string) : gmap string (pyval * Q) :=
  let cache_data := make_cache_data now query result user_context query_type in
  let cache_keys := _generate_cache_keys query user_context in
  let ttl := ttl_for query_type in
  match setex_all now cache_keys ttl (PDict cache_data) s with
  | (Ok _, s') => _store_semantic_cache now s' query cache_data
  | (Raise _, s') => s'
  end.

(** [invalidate_cache_pattern] has no [return] statement: its value is
    [None] on every path. *)
Definition invalidate_cache_pattern (now : Q) (s : gmap string (pyval * Q))
           (pattern : string) : pyval * gmap string (pyval * Q) :=
  let keys := Redis.keys now s pattern in
  (PNone, match keys with
          | [] => s
          | _ => Redis.delete keys s
          end).

End CAGAgent.
End CAGAgent.

(** ** The embedding index, as the similarity search reads it

    The documents under [semantic_embeddings:*] are written by
    [_store_semantic_cache] only; [parts] takes such a document apart. *)

Module EmbeddingIndex.
Section EmbeddingIndex.

Context {cache : CacheServices} {server : RedisServer}.

Definition parts (doc : pyval) : option (pyval * gmap string pyval * pyval) :=
  match doc with
  | PDict data =>
      match data !! "embedding", data !! "cache_data", data !! "query" with
      | Some embedding, Some (PDict cache_data), Some query =>
          Some (embedding, cache_data, query)
      | _, _, _ => None
      end
  | _ => None
  end.

(** Cosine similarity between a query embedding and an indexed document. *)
Definition similarity (query_embedding : list Q) (doc : pyval) : Q :=
  match parts doc with
  | Some (embedding, _, _) => CAGAgent._cosine_similarity query_embedding embedding
  | None => 0%Q
  end.

(** The cached record of [doc] with the two annotations of a match. *)
Definition annotated (query_embedding : list Q) (doc : pyval) : pyval :=
  match parts doc with
  | Some (embedding, cache_data, query) =>
      PDict (<["original_query" := query]>
            (<["similarity_score" :=
                 PNum (CAGAgent._cosine_similarity query_embedding embedding)]>
             cache_data))
  | None => PNone
  end.

(** The documents that one similarity search reads. *)
Definition scanned (now : Q) (s : gmap string (pyval * Q)) : list pyval :=
  omap (Redis.get now s) (take 50 (Redis.keys now s "semantic_embeddings:*")).

(** The loop of [_find_similar_cached_query] over the documents read. *)
Definition scan_docs (qe : list Q) (docs : list pyval) (st : option pyval * Q)
  : option pyval * Q :=
  fold_left (fun st doc => CAGAgent.scan_one qe doc st) docs st.

(** What is known after the documents [seen] have been read. *)
Definition scan_inv (qe : list Q) (seen : list pyval) (st : option pyval * Q) : Prop :=
  (st = (None, 0%Q) /\ forall doc, doc ∈ seen -> (similarity qe doc <= CAGAgent.similarity_threshold)%Q)
  \/ (exists doc, doc ∈ seen
                  /\ st = (Some (annotated qe doc), similarity qe doc)
                  /\ (CAGAgent.similarity_threshold < similarity qe doc)%Q
                  /\ forall doc', doc' ∈ seen -> (similarity qe doc' <= similarity qe doc)%Q).

End EmbeddingIndex.
End EmbeddingIndex.

(** ** orchestrator.py *)

Record QueryStrategy := {
  use_rag : bool;
  use_kag : bool;
  use_temporal : bool;
  use_tools : bool;
  rag_limit : Z;
  kg_depth : Z;
  time_range : option string;
  reasoning : string
}.

(** A prompt is represented by the data that the f-string interpolates. *)
Inductive prompt :=
| AnalysisPrompt (query : string) (context : option pyval)
| AnswerPrompt (query : string) (context : string) (sources : list pyval).

(** The language model, [json.loads] on its text, and the coercions that
    pydantic applies to the fields of a model.  A value that already has the
    declared type is accepted as it is. *)
Class PlannerServices := {
  (** [(await self.agent.run(prompt)).data] *)
  agent_run : prompt -> outcome string;
  json_loads : string -> outcome pyval;
  as_bool : pyval -> outcome bool;
  as_int : pyval -> outcome Z;
  as_float : pyval -> outcome Q;
  as_str : pyval -> outcome string;
  as_dict_list : pyval -> outcome (list pyval);
  as_str_list : pyval -> outcome (list string);
  as_opt_dict : pyval -> outcome (option pyval);
  as_bool_PBool : forall b, as_bool (PBool b) = Ok b;
  as_str_PStr : forall s, as_str (PStr s) = Ok s
}.

Module OrchestratorAgent.
Section OrchestratorAgent.

Context {planner : PlannerServices}.

(** A keyword argument of a pydantic model: absent, it takes the default. *)
Definition field {A} (d : gmap string pyval) (k : string) (dflt : A)
           (conv : pyval -> outcome A) : outcome A :=
  match d !! k with
  | Some v => conv v
  | None => Ok dflt
  end.

Definition as_opt_str (v : pyval) : outcome (option string) :=
  match v with
  | PNone => Ok None
  | _ => s ← as_str v; mret (Some s)
  end.

(** The constructor [QueryStrategy] applied to the keyword arguments
    [strategy_dict]. *)
Definition QueryStrategy_init (d : gmap string pyval) : outcome QueryStrategy :=
  rag ← field d "use_rag" true as_bool;
  kag ← field d "use_kag" false as_bool;
  temporal ← field d "use_temporal" false as_bool;
  tools ← field d "use_tools" false as_bool;
  limit ← field d "rag_limit" 10%Z as_int;
  depth ← field d "kg_depth" 2%Z as_int;
  range ← field d "time_range" None as_opt_str;
  why ← field d "reasoning" EmptyString as_str;
  mret {| use_rag := rag; use_kag := kag; use_temporal := temporal;
          use_tools := tools; rag_limit := limit; kg_depth := depth;
          time_range := range; reasoning := why |}.

Definition fallback_parse (llm_output : string) : gmap string pyval :=
  let low := Str.lower llm_output in
  <["use_rag" := PBool (Str.contains "rag" low || Str.contains "vector" low)]>
  (<["use_kag" := PBool (Str.contains "knowledge graph" low
                         || Str.contains "relationship" low)]>
  (<["use_temporal" := PBool (Str.contains "temporal" low || Str.contains "time" low)]>
  (<["use_tools" := PBool (Str.contains "tool" low || Str.contains "external" low)]>
  (<["reasoning" := PStr (Str.take 200 llm_output)]> ∅)))).

Definition parse_error_strategy : gmap string pyval :=
  <["use_rag" := PBool true]>
  (<["reasoning" := PStr "Parse error - using default RAG strategy"]> ∅).

Definition _parse_strategy (llm_output : string) : pyval :=
  try_except
    (match Str.search_braces llm_output with
     | Some json_match => json_loads json_match
     | None => Ok (PDict (fallback_parse llm_output))
     end)
    (fun _ => PDict parse_error_strategy).

(** [QueryStrategy(use_rag=True, reasoning="Default strategy due to analysis error")] *)
Definition default_strategy : QueryStrategy :=
  {| use_rag := true; use_kag := false; use_temporal := false;
     use_tools := false; rag_limit := 10; kg_depth := 2; time_range := None;
     reasoning := "Default strategy due to analysis error" |}.

Definition analyze_query (query : string) (context : option pyval) : QueryStrategy :=
  try_except
    (data ← agent_run (AnalysisPrompt query context);
     match _parse_strategy data with
     | PDict strategy_dict => QueryStrategy_init strategy_dict
     | _ => Raise TypeError
     end)
    (fun _ => default_strategy).

(** What [QueryStrategy] makes of [parse_error_strategy]. *)
Definition parse_error_default : QueryStrategy :=
  {| use_rag := true; use_kag := false; use_temporal := false;
     use_tools := false; rag_limit := 10; kg_depth := 2; time_range := None;
     reasoning := "Parse error - using default RAG strategy" |}.

(** What [QueryStrategy] makes of [fallback_parse llm_output]. *)
Definition keyword_strategy (llm_output : string) : QueryStrategy :=
  let low := Str.lower llm_output in
  {| use_rag := Str.contains "rag" low || Str.contains "vector" low;
     use_kag := Str.contains "knowledge graph" low || Str.contains "relationship" low;
     use_temporal := Str.contains "temporal" low || Str.contains "time" low;
     use_tools := Str.contains "tool" low || Str.contains "external" low;
     rag_limit := 10; kg_depth := 2; time_range := None;
     reasoning := Str.take 200 llm_output |}.

Definition apology : string :=
  "I apologize, but I encountered an error while generating the answer. Please try again.".

(** [generate_answer]; [_format_sources] receives [sources[:5]]. *)
Definition generate_answer (query context : string) (sources : list pyval) : string :=
  try_except (agent_run (AnswerPrompt query context (take 5 sources)))
             (fun _ => apology).

(** [strategy.dict()] *)
Definition strategy_dict (st : QueryStrategy) : pyval :=
  PDict (<["use_rag" := PBool (use_rag st)]>
        (<["use_kag" := PBool (use_kag st)]>
        (<["use_temporal" := PBool (use_temporal st)]>
        (<["use_tools" := PBool (use_tools st)]>
        (<["rag_limit" := PNum (inject_Z (rag_limit st))]>
        (<["kg_depth" := PNum (inject_Z (kg_depth st))]>
        (<["time_range" := opt_str (time_range st)]>
        (<["reasoning" := PStr (reasoning st)]> ∅)))))))).

End OrchestratorAgent.
End OrchestratorAgent.

(** ** rag_agent.py and kag_agent.py: the shape of what they return

    The dictionaries that the agents return always carry the keys that
    [UnifiedAgent] reads, so the defaults of its [.get] calls never apply;
    values that are only copied into the sources are kept as [pyval]. *)

Record RagItem := {
  chunk_id : string;
  content : string;
  score : Q;
  document_title : pyval;
  document_source : pyval
}.

Record RagResult := {
  rag_results : list RagItem;
  rag_error : option exn
}.

Record Relationship := {
  rel_source : pyval;
  rel_target : pyval;
  rel_type : pyval;
  rel_properties : pyval;
  rel_confidence : Q
}.

Record KagResult := {
  kag_entities : list pyval;
  kag_relationships : list Relationship;
  kag_insights : list string;
  kag_error : option exn
}.

Record TimelineEvent := {
  ev_date : pyval;
  ev_description : pyval;
  ev_type : pyval;
  ev_entities : pyval
}.

Record TemporalResult := {
  tmp_timeline : list TimelineEvent;
  tmp_trends : list pyval;
  tmp_error : option exn
}.

(** The three retrieval calls that [UnifiedAgent] awaits. *)
Class RetrievalAgents := {
  rag_search : string -> option pyval -> Z -> outcome RagResult;
  kag_analyze_relationships : string -> Z -> outcome KagResult;
  kag_temporal_search : string -> option string -> outcome TemporalResult
}.

(** The data bases behind the agents of the repository: what the body of
    the [try] block of each method produces, or the exception that reaches
    its [except Exception] handler. *)
Class SearchBackends := {
  vector_rows : string -> option pyval -> Z -> outcome (list RagItem);
  graph_rows : string -> Z -> outcome (list pyval * list Relationship * list string);
  timeline_rows : string -> option string -> outcome (list TimelineEvent * list pyval)
}.

Module RAGAgent.

(** [search]: the [except Exception] branch returns an empty result. *)
Definition search {backends : SearchBackends} (query : string) (filters : option pyval)
           (limit : Z) : RagResult :=
  try_except
    (rows ← vector_rows query filters limit;
     mret {| rag_results := rows; rag_error := None |})
    (fun e => {| rag_results := []; rag_error := Some e |}).

End RAGAgent.

Module KAGAgent.

Definition analyze_relationships {backends : SearchBackends} (query : string) (max_depth : Z)
  : KagResult :=
  try_except
    ('(ents, rels, ins) ← graph_rows query max_depth;
     mret {| kag_entities := ents; kag_relationships := rels;
             kag_insights := ins; kag_error := None |})
    (fun e => {| kag_entities := []; kag_relationships := [];
                 kag_insights := []; kag_error := Some e |}).

Definition temporal_search {backends : SearchBackends} (query : string)
           (time_range : option string) : TemporalResult :=
  try_except
    ('(tl, tr) ← timeline_rows query time_range;
     mret {| tmp_timeline := tl; tmp_trends := tr; tmp_error := None |})
    (fun e => {| tmp_timeline := []; tmp_trends := []; tmp_error := Some e |}).

End KAGAgent.

(** The agents of the repository never raise. *)
#[export] Instance repository_agents {backends : SearchBackends} : RetrievalAgents := {|
  rag_search := fun q f l => Ok (RAGAgent.search q f l);
  kag_analyze_relationships := fun q d => Ok (KAGAgent.analyze_relationships q d);
  kag_temporal_search := fun q r => Ok (KAGAgent.temporal_search q r)
|}.

(** ** unified_agent.py

    Logging and the Prometheus counters are left out.  The world a request
    runs in is the Redis store together with the log of the retrieval calls:
    [await f()] runs [f] to completion before the next statement, so each call
    writes [Started] and then [Returned] or [Failed]. *)

Inductive Source := SemanticSearch | GraphSearch | TemporalSearch.

Inductive Event :=
| Started (src : Source)
| Returned (src : Source)
| Failed (src : Source).

Record World := {
  redis : gmap string (pyval * Q);
  calls : list Event
}.

Definition M (A : Type) : Type := World -> outcome A * World.

#[global] Instance M_ret : MRet M := fun A a w => (Ok a, w).

#[global] Instance M_bind : MBind M := fun A B k m w =>
  match m w with
  | (Ok a, w') => k a w'
  | (Raise e, w') => (Raise e, w')
  end.

Definition log_call (ev : Event) (w : World) : World :=
  {| redis := redis w; calls := calls w ++ [ev] |}.

Definition set_redis (s : gmap string (pyval * Q)) (w : World) : World :=
  {| redis := s; calls := calls w |}.

(** [await agent.method(...)] where the call produces [r] *)
Definition await {A} (src : Source) (r : outcome A) : M A := fun w =>
  let w1 := log_call (Started src) w in
  match r with
  | Ok a => (Ok a, log_call (Returned src) w1)
  | Raise e => (Raise e, log_call (Failed src) w1)
  end.

Definition lift {A} (r : outcome A) : M A := fun w => (r, w).

(** A log in which every call has finished before the next one starts. *)
Inductive sequential : list Event -> Prop :=
| sequential_nil : sequential []
| sequential_returned (src : Source) (l : list Event) :
    sequential l -> sequential (Started src :: Returned src :: l)
| sequential_failed (src : Source) (l : list Event) :
    sequential l -> sequential (Started src :: Failed src :: l).

(** A log in which a call starts while an earlier one is still running. *)
Definition overlapping (l : list Event) : Prop :=
  exists a b l1 l2 l3,
    l = l1 ++ Started a :: l2 ++ Started b :: l3
    /\ (Returned a ∉ l2) /\ (Failed a ∉ l2).

(** A computation that adds to the log only calls made one after the other. *)
Definition appends_sequential {A} (m : M A) : Prop :=
  forall w, exists l, calls (snd (m w)) = calls w ++ l /\ sequential l.

Module UnifiedAgent.

Record QueryRequest := {
  query : string;
  user_id : option string;
  session_id : option string;
  context : option pyval;
  filters : option pyval;
  use_cache : bool
}.

Record QueryResponse := {
  answer : string;
  sources : list pyval;
  confidence : Q;
  strategy_used : list string;
  processing_time : Q;
  cached : bool;
  metadata : option pyval
}.

(** The local dictionary [results] of [process_query]. *)
Record Results := {
  rag : option RagResult;
  kag : option KagResult;
  temporal : option TemporalResult
}.

Definition no_results : Results := {| rag := None; kag := None; temporal := None |}.

(** The labels appended to [strategies_used] for a strategy. *)
Definition labels (strategy : QueryStrategy) : list string :=
  (if use_rag strategy then ["RAG"] else [])
  ++ (if use_kag strategy then ["KAG"] else [])
  ++ (if use_temporal strategy then ["KAG-Temporal"] else []).

(** [sum(l)] and [sum(l) / len(l)] *)
Definition Qsum (l : list Q) : Q := fold_left Qplus l 0%Q.

Definition mean (l : list Q) : Q := (Qsum l / inject_Z (Z.of_nat (length l)))%Q.

Definition _calculate_confidence (results : Results) : Q :=
  let scores : list Q := [] in
  let scores :=
    match rag results with
    | Some r =>
        let rag_scores := List.map score (rag_results r) in
        match rag_scores with
        | [] => scores
        | _ => scores ++ [mean rag_scores]
        end
    | None => scores
    end in
  let scores :=
    match kag results with
    | Some k =>
        let rel_count := length (kag_relationships k) in
        scores ++ [Qmin (inject_Z (Z.of_nat rel_count) / 10) 1]
    | None => scores
    end in
  let scores :=
    match temporal results with
    | Some t =>
        let timeline_count := length (tmp_timeline t) in
        scores ++ [Qmin (inject_Z (Z.of_nat timeline_count) / 5) 1]
    | None => scores
    end in
  match scores with
  | [] => 1 # 2
  | _ => mean scores
  end.

Definition _determine_query_type (strategies : list string) : string :=
  if existsb (String.eqb "KAG-Temporal") strategies then "temporal"
  else if existsb (String.eqb "KAG") strategies && existsb (String.eqb "RAG") strategies
       then "analytical"
  else if existsb (String.eqb "RAG") strategies then "factual"
  else "general".

Definition source_of_item (item : RagItem) : pyval :=
  PDict (<["type" := PStr "document"]>
        (<["title" := document_title item]>
        (<["content" := PStr (content item)]>
        (<["score" := PNum (score item)]>
        (<["source" := PStr "rag"]> ∅))))).

Definition source_of_relationship (rel : Relationship) : pyval :=
  PDict (<["type" := PStr "relationship"]>
        (<["entities" := PList [rel_source rel; rel_target rel]]>
        (<["relationship" := rel_type rel]>
        (<["properties" := rel_properties rel]>
        (<["source" := PStr "kag"]> ∅))))).

Definition source_of_event (event : TimelineEvent) : pyval :=
  PDict (<["type" := PStr "temporal"]>
        (<["date" := ev_date event]>
        (<["event" := ev_description event]>
        (<["entities" := ev_entities event]>
        (<["source" := PStr "temporal"]> ∅))))).

Definition all_sources (results : Results) : list pyval :=
  match rag results with
  | Some r => List.map source_of_item (rag_results r)
  | None => []
  end
  ++ match kag results with
     | Some k => List.map source_of_relationship (kag_relationships k)
     | None => []
     end
  ++ match temporal results with
     | Some t => List.map source_of_event (tmp_timeline t)
     | None => []
     end.

Definition all_content (results : Results) : list string :=
  match rag results with
  | Some r => List.map content (rag_results r)
  | None => []
  end
  ++ match kag results with
     | Some k => kag_insights k
     | None => []
     end.

Definition blank_line : string := String "010" (String "010" EmptyString).

Section UnifiedAgent.

Context {cache : CacheServices} {server : RedisServer} {planner : PlannerServices} {agents : RetrievalAgents}.
Variable settings : Settings.

(** [_combine_results]: answer, sources and confidence *)
Definition _combine_results (results : Results) (query : string)
  : string * list pyval * Q :=
  let context := Str.join blank_line (take 5 (all_content results)) in
  let answer :=
    OrchestratorAgent.generate_answer query context (take 10 (all_sources results)) in
  (answer, all_sources results, _calculate_confidence results).

Definition request_context (request : QueryRequest) : option UserContext :=
  Some (Build_UserContext (user_id request) (session_id request)).

(** The constructor call of [_check_cache]: the keyword arguments are
    evaluated in order, then pydantic validates them. *)
Definition cached_response (d : gmap string pyval) : outcome QueryResponse :=
  a ← getitem d "answer";
  s ← getitem d "sources";
  c ← getitem d "confidence";
  let u := dict_get d "strategy_used" (PList [PStr "CACHE"]) in
  let m := dict_get d "metadata" PNone in
  a' ← as_str a;
  s' ← as_dict_list s;
  c' ← as_float c;
  u' ← as_str_list u;
  m' ← as_opt_dict m;
  mret {| answer := a'; sources := s'; confidence := c'; strategy_used := u';
          processing_time := 0; cached := true; metadata := m' |}.

Definition _check_cache (now : Q) (request : QueryRequest) : M (option QueryResponse) :=
  fun w =>
    let '(cached_result, s') :=
      CAGAgent.check_cache settings now (redis w) (query request)
                           (request_context request) in
    let w' := set_redis s' w in
    match cached_result with
    | Some v =>
        if truthy v then
          match v with
          | PDict d =>
              match as_number (dict_get d "confidence" (PNum 0)) with
              | Ok conf =>
                  if Qltb (9 # 10) conf
                  then (r ← cached_response d; mret (Some r), w')
                  else (Ok None, w')
              | Raise e => (Raise e, w')
              end
          | _ => (Raise AttributeError, w')
          end
        else (Ok None, w')
    | None => (Ok None, w')
    end.

Definition response_payload (response : QueryResponse) : gmap string pyval :=
  <["answer" := PStr (answer response)]>
  (<["sources" := PList (sources response)]>
  (<["confidence" := PNum (confidence response)]>
  (<["strategy_used" := PList (List.map PStr (strategy_used response))]>
  (<["metadata" := default PNone (metadata response)]> ∅)))).

Definition _update_cache (now : Q) (request : QueryRequest) (response : QueryResponse)
  : M unit :=
  fun w =>
    (Ok tt,
     set_redis
       (CAGAgent.update_cache settings now (redis w) (query request)
          (response_payload response) (request_context request)
          (_determine_query_type (strategy_used response)))
       w).

Definition result_counts (results : Results) : pyval :=
  let count {A} (k : string) (o : option A) (n : A -> nat) (d : gmap string pyval) :=
    match o with
    | Some v => <[k := PNum (inject_Z (Z.of_nat (n v)))]> d
    | None => d
    end in
  PDict (count "rag" (rag results) (fun r => length (rag_results r))
        (count "kag" (kag results) (fun _ => 0%nat)
        (count "temporal" (temporal results) (fun _ => 0%nat) ∅))).

(** Step 3 of [process_query]: the retrieval calls, one [await] after the
    other, each after its label has been appended to [strategies_used]. *)
Definition retrieve (request : QueryRequest) (strategy : QueryStrategy)
  : M (Results * list string) :=
  let results := no_results in
  let strategies_used : list string := [] in
  '(results, strategies_used) ←
    (if use_rag strategy then
       let strategies_used := strategies_used ++ ["RAG"] in
       r ← await SemanticSearch
             (rag_search (query request) (filters request) (rag_limit strategy));
       mret ({| rag := Some r; kag := kag results; temporal := temporal results |},
             strategies_used)
     else mret (results, strategies_used));
  '(results, strategies_used) ←
    (if use_kag strategy then
       let strategies_used := strategies_used ++ ["KAG"] in
       r ← await GraphSearch
             (kag_analyze_relationships (query request) (kg_depth strategy));
       mret ({| rag := rag results; kag := Some r; temporal := temporal results |},
             strategies_used)
     else mret (results, strategies_used));
  (if use_temporal strategy then
     let strategies_used := strategies_used ++ ["KAG-Temporal"] in
     r ← await TemporalSearch
           (kag_temporal_search (query request) (time_range strategy));
     mret ({| rag := rag results; kag := kag results; temporal := Some r |},
           strategies_used)
   else mret (results, strategies_used)).

(** [process_query].  The request starts at [start_time]; the response is
    built, and the cache written, at [end_time].  The handler
    [except Exception: ...; raise] passes the exception on. *)
Definition process_query (start_time end_time : Q) (request : QueryRequest)
  : M QueryResponse :=
  cache_result ←
    (if use_cache request then _check_cache start_time request else mret None);
  match cache_result with
  | Some response => mret response
  | None =>
      let strategy :=
        OrchestratorAgent.analyze_query (query request) (context request) in
      '(results, strategies_used) ← retrieve request strategy;
      let '(ans, srcs, conf) := _combine_results results (query request) in
      let response :=
        {| answer := ans; sources := srcs; confidence := conf;
           strategy_used := strategies_used;
           processing_time := (end_time - start_time)%Q;
           cached := false;
           metadata :=
             Some (PDict (<["strategy" := OrchestratorAgent.strategy_dict strategy]>
                         (<["result_counts" := result_counts results]> ∅))) |} in
      _ ← (if use_cache request then _update_cache end_time request response
           else mret tt);
      mret response
  end.

End UnifiedAgent.
End UnifiedAgent.

Definition in_unit_interval (x : Q) : Prop := (0 <= x)%Q /\ (x <= 1)%Q.

(** ** The aggregate confidence as the specification words it

    "The unweighted mean of per-source signals": the semantic signal is the
    mean similarity score and is present when semantic search returned hits;
    the graph and temporal signals are present when those searches ran. *)

Module ConfidenceSpec.
Import UnifiedAgent.

Definition arithmetic_mean (l : list Q) : Q :=
  (fold_right Qplus 0 l / inject_Z (Z.of_nat (length l)))%Q.

Definition semantic_signal (results : Results) : option Q :=
  match rag results with
  | Some r =>
      match rag_results r with
      | [] => None
      | hits => Some (arithmetic_mean (List.map score hits))
      end
  | None => None
  end.

Definition graph_signal (results : Results) : option Q :=
  match kag results with
  | Some k => Some (Qmin (inject_Z (Z.of_nat (length (kag_relationships k))) / 10) 1)
  | None => None
  end.

Definition temporal_signal (results : Results) : option Q :=
  match temporal results with
  | Some t => Some (Qmin (inject_Z (Z.of_nat (length (tmp_timeline t))) / 5) 1)
  | None => None
  end.

Definition present_signals (results : Results) : list Q :=
  omap id [semantic_signal results; graph_signal results; temporal_signal results].

Definition aggregate_confidence (results : Results) : Q :=
  match present_signals results with
  | [] => 1 # 2
  | signals => arithmetic_mean signals
  end.

End ConfidenceSpec.

(** ** Sample collaborators, for the concrete runs below *)

Module Sample.
Import UnifiedAgent.

(** A square root that is exact on squares of rationals. *)
Definition sqrt_exact (q : Q) : Q := Z.sqrt (Qnum q) # Pos.sqrt (Qden q).

(** The query ["alpha"] embeds to a vector of norm 20, every other text to
    the first unit vector; their cosine similarity is 17/20. *)
Definition embed (text : string) : outcome (list Q) :=
  if String.eqb text "alpha"
  then Ok [17; 10; 3; 1; 1]%Q
  else Ok [1; 0; 0; 0; 0]%Q.

Definition cache_services : CacheServices :=
  {| md5_hex := fun text => text; np_sqrt := sqrt_exact; embed_text := embed |}.

(** A server that matches every pattern as a plain glob; the samples use
    simple patterns only. *)
Definition redis_server : RedisServer :=
  {| key_matches := Str.glob; key_matches_simple := fun _ _ _ => eq_refl |}.

Definition strict_bool (v : pyval) : outcome bool :=
  match v with PBool b => Ok b | _ => Raise ValidationError end.

Definition strict_int (v : pyval) : outcome Z :=
  match v with
  | PNum q => if (Qden q =? 1)%positive then Ok (Qnum q) else Raise ValidationError
  | _ => Raise ValidationError
  end.

Definition strict_float (v : pyval) : outcome Q :=
  match v with PNum q => Ok q | _ => Raise ValidationError end.

Definition strict_str (v : pyval) : outcome string :=
  match v with PStr s => Ok s | _ => Raise ValidationError end.

Definition strict_dict_list (v : pyval) : outcome (list pyval) :=
  match v with PList l => Ok l | _ => Raise ValidationError end.

Definition strict_str_list (v : pyval) : outcome (list string) :=
  match v with
  | PList l => mapM (M := outcome) strict_str l
  | _ => Raise ValidationError
  end.

Definition strict_opt_dict (v : pyval) : outcome (option pyval) :=
  match v with
  | PNone => Ok None
  | PDict d => Ok (Some (PDict d))
  | _ => Raise ValidationError
  end.

(** A language model that answers every planning prompt with [plan] and
    every other prompt with a fixed sentence. *)
Definition planner (plan : outcome string) : PlannerServices :=
  {| agent_run := fun p =>
       match p with
       | AnalysisPrompt _ _ => plan
       | AnswerPrompt _ _ _ => Ok "DataLive is a retrieval system."
       end;
     json_loads := fun _ => Raise ValueError;
     as_bool := strict_bool; as_int := strict_int; as_float := strict_float;
     as_str := strict_str; as_dict_list := strict_dict_list;
     as_str_list := strict_str_list; as_opt_dict := strict_opt_dict;
     as_bool_PBool := fun _ => eq_refl;
     as_str_PStr := fun _ => eq_refl |}.

Definition hit (s : Q) : RagItem :=
  {| chunk_id := "c1"; content := "DataLive indexes documents.";
     score := s; document_title := PStr "Overview";
     document_source := PStr "docs/overview.md" |}.

Definition hits (scores : list Q) : RagResult :=
  {| rag_results := List.map hit scores; rag_error := None |}.

(** Semantic search returns [scores]; both graph calls raise. *)
Definition graph_down (scores : list Q) : RetrievalAgents :=
  {| rag_search := fun _ _ _ => Ok (hits scores);
     kag_analyze_relationships := fun _ _ => Raise (ServiceError "neo4j unavailable");
     kag_temporal_search := fun _ _ => Raise (ServiceError "neo4j unavailable") |}.

(** The vector store answers; the body of both graph methods raises. *)
Definition graph_backend_down (scores : list Q) : SearchBackends :=
  {| vector_rows := fun _ _ _ => Ok (List.map hit scores);
     graph_rows := fun _ _ => Raise (ServiceError "neo4j unavailable");
     timeline_rows := fun _ _ => Raise (ServiceError "neo4j unavailable") |}.

Definition relation : Relationship :=
  {| rel_source := PStr "DataLive"; rel_target := PStr "Neo4j";
     rel_type := PStr "USES"; rel_properties := PDict ∅; rel_confidence := 1 |}.

(** Every retrieval call succeeds. *)
Definition all_up (scores : list Q) : RetrievalAgents :=
  {| rag_search := fun _ _ _ => Ok (hits scores);
     kag_analyze_relationships := fun _ _ =>
       Ok {| kag_entities := []; kag_relationships := [relation];
             kag_insights := []; kag_error := None |};
     kag_temporal_search := fun _ _ =>
       Ok {| tmp_timeline := []; tmp_trends := []; tmp_error := None |} |}.

Definition request (q : string) (cache : bool) : QueryRequest :=
  {| query := q; user_id := None; session_id := None; context := None;
     filters := None; use_cache := cache |}.

Definition empty_world : World := {| redis := ∅; calls := [] |}.

(** A planner whose answer has no braces and names two sources. *)
Definition two_source_planner : PlannerServices :=
  planner (Ok "rag and relationship search").

Definition uncached_request : QueryRequest := request "What is DataLive?" false.

Definition cached_request : QueryRequest := request "What is DataLive?" true.

(** The payload that [_update_cache] hands to the cache for an answer of
    confidence [c]. *)
Definition payload (c : Q) : gmap string pyval :=
  <["answer" := PStr "DataLive is a retrieval system."]>
  (<["sources" := PList []]>
  (<["confidence" := PNum c]>
  (<["strategy_used" := PList [PStr "RAG"]]>
  (<["metadata" := PNone]> ∅)))).

(** The store after one answer to [q] has been cached at instant 0. *)
Definition store_after (q query_type : string) : gmap string (pyval * Q) :=
  CAGAgent.update_cache (cache := cache_services) default_settings 0 ∅ q
                        (payload (95 # 100)) None query_type.

(** The scenario of the specification: three hits scored 0.9, 0.8 and 0.75. *)
Definition three_hits : Results :=
  {| rag := Some (hits [9 # 10; 8 # 10; 75 # 100]%Q); kag := None; temporal := None |}.

End Sample.

(** ** cag_agent.py: statistics *)

Module CacheStats.

Definition cache_types : list string :=
  ["exact"; "normalized"; "user"; "session"; "semantic"].

(** [len(await redis_client.keys(f"{cache_type}:*"))] *)
Definition count_keys {server : RedisServer} (now : Q) (s : gmap string (pyval * Q))
           (cache_type : string) : nat :=
  length (Redis.keys now s (cache_type +:+ ":*")).

(** [get_cache_stats]; [memory_info] is what [redis_client.info('memory')]
    answers.  Any exception gives the empty dictionary. *)
Definition get_cache_stats {server : RedisServer} (now : Q) (s : gmap string (pyval * Q))
           (memory_info : outcome (gmap string pyval)) : gmap string pyval :=
  try_except
    (let stats :=
       foldl (fun stats cache_type =>
                <[cache_type := PNum (inject_Z (Z.of_nat (count_keys now s cache_type)))]> stats)
             ∅ cache_types in
     info ← memory_info;
     mret (<["memory_peak" := dict_get info "used_memory_peak_human" (PStr "Unknown")]>
          (<["memory_used" := dict_get info "used_memory_human" (PStr "Unknown")]> stats)))
    (fun _ => ∅).

End CacheStats.

(** Every live or expired document under [semantic_embeddings:*] has the
    three parts that the similarity search reads. *)
Definition index_well_formed (s : gmap string (pyval * Q)) : Prop :=
  forall k e, s !! k = Some e -> Str.glob "semantic_embeddings:*" k = true ->
              is_Some (EmbeddingIndex.parts (fst e)).

(** A computation that leaves the Redis store as it found it. *)
Definition keeps_store {A} (m : M A) : Prop :=
  forall w, redis (snd (m w)) = redis w.

(** A pattern fragment in which every character stands for itself: none of
    the characters [*], [?], [[], []] and [\] that Redis reads specially. *)
Fixpoint plain (p : string) : bool :=
  match p with
  | EmptyString => true
  | String c r =>
      negb (Ascii.eqb c "*") && negb (Ascii.eqb c "?") && negb (Ascii.eqb c "[")
      && negb (Ascii.eqb c "]") && negb (Ascii.eqb c "\") && plain r
  end.

(** The dictionary [results] of [process_query] once the agents of the
    repository have been called for [strategy]. *)
Definition retrieved {backends : SearchBackends} (request : UnifiedAgent.QueryRequest)
           (strategy : QueryStrategy) : UnifiedAgent.Results :=
  {| UnifiedAgent.rag :=
       if use_rag strategy
       then Some (RAGAgent.search (UnifiedAgent.query request) (UnifiedAgent.filters request)
                    (rag_limit strategy))
       else None;
     UnifiedAgent.kag :=
       if use_kag strategy
       then Some (KAGAgent.analyze_relationships (UnifiedAgent.query request)
                    (kg_depth strategy))
       else None;
     UnifiedAgent.temporal :=
       if use_temporal strategy
       then Some (KAGAgent.temporal_search (UnifiedAgent.query request)
                    (time_range strategy))
       else None |}.

(** The text [out] contains the keyword [kw], in whatever letter case and
    whether or not it stands as a word of its own. *)
Definition mentions (kw out : string) : Prop :=
  exists pre word post, out = pre +:+ word +:+ post /\ Str.lower word = kw.

(** ** core/embeddings.py: the embedding client

    [provider] is the HTTP call to the configured provider, or the
    [ValueError] raised for an unsupported one.  Whatever it raises,
    [embed_text] answers with a vector of zeros. *)

Module EmbeddingClient.

Definition embed_text (provider : string -> outcome (list Q)) (vector_dimension : nat)
           (text : string) : list Q :=
  try_except (provider text) (fun _ => repeat 0%Q vector_dimension).

End EmbeddingClient.

(** The services of the cache when its embeddings come from
    [EmbeddingClient]. *)
Definition client_services (md5 : string -> string) (sqrt : Q -> Q)
           (provider : string -> outcome (list Q)) (vector_dimension : nat)
  : CacheServices :=
  {| md5_hex := md5; np_sqrt := sqrt;
     embed_text := fun text =>
       Ok (EmbeddingClient.embed_text provider vector_dimension text) |}.

(** ** kag_agent.py: [_generate_insights]

    The function works on the [RelationshipResult] objects, before
    [analyze_relationships] turns them into dictionaries; names of entities
    and of relationship types are strings, as the class annotates them.  A
    Python dictionary used as a counter is an association list in insertion
    order, the order in which [max] walks it.  On such inputs nothing in the
    [try] block raises, so the [except] branch is not reached. *)

Module KAGInsights.

Record EntityResult := {
  entity_id : string;
  name : string;
  type : string;
  properties : gmap string pyval
}.

Record RelationshipResult := {
  source : string;
  target : string;
  relationship_type : string;
  confidence : Q
}.

(** [d[k] = d.get(k, 0) + 1] *)
Fixpoint bump (k : string) (d : list (string * nat)) : list (string * nat) :=
  match d with
  | [] => [(k, 1%nat)]
  | (k', n) :: r => if String.eqb k k' then (k', S n) :: r else (k', n) :: bump k r
  end.

(** [d.get(k, 0)] *)
Fixpoint get (k : string) (d : list (string * nat)) : nat :=
  match d with
  | [] => 0%nat
  | (k', n) :: r => if String.eqb k k' then n else get k r
  end.

(** [max(d, key=d.get)], with the count of the key: [max] keeps the first
    key it meets and replaces it only by one with a strictly greater count.
    [None] stands for the [ValueError] on an empty dictionary. *)
Definition max_key (d : list (string * nat)) : option (string * nat) :=
  match d with
  | [] => None
  | first :: rest =>
      Some (fold_left (fun best kv => if (snd best <? snd kv)%nat then kv else best)
                      rest first)
  end.

(** [str(n)] *)
Definition str_int (n : nat) : string := NilEmpty.string_of_uint (Nat.to_uint n).

Definition entity_connections (relationships : list RelationshipResult)
  : list (string * nat) :=
  fold_left (fun d rel => bump (target rel) (bump (source rel) d)) relationships [].

Definition rel_types (relationships : list RelationshipResult) : list (string * nat) :=
  fold_left (fun d rel => bump (relationship_type rel) d) relationships [].

Definition high_conf_rels (relationships : list RelationshipResult)
  : list RelationshipResult :=
  List.filter (fun r => Qltb (8 # 10) (confidence r)) relationships.

Definition most_connected_line (most_connected : string) (n : nat) : string :=
  "'" +:+ most_connected +:+ "' is the most connected entity with "
  +:+ str_int n +:+ " relationships".

Definition common_rel_line (common_rel : string) (n : nat) : string :=
  "Most common relationship type is '" +:+ common_rel +:+ "' ("
  +:+ str_int n +:+ " occurrences)".

Definition high_conf_line (n : nat) : string :=
  "Found " +:+ str_int n +:+ " high-confidence relationships (confidence > 0.8)".

(** The guards [if entity_connections:] and [if rel_types:] are the [None]
    cases of [max_key]. *)
Definition _generate_insights (entities : list EntityResult)
           (relationships : list RelationshipResult) : list string :=
  let insights : list string := [] in
  match entities, relationships with
  | [], _ | _, [] => insights
  | _, _ =>
      let insights :=
        match max_key (entity_connections relationships) with
        | Some (most_connected, n) => insights ++ [most_connected_line most_connected n]
        | None => insights
        end in
      let insights :=
        match max_key (rel_types relationships) with
        | Some (common_rel, n) => insights ++ [common_rel_line common_rel n]
        | None => insights
        end in
      match high_conf_rels relationships with
      | [] => insights
      | l => insights ++ [high_conf_line (length l)]
      end
  end.

(** The number of relationships that [e] is an end of, a relationship from
    [e] to [e] counting twice; the number of relationships of type [t]. *)
Definition connections (e : string) (relationships : list RelationshipResult) : nat :=
  (length (List.filter (fun r => String.eqb e (source r)) relationships)
   + length (List.filter (fun r => String.eqb e (target r)) relationships))%nat.

Definition occurrences (t : string) (relationships : list RelationshipResult) : nat :=
  length (List.filter (fun r => String.eqb t (relationship_type r)) relationships).

End KAGInsights.

(** ** More sample collaborators

    From here on the sample runs use the sample server. *)

#[global] Existing Instance Sample.redis_server.

Module SampleMore.

(** The defaults with [CACHE_TTL_TEMPORAL=0] in the environment. *)
Definition no_temporal_ttl : Settings :=
  {| cache_ttl_factual := 3600; cache_ttl_analytical := 1800;
     cache_ttl_temporal := 0; cache_ttl_personal := 300 |}.


Definition user_42 : option UserContext :=
  Some {| user_id := Some "42"; session_id := None |}.

(** The store after one answer has been cached for user 42 at instant 0. *)
Definition store_of_user_42 : gmap string (pyval * Q) :=
  CAGAgent.update_cache (cache := Sample.cache_services) default_settings 0 ∅
                        "What is DataLive?" (Sample.payload (95 # 100)) user_42 "factual".

(** The language model is down for every prompt. *)
Definition model_down : PlannerServices :=
  {| agent_run := fun _ => Raise (ServiceError "model unavailable");
     json_loads := fun _ => Raise ValueError;
     as_bool := Sample.strict_bool; as_int := Sample.strict_int;
     as_float := Sample.strict_float; as_str := Sample.strict_str;
     as_dict_list := Sample.strict_dict_list; as_str_list := Sample.strict_str_list;
     as_opt_dict := Sample.strict_opt_dict;
     as_bool_PBool := fun _ => eq_refl;
     as_str_PStr := fun _ => eq_refl |}.

(** Every data base is down. *)
Definition all_backends_down : SearchBackends :=
  {| vector_rows := fun _ _ _ => Raise (ServiceError "postgres unavailable");
     graph_rows := fun _ _ => Raise (ServiceError "neo4j unavailable");
     timeline_rows := fun _ _ => Raise (ServiceError "neo4j unavailable") |}.

Definition blank_response : UnifiedAgent.QueryResponse :=
  {| UnifiedAgent.answer := EmptyString; UnifiedAgent.sources := [];
     UnifiedAgent.confidence := 0; UnifiedAgent.strategy_used := [];
     UnifiedAgent.processing_time := 0; UnifiedAgent.cached := false;
     UnifiedAgent.metadata := None |}.

(** The response of a run, when it has one. *)
Definition response_of (run : outcome UnifiedAgent.QueryResponse * World)
  : UnifiedAgent.QueryResponse :=
  match fst run with
  | Ok r => r
  | Raise _ => blank_response
  end.

(** A first request, answered from one document hit scored 0.8. *)
Definition first_run : outcome UnifiedAgent.QueryResponse * World :=
  UnifiedAgent.process_query
    (cache := Sample.cache_services) (planner := Sample.planner (Ok "rag"))
    (agents := Sample.all_up [8 # 10]%Q)
    default_settings 0 1 Sample.cached_request Sample.empty_world.

(** The same request again, after the first answer has been cached at
    instant 1. *)
Definition second_run : outcome UnifiedAgent.QueryResponse * World :=
  UnifiedAgent.process_query
    (cache := Sample.cache_services) (planner := Sample.planner (Ok "rag"))
    (agents := Sample.all_up [8 # 10]%Q)
    default_settings 2 3 Sample.cached_request
    (snd (UnifiedAgent._update_cache (cache := Sample.cache_services) default_settings 1
            Sample.cached_request (response_of first_run) Sample.empty_world)).

Definition first_response : UnifiedAgent.QueryResponse := response_of first_run.

Definition second_response : UnifiedAgent.QueryResponse := response_of second_run.

(** A plan in plain words, without braces. *)
Definition wordy_plan : string := "Sometimes the answer is in storage".

Definition wordy_planner : PlannerServices := Sample.planner (Ok wordy_plan).

(** One relationship and one insight from the graph. *)
Definition graph_answer : KagResult :=
  {| kag_entities := []; kag_relationships := [Sample.relation];
     kag_insights := ["DataLive is built on Neo4j."]; kag_error := None |}.

(** The embedding provider is down. *)
Definition provider_down (text : string) : outcome (list Q) :=
  Raise (ServiceError "embedding provider unavailable").

(** Three relationships around DataLive, one of them uncertain. *)
Definition datalive_entity : KAGInsights.EntityResult :=
  {| KAGInsights.entity_id := "e1"; KAGInsights.name := "DataLive";
     KAGInsights.type := "Product"; KAGInsights.properties := ∅ |}.

Definition datalive_relationships : list KAGInsights.RelationshipResult :=
  [ {| KAGInsights.source := "DataLive"; KAGInsights.target := "Neo4j";
       KAGInsights.relationship_type := "USES"; KAGInsights.confidence := 1 |};
    {| KAGInsights.source := "DataLive"; KAGInsights.target := "Redis";
       KAGInsights.relationship_type := "USES"; KAGInsights.confidence := 9 # 10 |};
    {| KAGInsights.source := "Neo4j"; KAGInsights.target := "Graphiti";
       KAGInsights.relationship_type := "EXTENDED_BY";
       KAGInsights.confidence := 1 # 2 |} ].

(** Five document hits. *)
Definition five_hits : RagResult :=
  Sample.hits [9 # 10; 9 # 10; 8 # 10; 8 # 10; 7 # 10]%Q.

End SampleMore.

(** * Properties *)

(** ** The string operations on sample inputs *)

Example lower_ex : Str.lower "What IS DataLive?" = "what is datalive?".
Proof. reflexivity. Qed.

Example strip_ex : Str.strip "  a b  " = "a b".
Proof. reflexivity. Qed.

Example findall_ex : Str.findall_words EmptyString "what is data-live, v2?" = ["what"; "is"; "data"; "live"; "v2"].
Proof. reflexivity. Qed.

Example sort_ex : Str.sort ["pear"; "apple"; "fig"] = ["apple"; "fig"; "pear"].
Proof. reflexivity. Qed.

Example glob_ex : Str.glob "user:42:*" "user:42:abc" = true /\ Str.glob "user:42:*" "exact:abc" = false.
Proof. split; reflexivity. Qed.

Example search_braces_ex : Str.search_braces "so {a: {1}} ok} end" = Some "{a: {1}} ok}".
Proof. reflexivity. Qed.

(** ** Rational arithmetic *)

Lemma Qltb_lt (x y : Q) : Qltb x y = true <-> (x < y)%Q.
Proof.
  unfold Qltb. rewrite negb_true_iff. split.
  - intros Hb. apply Qnot_le_lt. intros Hle.
    apply Qle_bool_iff in Hle. congruence.
  - intros Hlt. destruct (Qle_bool y x) eqn:Hb; [|reflexivity].
    apply Qle_bool_iff in Hb. exfalso. exact (Qlt_not_le _ _ Hlt Hb).
Qed.

Lemma Qltb_ge (x y : Q) : Qltb x y = false <-> (y <= x)%Q.
Proof.
  unfold Qltb. rewrite negb_false_iff. apply Qle_bool_iff.
Qed.

Section Means.
Import UnifiedAgent ConfidenceSpec.

Lemma fold_left_Qplus (l : list Q) (a : Q) :
  (fold_left Qplus l a == a + fold_right Qplus 0%Q l)%Q.
Proof.
  revert a. induction l as [|x l IH]; intros a; simpl.
  - ring.
  - rewrite IH. ring.
Qed.

Lemma mean_arithmetic_mean (l : list Q) : (mean l == arithmetic_mean l)%Q.
Proof.
  unfold mean, arithmetic_mean, Qsum. rewrite fold_left_Qplus.
  rewrite Qplus_0_l. reflexivity.
Qed.

Lemma sum_bounds (l : list Q) :
  Forall in_unit_interval l ->
  (0 <= fold_right Qplus 0%Q l)%Q /\
  (fold_right Qplus 0%Q l <= inject_Z (Z.of_nat (length l)))%Q.
Proof.
  induction 1 as [|x l [Hx0 Hx1] _ [IH0 IH1]]; simpl fold_right.
  - split; apply Qle_refl.
  - rewrite length_cons, Nat2Z.inj_succ. unfold Z.succ.
    rewrite inject_Z_plus. change (inject_Z 1) with 1%Q.
    split; lra.
Qed.

Lemma arithmetic_mean_bounds (l : list Q) :
  l <> [] -> Forall in_unit_interval l -> in_unit_interval (arithmetic_mean l).
Proof.
  intros Hne Hall. destruct (sum_bounds l Hall) as [H0 H1].
  assert (Hlen : (0 < inject_Z (Z.of_nat (length l)))%Q).
  { destruct l as [|x l]; [congruence|].
    rewrite length_cons, Nat2Z.inj_succ. unfold Z.succ.
    rewrite inject_Z_plus. change (inject_Z 1) with 1%Q.
    assert (0 <= inject_Z (Z.of_nat (length l)))%Q.
    { change 0%Q with (inject_Z 0). rewrite <- Zle_Qle. lia. }
    lra. }
  unfold arithmetic_mean. split.
  - apply Qle_shift_div_l; [exact Hlen|]. lra.
  - apply Qle_shift_div_r; [exact Hlen|]. lra.
Qed.

Lemma capped_bounds (n : nat) (d : Q) :
  (0 < d)%Q -> in_unit_interval (Qmin (inject_Z (Z.of_nat n) / d) 1).
Proof.
  intros Hd. split.
  - apply Q.min_glb; [|lra].
    apply Qle_shift_div_l; [exact Hd|].
    assert (0 <= inject_Z (Z.of_nat n))%Q.
    { change 0%Q with (inject_Z 0). rewrite <- Zle_Qle. lia. }
    lra.
  - apply Q.le_min_r.
Qed.

End Means.

Section Confidence.
Import UnifiedAgent ConfidenceSpec.

Lemma in_unit_interval_Qeq (x y : Q) : (x == y)%Q -> in_unit_interval y -> in_unit_interval x.
Proof. intros E [H0 H1]. split; rewrite E; assumption. Qed.

Lemma arithmetic_mean_Qeq (l l' : list Q) :
  Forall2 Qeq l l' -> (arithmetic_mean l == arithmetic_mean l')%Q.
Proof.
  intros Hl. unfold arithmetic_mean.
  rewrite (Forall2_length _ _ _ Hl).
  assert (E : (fold_right Qplus 0 l == fold_right Qplus 0 l')%Q).
  { induction Hl as [|x y l l' Hxy _ IH]; simpl; [reflexivity|].
    rewrite Hxy, IH. reflexivity. }
  rewrite E. reflexivity.
Qed.

Lemma mean_of_signals (l l' : list Q) :
  Forall2 Qeq l l' -> (mean l == arithmetic_mean l')%Q.
Proof.
  intros Hl. rewrite mean_arithmetic_mean. apply arithmetic_mean_Qeq, Hl.
Qed.

Lemma calculate_confidence_refines (results : Results) :
  (_calculate_confidence results == aggregate_confidence results)%Q.
Proof.
  destruct results as [[[hits e]|] [k|] [t|]];
    unfold _calculate_confidence, aggregate_confidence, present_signals,
      semantic_signal, graph_signal, temporal_signal; simpl;
    try destruct hits as [|h hits]; simpl;
    try reflexivity;
    apply mean_of_signals;
    repeat first [ apply Forall2_nil_2 | apply Forall2_cons_2 ];
    try reflexivity;
    apply (mean_arithmetic_mean (score h :: List.map score hits)).
Qed.

Lemma present_signals_bounded (results : Results) :
  (forall r, rag results = Some r ->
             Forall (fun item => in_unit_interval (score item)) (rag_results r)) ->
  Forall in_unit_interval (present_signals results).
Proof.
  intros Hscores.
  assert (Hsem : forall x, semantic_signal results = Some x -> in_unit_interval x).
  { unfold semantic_signal. destruct (rag results) as [r|]; [|discriminate].
    specialize (Hscores r eq_refl).
    destruct (rag_results r) as [|h hits] eqn:Hr; [discriminate|].
    intros x [= <-]. apply arithmetic_mean_bounds; [discriminate|].
    change (Forall in_unit_interval (List.map score (h :: hits))).
    apply List.Forall_map. exact Hscores. }
  assert (Hgraph : forall x, graph_signal results = Some x -> in_unit_interval x).
  { unfold graph_signal. destruct (kag results); [|discriminate].
    intros x [= <-]. apply capped_bounds. reflexivity. }
  assert (Htemp : forall x, temporal_signal results = Some x -> in_unit_interval x).
  { unfold temporal_signal. destruct (temporal results); [|discriminate].
    intros x [= <-]. apply capped_bounds. reflexivity. }
  unfold present_signals.
  destruct (semantic_signal results), (graph_signal results), (temporal_signal results);
    simpl;
    repeat first [ apply Forall_nil_2
                 | apply Forall_cons_2;
                   [solve [ apply Hsem; reflexivity | apply Hgraph; reflexivity
                          | apply Htemp; reflexivity ]|] ].
Qed.

(** C3 (amended).  The confidence that [_calculate_confidence] returns is
    the unweighted mean of the signals that are present (mean similarity
    score when semantic search returned hits, [min(n/10, 1)] when graph
    search ran, [min(n/5, 1)] when temporal search ran); it is 0.5 when no
    signal is present; and it lies in [0,1] provided every similarity
    score does. *)
Theorem calculate_confidence_mean_of_signals (results : Results) :
  (_calculate_confidence results == aggregate_confidence results)%Q
  /\ (present_signals results = [] -> (_calculate_confidence results == 1 # 2)%Q)
  /\ ((forall r, rag results = Some r ->
                 Forall (fun item => in_unit_interval (score item)) (rag_results r)) ->
      in_unit_interval (_calculate_confidence results)).
Proof.
  pose proof (calculate_confidence_refines results) as Href.
  split; [exact Href|]. split.
  - intros Hnone. rewrite Href. unfold aggregate_confidence.
    rewrite Hnone. reflexivity.
  - intros Hscores. apply (in_unit_interval_Qeq _ _ Href).
    pose proof (present_signals_bounded results Hscores) as Hall.
    unfold aggregate_confidence.
    destruct (present_signals results) as [|x l] eqn:Hs.
    + split; discriminate.
    + apply arithmetic_mean_bounds; [discriminate|exact Hall].
Qed.

End Confidence.

Lemma calculate_confidence_witness :
  (forall r, UnifiedAgent.rag Sample.three_hits = Some r ->
             Forall (fun item => in_unit_interval (score item)) (rag_results r))
  /\ in_unit_interval (UnifiedAgent._calculate_confidence Sample.three_hits).
Proof.
  assert (H : forall r, UnifiedAgent.rag Sample.three_hits = Some r ->
             Forall (fun item => in_unit_interval (score item)) (rag_results r)).
  { intros r [= <-]. repeat constructor; vm_compute; discriminate. }
  split; [exact H|].
  exact (proj2 (proj2 (calculate_confidence_mean_of_signals Sample.three_hits)) H).
Defined.

Example three_hits_confidence :
  (UnifiedAgent._calculate_confidence Sample.three_hits == 49 # 60)%Q.
Proof. reflexivity. Qed.

(** C3, as stated, fails: a similarity score of 1.5 gives a confidence of
    1.5, outside [0,1]. *)
Lemma calculate_confidence_unbounded :
  ~ in_unit_interval
      (UnifiedAgent._calculate_confidence
         {| UnifiedAgent.rag := Some (Sample.hits [3 # 2]%Q);
            UnifiedAgent.kag := None; UnifiedAgent.temporal := None |}).
Proof. intros [_ H]. vm_compute in H. apply H. reflexivity. Qed.

(** ** The key-value store *)

Section RedisFacts.

Context {server : RedisServer}.

Implicit Types (s : gmap string (pyval * Q)) (k : string).

Lemma lookup_delete_list (ks : list string) s k :
  Redis.delete ks s !! k = if decide (k ∈ ks) then None else s !! k.
Proof.
  induction ks as [|k' ks IH].
  - destruct (decide (k ∈ [])) as [Hin|_]; [inversion Hin|reflexivity].
  - change (Redis.delete (k' :: ks) s) with (base.delete k' (Redis.delete ks s)).
    destruct (decide (k' = k)) as [->|Hne].
    + rewrite lookup_delete_eq.
      destruct (decide (k ∈ k :: ks)) as [_|Hnin]; [reflexivity|].
      exfalso. apply Hnin, list_elem_of_here.
    + rewrite lookup_delete_ne, IH by exact Hne.
      destruct (decide (k ∈ ks)) as [Hin|Hnin], (decide (k ∈ k' :: ks)) as [Hin'|Hnin'];
        try reflexivity.
      * exfalso. apply Hnin', list_elem_of_further, Hin.
      * exfalso. apply elem_of_cons in Hin' as [->|Hin']; [congruence|tauto].
Qed.

Lemma elem_of_keys (now : Q) s (pat : string) k :
  k ∈ Redis.keys now s pat <->
  exists e, s !! k = Some e /\ Redis.alive now e = true /\ key_matches pat k = true.
Proof.
  unfold Redis.keys. rewrite list_elem_of_In, in_map_iff. split.
  - intros [[k' e] [Hk Hin]]. simpl in Hk. subst k'.
    apply filter_In in Hin as [Hin Hf].
    apply list_elem_of_In, elem_of_map_to_list in Hin.
    apply andb_true_iff in Hf as [Ha Hg]. eauto.
  - intros (e & Hs & Ha & Hg). exists (k, e). split; [reflexivity|].
    apply filter_In. split.
    + apply list_elem_of_In, elem_of_map_to_list, Hs.
    + rewrite Ha, Hg. reflexivity.
Qed.

Lemma NoDup_keys (now : Q) s (pat : string) : NoDup (Redis.keys now s pat).
Proof.
  unfold Redis.keys.
  pose proof (NoDup_fst_map_to_list s) as Hnd.
  induction (map_to_list s) as [|[k e] l IH]; simpl in *.
  - constructor.
  - apply NoDup_cons in Hnd as [Hk Hl].
    destruct (Redis.alive now e && key_matches pat k); simpl; [|auto].
    apply NoDup_cons. split; [|auto].
    intros Hin. apply Hk.
    apply list_elem_of_In, in_map_iff in Hin as [[k' e'] [Heq Hin]].
    simpl in Heq. subst k'. apply filter_In in Hin as [Hin _].
    apply list_elem_of_In. apply in_map_iff. exists (k, e'). auto.
Qed.

(** The keys listed for a pattern without character classes and escapes. *)
Lemma elem_of_keys_simple (now : Q) s (pat : string) k :
  Str.simple pat = true ->
  k ∈ Redis.keys now s pat <->
  exists e, s !! k = Some e /\ Redis.alive now e = true /\ Str.glob pat k = true.
Proof.
  intros Hsimple. rewrite elem_of_keys, (key_matches_simple pat k Hsimple). reflexivity.
Qed.

(** A key list without duplicates whose only possible member is [k0]. *)
Lemma keys_singleton (now : Q) s (pat : string) (k0 : string) :
  k0 ∈ Redis.keys now s pat ->
  (forall k, k ∈ Redis.keys now s pat -> k = k0) ->
  Redis.keys now s pat = [k0].
Proof.
  intros Hin Hall. pose proof (NoDup_keys now s pat) as Hnd.
  destruct (Redis.keys now s pat) as [|a l]; [inversion Hin|].
  assert (a = k0) as -> by (apply Hall, list_elem_of_here).
  destruct l as [|b l]; [reflexivity|].
  assert (b = k0) as -> by (apply Hall, list_elem_of_further, list_elem_of_here).
  apply NoDup_cons in Hnd as [Hnin _]. exfalso. apply Hnin, list_elem_of_here.
Qed.

Lemma get_delete_list (now : Q) (ks : list string) s k :
  k ∉ ks -> Redis.get now (Redis.delete ks s) k = Redis.get now s k.
Proof.
  intros Hnin. unfold Redis.get. rewrite lookup_delete_list.
  rewrite decide_False by exact Hnin. reflexivity.
Qed.

(** What [invalidate_cache_pattern] leaves in the store. *)
Lemma invalidate_lookup (now : Q) s (pattern : string) k :
  snd (CAGAgent.invalidate_cache_pattern now s pattern) !! k =
  match s !! k with
  | Some e => if Redis.alive now e && key_matches pattern k then None else Some e
  | None => None
  end.
Proof.
  unfold CAGAgent.invalidate_cache_pattern. simpl.
  assert (Hdel : Redis.delete (Redis.keys now s pattern) s !! k =
                 match s !! k with
                 | Some e =>
                     if Redis.alive now e && key_matches pattern k then None else Some e
                 | None => None
                 end).
  { rewrite lookup_delete_list.
    destruct (decide (k ∈ Redis.keys now s pattern)) as [Hin|Hnin].
    - apply elem_of_keys in Hin as (e & -> & -> & ->). reflexivity.
    - destruct (s !! k) as [e|] eqn:Hk; [|reflexivity].
      destruct (Redis.alive now e && key_matches pattern k) eqn:Hm; [|reflexivity].
      exfalso. apply Hnin, elem_of_keys. apply andb_true_iff in Hm as [? ?]. eauto. }
  destruct (Redis.keys now s pattern) as [|a l] eqn:Hkeys; [|exact Hdel].
  rewrite <- Hdel. reflexivity.
Qed.

(** C9 (amended).  [invalidate_cache_pattern] deletes every live key that
    the Redis server matches against the pattern, whatever the pattern and
    however the server reads character classes and escapes in it; it leaves
    every other key as it was, and returns [None] on every path: it reports
    no count.  For a pattern of literal characters, [*] and [?] the keys
    deleted are the live keys that the glob matches. *)
Theorem invalidate_cache_pattern_deletes_and_returns_None
        (now : Q) (s : gmap string (pyval * Q)) (pattern : string) :
  fst (CAGAgent.invalidate_cache_pattern now s pattern) = PNone
  /\ (forall k,
        snd (CAGAgent.invalidate_cache_pattern now s pattern) !! k =
        match s !! k with
        | Some e => if Redis.alive now e && key_matches pattern k then None else Some e
        | None => None
        end)
  /\ (Str.simple pattern = true ->
      forall k,
        snd (CAGAgent.invalidate_cache_pattern now s pattern) !! k =
        match s !! k with
        | Some e => if Redis.alive now e && Str.glob pattern k then None else Some e
        | None => None
        end).
Proof.
  split; [reflexivity|]. split.
  - intros k. apply invalidate_lookup.
  - intros Hsimple k. rewrite invalidate_lookup.
    rewrite (key_matches_simple pattern k Hsimple). reflexivity.
Qed.

End RedisFacts.

(** C9, as stated, fails: one key is removed and the value returned is
    [None], not the count 1. *)
Lemma invalidate_cache_pattern_reports_no_count :
  let s : gmap string (pyval * Q) := {[ "user:42:abc" := (PDict ∅, 10%Q) ]} in
  Redis.keys 0 s "user:42:*" = ["user:42:abc"]
  /\ Redis.get 0 (snd (CAGAgent.invalidate_cache_pattern 0 s "user:42:*")) "user:42:abc" = None
  /\ fst (CAGAgent.invalidate_cache_pattern 0 s "user:42:*") <> PNum 1.
Proof. split; [|split]; [vm_compute; reflexivity ..|discriminate]. Qed.

(** ** The cache: keys, writes and probing *)

Section CacheFacts.

Context {cache : CacheServices} {server : RedisServer}.
Variable settings : Settings.
Implicit Types (s : gmap string (pyval * Q)) (k : string).

Import CAGAgent.

Lemma generated_keys_not_embedding (query query' : string) (uc : option UserContext) k :
  k ∈ _generate_cache_keys query uc -> k <> semantic_embeddings_key query'.
Proof.
  unfold _generate_cache_keys, semantic_embeddings_key, exact_key, normalized_key.
  destruct (ctx_field uc user_id), (ctx_field uc session_id), (_get_semantic_hash query);
    unfold user_key, session_key, semantic_key; simpl; intros Hin;
    repeat (apply elem_of_cons in Hin as [->|Hin]); try (inversion Hin; fail);
    discriminate.
Qed.

Lemma NoDup_generated_keys (query : string) (uc : option UserContext) :
  NoDup (_generate_cache_keys query uc).
Proof.
  unfold _generate_cache_keys, exact_key, normalized_key.
  destruct (ctx_field uc user_id), (ctx_field uc session_id), (_get_semantic_hash query);
    unfold user_key, session_key, semantic_key; simpl;
    repeat (apply NoDup_cons; split;
            [rewrite ?elem_of_cons, elem_of_nil; intuition discriminate|]);
    apply NoDup_nil_2.
Qed.

Lemma setex_all_spec (now : Q) (ks : list string) (ttl : Z) (v : pyval) s :
  (0 < ttl)%Z ->
  fst (setex_all now ks ttl v s) = Ok tt
  /\ forall k, snd (setex_all now ks ttl v s) !! k =
               if decide (k ∈ ks) then Some (v, (now + inject_Z ttl)%Q) else s !! k.
Proof.
  intros Httl. revert s. induction ks as [|k0 ks IH]; intros s.
  - split; [reflexivity|]. intros k.
    destruct (decide (k ∈ [])) as [Hin|_]; [inversion Hin|reflexivity].
  - simpl. unfold Redis.setex.
    destruct (ttl <=? 0)%Z eqn:Hle; [apply Z.leb_le in Hle; lia|].
    destruct (IH (<[k0 := (v, (now + inject_Z ttl)%Q)]> s)) as [IH1 IH2].
    split; [exact IH1|]. intros k. rewrite IH2.
    destruct (decide (k ∈ ks)) as [Hin|Hnin], (decide (k ∈ k0 :: ks)) as [Hin'|Hnin'];
      try reflexivity.
    + exfalso. apply Hnin', list_elem_of_further, Hin.
    + apply elem_of_cons in Hin' as [->|Hin']; [|tauto]. apply lookup_insert_eq.
    + apply lookup_insert_ne. intros ->. apply Hnin', list_elem_of_here.
Qed.

(** After [update_cache], every generated key holds the same document. *)
Lemma update_cache_lookup (now : Q) s (query : string) (result : gmap string pyval)
      (uc : option UserContext) (query_type : string) k :
  (0 < ttl_for settings query_type)%Z ->
  k ∈ _generate_cache_keys query uc ->
  update_cache settings now s query result uc query_type !! k =
  Some (PDict (make_cache_data settings now query result uc query_type),
        (now + inject_Z (ttl_for settings query_type))%Q).
Proof.
  intros Httl Hin. unfold update_cache.
  pose proof (setex_all_spec now (_generate_cache_keys query uc) _
                (PDict (make_cache_data settings now query result uc query_type)) s Httl)
    as [Hok Hlook].
  destruct (setex_all _ _ _ _ s) as [[[]|e] s1]; simpl in *; [|discriminate].
  assert (Hs1 : s1 !! k = Some (PDict (make_cache_data settings now query result uc query_type),
                      (now + inject_Z (ttl_for settings query_type))%Q)).
  { rewrite Hlook, decide_True by exact Hin. reflexivity. }
  unfold _store_semantic_cache.
  destruct (embed_text query) as [embedding|e]; simpl; [|exact Hs1].
  unfold Redis.setex. destruct (_ <=? 0)%Z; simpl; [exact Hs1|].
  rewrite lookup_insert_ne; [exact Hs1|].
  intros Heq. symmetry in Heq. revert Heq.
  apply (generated_keys_not_embedding query query uc), Hin.
Qed.


(** Freshness reads the TTL stored in the record, not the configuration. *)
Lemma is_fresh_stored_ttl (now t n : Q) (d : gmap string pyval) :
  d !! "cached_at" = Some (PTime t) ->
  d !! "ttl" = Some (PNum n) ->
  _is_fresh settings now (PDict d) = true <-> (now - t < n)%Q.
Proof.
  intros Hat Httl. unfold _is_fresh, getitem, dict_get. rewrite Hat, Httl. simpl.
  apply Qltb_lt.
Qed.

Lemma make_cache_data_cached_at (now : Q) (query : string) (result : gmap string pyval)
      (uc : option UserContext) (query_type : string) :
  make_cache_data settings now query result uc query_type !! "cached_at" = Some (PTime now).
Proof. reflexivity. Qed.

Lemma make_cache_data_ttl (now : Q) (query : string) (result : gmap string pyval)
      (uc : option UserContext) (query_type : string) :
  make_cache_data settings now query result uc query_type !! "ttl"
  = Some (PNum (inject_Z (ttl_for settings query_type))).
Proof. reflexivity. Qed.

Lemma delete_list_delete (ks : list string) s k :
  Redis.delete ks (base.delete k s) = base.delete k (Redis.delete ks s).
Proof.
  induction ks as [|k' ks IH]; [reflexivity|].
  change (base.delete k' (Redis.delete ks (base.delete k s))
          = base.delete k (base.delete k' (Redis.delete ks s))).
  rewrite IH. apply delete_delete.
Qed.

Lemma get_delete_ne (now : Q) s k k' :
  k <> k' -> Redis.get now (base.delete k s) k' = Redis.get now s k'.
Proof. intros Hne. unfold Redis.get. rewrite lookup_delete_ne by exact Hne. reflexivity. Qed.

Lemma holding_delete (now : Q) s k (ks : list string) :
  k ∉ ks -> holding now (base.delete k s) ks = holding now s ks.
Proof.
  intros Hnin. unfold holding. apply filter_ext_in. intros k' Hin.
  rewrite get_delete_ne; [reflexivity|].
  intros ->. apply Hnin, list_elem_of_In, Hin.
Qed.

(** The loop passes over a prefix of keys that hold nothing fresh, deleting
    those that hold a stale record. *)
Lemma probe_passes (now : Q) (pre rest : list string) s :
  NoDup pre ->
  (forall k, k ∈ pre -> passes settings now s k = true) ->
  probe settings now (pre ++ rest) s
  = probe settings now rest (Redis.delete (holding now s pre) s).
Proof.
  revert s. induction pre as [|k pre IH]; intros s Hnd Hpass; [reflexivity|].
  apply NoDup_cons in Hnd as [Hnin Hnd].
  pose proof (Hpass k (list_elem_of_here _ _)) as Hk.
  unfold passes in Hk. simpl app. simpl probe. unfold holding. simpl List.filter.
  fold (holding now s pre).
  destruct (Redis.get now s k) as [v|] eqn:Hget.
  - apply negb_true_iff in Hk. rewrite Hk.
    change (Redis.delete [k] s) with (base.delete k s).
    rewrite IH; [|exact Hnd|].
    + rewrite holding_delete by exact Hnin.
      change (Redis.delete (k :: holding now s pre) s)
        with (base.delete k (Redis.delete (holding now s pre) s)).
      rewrite delete_list_delete. reflexivity.
    + intros k' Hin. unfold passes. rewrite get_delete_ne.
      * apply Hpass, list_elem_of_further, Hin.
      * intros ->. tauto.
  - apply IH; [exact Hnd|].
    intros k' Hin. apply Hpass, list_elem_of_further, Hin.
Qed.

Lemma holding_nil (now : Q) s (ks : list string) :
  (forall k, k ∈ ks -> Redis.get now s k = None) -> holding now s ks = [].
Proof.
  intros Hmiss. unfold holding. induction ks as [|k ks IH]; [reflexivity|].
  simpl. rewrite (Hmiss k (list_elem_of_here _ _)).
  apply IH. intros k' Hin. apply Hmiss, list_elem_of_further, Hin.
Qed.

Lemma holding_subset (now : Q) s (ks : list string) k :
  k ∈ holding now s ks -> k ∈ ks.
Proof.
  unfold holding. rewrite !list_elem_of_In, filter_In. tauto.
Qed.

(** The first key that holds a fresh record ends the loop. *)
Lemma probe_hit (now : Q) (pre post : list string) s k (d : gmap string pyval) :
  NoDup (pre ++ k :: post) ->
  (forall k', k' ∈ pre -> passes settings now s k' = true) ->
  Redis.get now s k = Some (PDict d) ->
  _is_fresh settings now (PDict d) = true ->
  probe settings now (pre ++ k :: post) s
  = (Ok (Some (PDict (<["cache_key" := PStr k]> d))),
     Redis.delete (holding now s pre) s).
Proof.
  intros Hnd Hpass Hget Hfresh.
  apply NoDup_app in Hnd as (Hpre & Hdisj & _).
  rewrite probe_passes by assumption. simpl probe.
  rewrite get_delete_list.
  - rewrite Hget, Hfresh. reflexivity.
  - intros Hin. apply holding_subset in Hin.
    apply (Hdisj k Hin), list_elem_of_here.
Qed.

Lemma probe_miss (now : Q) (ks : list string) s :
  NoDup ks ->
  (forall k, k ∈ ks -> passes settings now s k = true) ->
  probe settings now ks s = (Ok None, Redis.delete (holding now s ks) s).
Proof.
  intros Hnd Hpass. rewrite <- (app_nil_r ks) at 1.
  rewrite probe_passes by assumption. reflexivity.
Qed.

Lemma check_cache_hit (now : Q) (pre post : list string) s k (d : gmap string pyval)
      (query : string) (uc : option UserContext) :
  _generate_cache_keys query uc = pre ++ k :: post ->
  (forall k', k' ∈ pre -> passes settings now s k' = true) ->
  Redis.get now s k = Some (PDict d) ->
  _is_fresh settings now (PDict d) = true ->
  check_cache settings now s query uc
  = (Some (PDict (<["cache_key" := PStr k]> d)), Redis.delete (holding now s pre) s).
Proof.
  intros Hkeys Hpass Hget Hfresh. unfold check_cache.
  pose proof (NoDup_generated_keys query uc) as Hnd. rewrite Hkeys in Hnd |- *.
  rewrite (probe_hit now pre post s k d) by assumption. reflexivity.
Qed.

(** C4.  [update_cache] writes one and the same document under every
    generated key; the exact key and the normalized key are always among
    them, and so is the user key when the context carries a (non-empty)
    user id; a later lookup of the same query and context that is answered
    by any of these keys returns that document, tagged with the key. *)
Theorem update_cache_same_record_under_every_key
        (now : Q) s (query : string) (result : gmap string pyval)
        (uc : option UserContext) (query_type : string) :
  (0 < ttl_for settings query_type)%Z ->
  let record := make_cache_data settings now query result uc query_type in
  let expiry := (now + inject_Z (ttl_for settings query_type))%Q in
  let s' := update_cache settings now s query result uc query_type in
  (forall k, k ∈ _generate_cache_keys query uc -> s' !! k = Some (PDict record, expiry))
  /\ exact_key query ∈ _generate_cache_keys query uc
  /\ normalized_key query ∈ _generate_cache_keys query uc
  /\ (forall uid, ctx_field uc user_id = Some uid ->
                  user_key uid query ∈ _generate_cache_keys query uc)
  /\ (forall (later : Q) s2 (pre post : list string) k,
        _generate_cache_keys query uc = pre ++ k :: post ->
        (later - now < inject_Z (ttl_for settings query_type))%Q ->
        (forall k', k' ∈ pre -> passes settings later s2 k' = true) ->
        s2 !! k = s' !! k ->
        fst (check_cache settings later s2 query uc)
        = Some (PDict (<["cache_key" := PStr k]> record))).
Proof.
  intros Httl record expiry s'.
  assert (Hall : forall k, k ∈ _generate_cache_keys query uc ->
                           s' !! k = Some (PDict record, expiry)).
  { intros k Hin. apply update_cache_lookup; assumption. }
  split; [exact Hall|].
  split; [apply list_elem_of_here|].
  split; [apply list_elem_of_further, list_elem_of_here|].
  split.
  - intros uid Huid. unfold _generate_cache_keys. rewrite Huid.
    do 2 apply list_elem_of_further. apply list_elem_of_here.
  - intros later s2 pre post k Hkeys Hage Hpass Hk.
    assert (Hin : k ∈ _generate_cache_keys query uc).
    { rewrite Hkeys. apply elem_of_app. right. apply list_elem_of_here. }
    rewrite (Hall k Hin) in Hk.
    rewrite (check_cache_hit later pre post s2 k record query uc); try assumption.
    + reflexivity.
    + unfold Redis.get, Redis.alive. rewrite Hk. simpl.
      assert (Hlive : Qltb later expiry = true).
      { apply Qltb_lt. unfold expiry. lra. }
      rewrite Hlive. reflexivity.
    + apply (is_fresh_stored_ttl later now (inject_Z (ttl_for settings query_type)));
        [reflexivity|reflexivity|exact Hage].
Qed.


End CacheFacts.

Section CacheRuns.

#[local] Existing Instance Sample.cache_services.
Import CAGAgent.

Lemma update_cache_same_record_witness :
  let uc := Some {| user_id := Some "42"; session_id := None |} in
  let query := "What is DataLive?" in
  let record := make_cache_data default_settings 0 query (Sample.payload (95 # 100))
                                uc "factual" in
  let s' := update_cache default_settings 0 ∅ query (Sample.payload (95 # 100))
                         uc "factual" in
  (0 < ttl_for default_settings "factual")%Z
  /\ (forall k, k ∈ _generate_cache_keys query uc ->
                s' !! k = Some (PDict record, (0 + inject_Z (ttl_for default_settings "factual"))%Q))
  /\ user_key "42" query ∈ _generate_cache_keys query uc.
Proof.
  intros uc query record s'.
  assert (Httl : (0 < ttl_for default_settings "factual")%Z) by reflexivity.
  destruct (update_cache_same_record_under_every_key default_settings 0 ∅ query
              (Sample.payload (95 # 100)) uc "factual" Httl)
    as (Hall & _ & _ & Huser & _).
  split; [exact Httl|]. split; [exact Hall|].
  exact (Huser "42" eq_refl).
Defined.


End CacheRuns.

(** ** The similarity search *)

Section SimilarityFacts.

Context {cache : CacheServices} {server : RedisServer}.
Variable settings : Settings.
Implicit Types (s : gmap string (pyval * Q)) (k : string).

Import CAGAgent EmbeddingIndex.

Lemma scan_scan_docs (now : Q) s (qe : list Q) (keys : list string) (st : option pyval * Q) :
  fold_left
    (fun st key =>
       match Redis.get now s key with
       | Some cached_data => scan_one qe cached_data st
       | None => st
       end) keys st
  = scan_docs qe (omap (Redis.get now s) keys) st.
Proof.
  revert st. induction keys as [|key keys IH]; intros st; [reflexivity|].
  simpl. destruct (Redis.get now s key); simpl; apply IH.
Qed.

Lemma scan_one_inv (qe : list Q) (seen : list pyval) (doc : pyval) (st : option pyval * Q) :
  is_Some (parts doc) ->
  scan_inv qe seen st -> scan_inv qe (seen ++ [doc]) (scan_one qe doc st).
Proof.
  intros [[[emb cd] q] Hparts] Hinv.
  assert (Hsim : similarity qe doc = _cosine_similarity qe emb)
    by (unfold similarity; rewrite Hparts; reflexivity).
  assert (Hann : annotated qe doc
                 = PDict (<["original_query" := q]>
                         (<["similarity_score" := PNum (_cosine_similarity qe emb)]> cd)))
    by (unfold annotated; rewrite Hparts; reflexivity).
  assert (Hstep : forall bm bs,
             scan_one qe doc (bm, bs)
             = if Qltb similarity_threshold (similarity qe doc)
                  && Qltb bs (similarity qe doc)
               then (Some (annotated qe doc), similarity qe doc)
               else (bm, bs)).
  { intros bm bs. rewrite Hsim, Hann. unfold parts in Hparts.
    destruct doc as [| | | | | |data]; try discriminate.
    destruct (data !! "embedding") as [e|] eqn:He; [|discriminate].
    destruct (data !! "cache_data") as [[| | | | | |c]|] eqn:Hc; try discriminate.
    destruct (data !! "query") as [q'|] eqn:Hq; [|discriminate].
    injection Hparts as -> -> ->.
    unfold scan_one. rewrite He, Hc, Hq. reflexivity. }
  assert (Hthr : (0 < similarity_threshold)%Q) by reflexivity.
  destruct Hinv as [[-> Hlow]|(best & Hin & -> & Hbest & Hmax)]; rewrite Hstep.
  - destruct (Qltb similarity_threshold (similarity qe doc)) eqn:Hgt; simpl.
    + apply Qltb_lt in Hgt.
      assert (Hpos : Qltb 0 (similarity qe doc) = true) by (apply Qltb_lt; lra).
      rewrite Hpos. right. exists doc. split; [apply elem_of_app; right; apply list_elem_of_here|].
      split; [reflexivity|]. split; [exact Hgt|].
      intros doc' Hin'. apply elem_of_app in Hin' as [Hin'|Hin'].
      * specialize (Hlow doc' Hin'). lra.
      * apply list_elem_of_singleton in Hin'. subst doc'. apply Qle_refl.
    + apply Qltb_ge in Hgt. left. split; [reflexivity|].
      intros doc' Hin'. apply elem_of_app in Hin' as [Hin'|Hin'].
      * auto.
      * apply list_elem_of_singleton in Hin'. subst doc'. exact Hgt.
  - right.
    destruct (Qltb similarity_threshold (similarity qe doc)
              && Qltb (similarity qe best) (similarity qe doc)) eqn:Hgt.
    + apply andb_true_iff in Hgt as [Hgt1 Hgt2].
      apply Qltb_lt in Hgt1. apply Qltb_lt in Hgt2.
      exists doc. split; [apply elem_of_app; right; apply list_elem_of_here|].
      split; [reflexivity|]. split; [exact Hgt1|].
      intros doc' Hin'. apply elem_of_app in Hin' as [Hin'|Hin'].
      * specialize (Hmax doc' Hin'). lra.
      * apply list_elem_of_singleton in Hin'. subst doc'. apply Qle_refl.
    + exists best. split; [apply elem_of_app; left; exact Hin|].
      split; [reflexivity|]. split; [exact Hbest|].
      intros doc' Hin'. apply elem_of_app in Hin' as [Hin'|Hin']; [auto|].
      apply list_elem_of_singleton in Hin'. subst doc'.
      apply andb_false_iff in Hgt as [Hgt|Hgt]; apply Qltb_ge in Hgt; lra.
Qed.

Lemma scan_docs_inv (qe : list Q) (docs seen : list pyval) (st : option pyval * Q) :
  Forall (fun doc => is_Some (parts doc)) docs ->
  scan_inv qe seen st -> scan_inv qe (seen ++ docs) (scan_docs qe docs st).
Proof.
  intros Hwf. revert seen st.
  induction Hwf as [|doc docs Hdoc _ IH]; intros seen st Hinv.
  - rewrite app_nil_r. exact Hinv.
  - simpl. replace (seen ++ doc :: docs) with ((seen ++ [doc]) ++ docs)
      by (rewrite <- app_assoc; reflexivity).
    apply IH, scan_one_inv; assumption.
Qed.

Lemma find_similar_scan (now : Q) s (query : string) (qe : list Q) :
  embed_text query = Ok qe ->
  _find_similar_cached_query now s query
  = fst (scan_docs qe (scanned now s) (None, 0%Q)).
Proof.
  intros Hqe. unfold _find_similar_cached_query, scan, scanned. rewrite Hqe. simpl.
  rewrite scan_scan_docs. reflexivity.
Qed.

Lemma annotated_truthy (qe : list Q) (doc : pyval) :
  is_Some (parts doc) -> truthy (annotated qe doc) = true.
Proof.
  intros [[[emb cd] q] Hparts]. unfold annotated. rewrite Hparts. simpl.
  apply negb_true_iff, bool_decide_eq_false, insert_non_empty.
Qed.

(** C7 (amended).  When the embedding of the query is [qe] and the index
    documents read are well formed, the similarity search returns nothing
    exactly when no document read has a cosine similarity strictly above
    0.85; otherwise it returns the record of a document read whose
    similarity is strictly above 0.85 and is the greatest among the
    documents read, annotated with [similarity_score] and with the
    [original_query] stored with it.  When every candidate key holds
    nothing, this is what [check_cache] returns. *)
Theorem find_similar_above_threshold (now : Q) s (query : string) (qe : list Q) :
  embed_text query = Ok qe ->
  Forall (fun doc => is_Some (parts doc)) (scanned now s) ->
  (_find_similar_cached_query now s query = None
   <-> forall doc, doc ∈ scanned now s -> (similarity qe doc <= 85 # 100)%Q)
  /\ (forall r, _find_similar_cached_query now s query = Some r ->
                exists doc, doc ∈ scanned now s
                            /\ (85 # 100 < similarity qe doc)%Q
                            /\ (forall doc', doc' ∈ scanned now s ->
                                            (similarity qe doc' <= similarity qe doc)%Q)
                            /\ r = annotated qe doc)
  /\ (forall uc, (forall k, k ∈ _generate_cache_keys query uc -> Redis.get now s k = None) ->
                 check_cache settings now s query uc
                 = (_find_similar_cached_query now s query, s)).
Proof.
  intros Hqe Hwf. rewrite (find_similar_scan now s query qe Hqe).
  pose proof (scan_docs_inv qe (scanned now s) [] (None, 0%Q) Hwf) as Hinv.
  simpl app in Hinv.
  assert (Hinit : scan_inv qe [] (None, 0%Q)).
  { left. split; [reflexivity|]. intros doc Hin. inversion Hin. }
  specialize (Hinv Hinit). clear Hinit.
  unfold scan_inv, similarity_threshold in Hinv.
  split; [|split].
  - destruct Hinv as [[-> Hlow]|(best & Hin & -> & Hbest & Hmax)]; simpl.
    + split; [intros _; exact Hlow|reflexivity].
    + split; [discriminate|]. intros Hlow. specialize (Hlow best Hin). unfold similarity_threshold in Hbest.
      exfalso. lra.
  - intros r Hr.
    destruct Hinv as [[Hst Hlow]|(best & Hin & Hst & Hbest & Hmax)];
      rewrite Hst in Hr; simpl in Hr; [discriminate|].
    injection Hr as <-. exists best. auto.
  - intros uc Hmiss. unfold check_cache.
    assert (Hpass : forall k, k ∈ _generate_cache_keys query uc -> passes settings now s k = true).
    { intros k Hin. unfold passes. rewrite (Hmiss k Hin). reflexivity. }
    rewrite (probe_miss settings now _ s (NoDup_generated_keys query uc) Hpass).
    rewrite (holding_nil now s _ Hmiss). change (Redis.delete [] s) with s.
    rewrite (find_similar_scan now s query qe Hqe).
    destruct Hinv as [[-> Hlow]|(best & Hin & -> & Hbest & Hmax)]; simpl; [reflexivity|].
    rewrite annotated_truthy; [reflexivity|].
    rewrite Forall_forall in Hwf. apply Hwf, Hin.
Qed.

End SimilarityFacts.

Section SimilarityRuns.

#[local] Existing Instance Sample.cache_services.
Import CAGAgent EmbeddingIndex.

Lemma find_similar_witness :
  let s := Sample.store_after "What is DataLive?" "factual" in
  let qe := [1; 0; 0; 0; 0]%Q in
  embed_text "DataLive overview" = Ok qe
  /\ Forall (fun doc => is_Some (parts doc)) (scanned 10 s)
  /\ forall r, _find_similar_cached_query 10 s "DataLive overview" = Some r ->
               exists doc, doc ∈ scanned 10 s
                           /\ (85 # 100 < similarity qe doc)%Q
                           /\ (forall doc', doc' ∈ scanned 10 s ->
                                            (similarity qe doc' <= similarity qe doc)%Q)
                           /\ r = annotated qe doc.
Proof.
  intros s qe.
  assert (Hqe : embed_text "DataLive overview" = Ok qe) by reflexivity.
  assert (Hwf : Forall (fun doc => is_Some (parts doc)) (scanned 10 s)).
  { vm_compute. constructor; [eexists; reflexivity|constructor]. }
  split; [exact Hqe|]. split; [exact Hwf|].
  exact (proj1 (proj2 (find_similar_above_threshold default_settings 10 s
                         "DataLive overview" qe Hqe Hwf))).
Defined.

(** C7, as stated, fails: the stored query embeds to (17,10,3,1,1), the
    new query to (1,0,0,0,0); their cosine similarity is exactly 0.85, which
    is "at least 0.85", and the lookup finds nothing. *)
Lemma similarity_of_exactly_threshold_misses :
  let s := Sample.store_after "alpha" "factual" in
  embed_text "alpha" = Ok [17; 10; 3; 1; 1]%Q
  /\ embed_text "beta" = Ok [1; 0; 0; 0; 0]%Q
  /\ Forall (fun doc => (85 # 100 <= similarity [1; 0; 0; 0; 0]%Q doc)%Q) (scanned 10 s)
  /\ length (scanned 10 s) = 1%nat
  /\ fst (check_cache default_settings 10 s "beta" None) = None.
Proof.
  intros s. split; [reflexivity|]. split; [reflexivity|].
  split; [|split; vm_compute; reflexivity].
  vm_compute. constructor; [discriminate|constructor].
Qed.

End SimilarityRuns.

(** ** Expired records and the embedding index *)

Section ExpiredRecords.

Context {cache : CacheServices} {server : RedisServer}.
Variable settings : Settings.
Implicit Types (s : gmap string (pyval * Q)) (k : string).

Import CAGAgent EmbeddingIndex.

Lemma glob_any (t : string) : Str.glob "*" t = true.
Proof.
  induction t as [|c t IH]; [reflexivity|].
  simpl in *. rewrite IH. destruct (match t with EmptyString => true | _ => false end);
    reflexivity.
Qed.

Lemma glob_semantic_embeddings (query : string) :
  Str.glob "semantic_embeddings:*" (semantic_embeddings_key query) = true.
Proof.
  unfold semantic_embeddings_key. simpl. apply (glob_any (_hash_text query)).
Qed.

(** The whole store after one [update_cache] into an empty store. *)
Lemma update_cache_empty_lookup (now : Q) (query : string) (result : gmap string pyval)
      (uc : option UserContext) (query_type : string) (e : list Q) k :
  (0 < ttl_for settings query_type)%Z ->
  (0 < cache_ttl_analytical settings)%Z ->
  embed_text query = Ok e ->
  let record := make_cache_data settings now query result uc query_type in
  update_cache settings now ∅ query result uc query_type !! k
  = if decide (k = semantic_embeddings_key query)
    then Some (PDict (make_semantic_data now query e record),
               (now + inject_Z (cache_ttl_analytical settings))%Q)
    else if decide (k ∈ _generate_cache_keys query uc)
         then Some (PDict record, (now + inject_Z (ttl_for settings query_type))%Q)
         else None.
Proof.
  intros Httl Han He record. unfold update_cache.
  pose proof (setex_all_spec now (_generate_cache_keys query uc) _
                (PDict record) ∅ Httl) as [Hok Hlook].
  fold record.
  destruct (setex_all _ _ _ _ ∅) as [[[]|err] s1]; simpl in *; [|discriminate].
  unfold _store_semantic_cache. rewrite He. simpl. unfold Redis.setex.
  destruct (cache_ttl_analytical settings <=? 0)%Z eqn:Hle;
    [apply Z.leb_le in Hle; lia|]. simpl.
  destruct (decide (k = semantic_embeddings_key query)) as [->|Hne].
  - apply lookup_insert_eq.
  - rewrite lookup_insert_ne by congruence. rewrite Hlook.
    destruct (decide (k ∈ _generate_cache_keys query uc)); [reflexivity|].
    apply lookup_empty.
Qed.

(** C8.  A record is cached at [now] with a TTL shorter than the
    analytical one; at an instant [later] at which the record has expired
    but its index entry has not, a lookup of the same query falls through
    every candidate key to the similarity search, which hands the record
    back without any freshness check: the lookup returns the expired
    record.  The index entry carries the analytical TTL whatever the
    query type. *)
Theorem check_cache_returns_expired_record
        (now later : Q) (query : string) (result : gmap string pyval)
        (uc : option UserContext) (query_type : string) (e : list Q) :
  (0 < ttl_for settings query_type)%Z ->
  embed_text query = Ok e ->
  (85 # 100 < _cosine_similarity e (PList (List.map PNum e)))%Q ->
  (now + inject_Z (ttl_for settings query_type) <= later)%Q ->
  (later < now + inject_Z (cache_ttl_analytical settings))%Q ->
  let record := make_cache_data settings now query result uc query_type in
  let s := update_cache settings now ∅ query result uc query_type in
  s !! semantic_embeddings_key query
  = Some (PDict (make_semantic_data now query e record),
          (now + inject_Z (cache_ttl_analytical settings))%Q)
  /\ _is_fresh settings later (PDict record) = false
  /\ fst (check_cache settings later s query uc)
     = Some (PDict (<["original_query" := PStr query]>
                   (<["similarity_score" :=
                        PNum (_cosine_similarity e (PList (List.map PNum e)))]>
                    record))).
Proof.
  intros Httl He Hsim Hexpired Hindexed record s.
  assert (Han : (0 < cache_ttl_analytical settings)%Z).
  { assert (Hlt : (inject_Z (ttl_for settings query_type)
                   < inject_Z (cache_ttl_analytical settings))%Q) by lra.
    rewrite <- Zlt_Qlt in Hlt. lia. }
  assert (Hlook := fun k => update_cache_empty_lookup now query result uc query_type e k
                             Httl Han He).
  fold record in Hlook. fold s in Hlook. simpl in Hlook.
  assert (Hentry : s !! semantic_embeddings_key query
                   = Some (PDict (make_semantic_data now query e record),
                           (now + inject_Z (cache_ttl_analytical settings))%Q)).
  { rewrite Hlook, decide_True by reflexivity. reflexivity. }
  assert (Hstale : _is_fresh settings later (PDict record) = false).
  { apply not_true_is_false. intros Hfresh.
    apply (is_fresh_stored_ttl settings later now
             (inject_Z (ttl_for settings query_type))) in Hfresh; [lra|reflexivity..]. }
  split; [exact Hentry|]. split; [exact Hstale|].
  (* every candidate key has expired *)
  assert (Hmiss : forall k, k ∈ _generate_cache_keys query uc -> Redis.get later s k = None).
  { intros k Hin. unfold Redis.get. rewrite Hlook.
    rewrite decide_False by (apply (generated_keys_not_embedding query query uc), Hin).
    rewrite decide_True by exact Hin. unfold Redis.alive. simpl.
    assert (Hdead : Qltb later (now + inject_Z (ttl_for settings query_type)) = false)
      by (apply Qltb_ge; exact Hexpired).
    rewrite Hdead. reflexivity. }
  (* the index holds exactly one live entry *)
  assert (Hget : Redis.get later s (semantic_embeddings_key query)
                 = Some (PDict (make_semantic_data now query e record))).
  { unfold Redis.get. rewrite Hentry. unfold Redis.alive. simpl.
    assert (Hlive : Qltb later (now + inject_Z (cache_ttl_analytical settings)) = true)
      by (apply Qltb_lt; exact Hindexed).
    rewrite Hlive. reflexivity. }
  assert (Hkeys : Redis.keys later s "semantic_embeddings:*" = [semantic_embeddings_key query]).
  { apply keys_singleton.
    - apply elem_of_keys_simple; [reflexivity|]. eexists. split; [exact Hentry|]. split.
      + apply Qltb_lt. exact Hindexed.
      + apply glob_semantic_embeddings.
    - intros k Hin. apply elem_of_keys in Hin as (entry & Hk & Halive & _).
      rewrite Hlook in Hk.
      destruct (decide (k = semantic_embeddings_key query)) as [->|_]; [reflexivity|].
      destruct (decide (k ∈ _generate_cache_keys query uc)); [|discriminate].
      injection Hk as <-. unfold Redis.alive in Halive. simpl in Halive.
      apply Qltb_lt in Halive. lra. }
  assert (Hscanned : scanned later s = [PDict (make_semantic_data now query e record)]).
  { unfold scanned. rewrite Hkeys. simpl. rewrite Hget. reflexivity. }
  unfold check_cache.
  assert (Hpass : forall k, k ∈ _generate_cache_keys query uc -> passes settings later s k = true).
  { intros k Hin. unfold passes. rewrite (Hmiss k Hin). reflexivity. }
  rewrite (probe_miss settings later _ s (NoDup_generated_keys query uc) Hpass).
  rewrite (holding_nil later s _ Hmiss). change (Redis.delete [] s) with s.
  rewrite (find_similar_scan later s query e He), Hscanned.
  unfold scan_docs. simpl fold_left. unfold scan_one.
  change (make_semantic_data now query e record !! "embedding")
    with (Some (PList (List.map PNum e))).
  change (make_semantic_data now query e record !! "cache_data") with (Some (PDict record)).
  change (make_semantic_data now query e record !! "query") with (Some (PStr query)).
  assert (Hgt : Qltb similarity_threshold (_cosine_similarity e (PList (List.map PNum e))) = true)
    by (apply Qltb_lt; exact Hsim).
  assert (Hpos : Qltb 0 (_cosine_similarity e (PList (List.map PNum e))) = true)
    by (apply Qltb_lt; lra).
  cbv beta iota. rewrite Hgt, Hpos. cbv beta iota. simpl andb. cbv beta iota.
  unfold fst, truthy.
  assert (Htruthy : forall (d : gmap string pyval) v, negb (bool_decide (<["original_query" := v]> d = ∅)) = true).
  { intros d v. apply negb_true_iff, bool_decide_eq_false, insert_non_empty. }
  rewrite Htruthy. reflexivity.
Qed.

End ExpiredRecords.

Section ExpiredRecordRun.

#[local] Existing Instance Sample.cache_services.
Import CAGAgent.

Lemma check_cache_returns_expired_record_witness :
  let query := "What is DataLive?" in
  let e := [1; 0; 0; 0; 0]%Q in
  let record := make_cache_data default_settings 0 query (Sample.payload (95 # 100))
                                None "temporal" in
  (0 < ttl_for default_settings "temporal")%Z
  /\ embed_text query = Ok e
  /\ (85 # 100 < _cosine_similarity e (PList (List.map PNum e)))%Q
  /\ (0 + inject_Z (ttl_for default_settings "temporal") <= 1000)%Q
  /\ (1000 < 0 + inject_Z (cache_ttl_analytical default_settings))%Q
  /\ _is_fresh default_settings 1000 (PDict record) = false
  /\ fst (check_cache default_settings 1000 (Sample.store_after query "temporal") query None)
     = Some (PDict (<["original_query" := PStr query]>
                   (<["similarity_score" :=
                        PNum (_cosine_similarity e (PList (List.map PNum e)))]>
                    record))).
Proof.
  intros query e record.
  assert (H1 : (0 < ttl_for default_settings "temporal")%Z) by reflexivity.
  assert (H2 : embed_text query = Ok e) by reflexivity.
  assert (H3 : (85 # 100 < _cosine_similarity e (PList (List.map PNum e)))%Q)
    by (vm_compute; reflexivity).
  assert (H4 : (0 + inject_Z (ttl_for default_settings "temporal") <= 1000)%Q)
    by (vm_compute; discriminate).
  assert (H5 : (1000 < 0 + inject_Z (cache_ttl_analytical default_settings))%Q)
    by (vm_compute; reflexivity).
  repeat (split; [assumption|]).
  exact (proj2 (check_cache_returns_expired_record default_settings 0 1000 query
                  (Sample.payload (95 # 100)) None "temporal" e H1 H2 H3 H4 H5)).
Defined.

End ExpiredRecordRun.

(** ** The strategy planner *)

Section Planner.

Context {planner : PlannerServices}.
Import OrchestratorAgent.

Lemma field_present {A} (d : gmap string pyval) (k : string) (dflt : A)
      (conv : pyval -> outcome A) (v : pyval) :
  d !! k = Some v -> field d k dflt conv = conv v.
Proof. intros Hk. unfold field. rewrite Hk. reflexivity. Qed.

Lemma field_absent {A} (d : gmap string pyval) (k : string) (dflt : A)
      (conv : pyval -> outcome A) :
  d !! k = None -> field d k dflt conv = Ok dflt.
Proof. intros Hk. unfold field. rewrite Hk. reflexivity. Qed.

Lemma QueryStrategy_init_parse_error :
  QueryStrategy_init parse_error_strategy = Ok parse_error_default.
Proof.
  unfold QueryStrategy_init.
  rewrite (field_present _ "use_rag" _ _ (PBool true)) by reflexivity.
  rewrite (field_present _ "reasoning" _ _
             (PStr "Parse error - using default RAG strategy")) by reflexivity.
  rewrite !field_absent by reflexivity.
  rewrite as_bool_PBool, as_str_PStr. reflexivity.
Qed.

Lemma QueryStrategy_init_fallback (llm_output : string) :
  QueryStrategy_init (fallback_parse llm_output) = Ok (keyword_strategy llm_output).
Proof.
  unfold QueryStrategy_init.
  rewrite (field_present _ "use_rag" _ _ (PBool (use_rag (keyword_strategy llm_output))))
    by reflexivity.
  rewrite (field_present _ "use_kag" _ _ (PBool (use_kag (keyword_strategy llm_output))))
    by reflexivity.
  rewrite (field_present _ "use_temporal" _ _
             (PBool (use_temporal (keyword_strategy llm_output)))) by reflexivity.
  rewrite (field_present _ "use_tools" _ _
             (PBool (use_tools (keyword_strategy llm_output)))) by reflexivity.
  rewrite (field_present _ "reasoning" _ _ (PStr (Str.take 200 llm_output)))
    by reflexivity.
  rewrite !field_absent by reflexivity.
  rewrite !as_bool_PBool, as_str_PStr. reflexivity.
Qed.

(** C6 (amended).  [analyze_query] is a total function into
    [QueryStrategy]: nothing escapes it.  When the language model raises,
    or the parsed dictionary fails validation, it returns the default
    strategy; when [json.loads] raises, the parse-error default; both have
    [use_rag] true, the other two sources false and a fallback note as
    reasoning.  When the output has no braces the three flags are whether
    certain keywords occur in it, and when a dictionary is parsed and
    validated the strategy is returned as it is: in both cases all three
    flags can be false. *)
Theorem analyze_query_defaults (query : string) (context : option pyval) :
  (forall e, agent_run (AnalysisPrompt query context) = Raise e ->
             analyze_query query context = default_strategy)
  /\ (forall out json_match e,
        agent_run (AnalysisPrompt query context) = Ok out ->
        Str.search_braces out = Some json_match -> json_loads json_match = Raise e ->
        analyze_query query context = parse_error_default)
  /\ (forall out d e,
        agent_run (AnalysisPrompt query context) = Ok out ->
        _parse_strategy out = PDict d -> QueryStrategy_init d = Raise e ->
        analyze_query query context = default_strategy)
  /\ (forall out d st,
        agent_run (AnalysisPrompt query context) = Ok out ->
        _parse_strategy out = PDict d -> QueryStrategy_init d = Ok st ->
        analyze_query query context = st)
  /\ (forall out,
        agent_run (AnalysisPrompt query context) = Ok out ->
        Str.search_braces out = None ->
        analyze_query query context = keyword_strategy out)
  /\ (use_rag default_strategy = true /\ use_kag default_strategy = false
      /\ use_temporal default_strategy = false
      /\ reasoning default_strategy = "Default strategy due to analysis error")
  /\ (use_rag parse_error_default = true /\ use_kag parse_error_default = false
      /\ use_temporal parse_error_default = false
      /\ reasoning parse_error_default = "Parse error - using default RAG strategy").
Proof.
  unfold analyze_query.
  split; [|split; [|split; [|split; [|split; [|split]]]]].
  - intros e ->. reflexivity.
  - intros out json_match e -> Hm Hj. simpl. unfold _parse_strategy.
    rewrite Hm, Hj. simpl. rewrite QueryStrategy_init_parse_error. reflexivity.
  - intros out d e -> Hp Hv. simpl. rewrite Hp, Hv. reflexivity.
  - intros out d st -> Hp Hv. simpl. rewrite Hp, Hv. reflexivity.
  - intros out -> Hm. simpl. unfold _parse_strategy. rewrite Hm. simpl.
    rewrite QueryStrategy_init_fallback. reflexivity.
  - repeat split.
  - repeat split.
Qed.

End Planner.

Lemma analyze_query_defaults_witness :
  let down := Sample.planner (Raise (ServiceError "model unavailable")) in
  agent_run (PlannerServices := down) (AnalysisPrompt "What is DataLive?" None)
  = Raise (ServiceError "model unavailable")
  /\ OrchestratorAgent.analyze_query (planner := down) "What is DataLive?" None
     = OrchestratorAgent.default_strategy.
Proof.
  intros down. split; [reflexivity|].
  exact (proj1 (analyze_query_defaults (planner := down) "What is DataLive?" None)
               (ServiceError "model unavailable") eq_refl).
Defined.

(** C6, as stated, fails: the model answers "hello", which has no braces
    and none of the keywords, and the strategy returned enables no source. *)
Lemma analyze_query_can_enable_nothing :
  let st := OrchestratorAgent.analyze_query (planner := Sample.planner (Ok "hello"))
              "What is DataLive?" None in
  use_rag st = false /\ use_kag st = false /\ use_temporal st = false.
Proof. repeat split. Qed.

(** ** The request pipeline *)

Section CallLog.

Lemma sequential_app (l1 l2 : list Event) :
  sequential l1 -> sequential l2 -> sequential (l1 ++ l2).
Proof.
  induction 1; intros H2; simpl; [exact H2| |]; constructor; auto.
Qed.

Lemma sequential_not_overlapping (l : list Event) :
  sequential l -> ~ overlapping l.
Proof.
  induction 1 as [|src l Hseq IH|src l Hseq IH];
    intros (a & b & l1 & l2 & l3 & Heq & Hret & Hfail).
  - destruct l1; discriminate.
  - destruct l1 as [|x [|y l1]]; simpl in Heq.
    + injection Heq as <- Heq. destruct l2 as [|z l2]; [discriminate|].
      injection Heq as <- _. apply Hret, list_elem_of_here.
    + injection Heq as _ Heq. discriminate.
    + injection Heq as _ _ Heq. apply IH. exists a, b, l1, l2, l3. auto.
  - destruct l1 as [|x [|y l1]]; simpl in Heq.
    + injection Heq as <- Heq. destruct l2 as [|z l2]; [discriminate|].
      injection Heq as <- _. apply Hfail, list_elem_of_here.
    + injection Heq as _ Heq. discriminate.
    + injection Heq as _ _ Heq. apply IH. exists a, b, l1, l2, l3. auto.
Qed.

Lemma bind_run {A B} (m : M A) (k : A -> M B) (w : World) :
  (m ≫= k) w = match m w with
               | (Ok a, w') => k a w'
               | (Raise e, w') => (Raise e, w')
               end.
Proof. reflexivity. Qed.

Lemma appends_ret {A} (a : A) : appends_sequential (mret a : M A).
Proof. intros w. exists []. rewrite app_nil_r. split; [reflexivity|constructor]. Qed.

Lemma appends_bind {A B} (m : M A) (k : A -> M B) :
  appends_sequential m -> (forall a, appends_sequential (k a)) ->
  appends_sequential (m ≫= k).
Proof.
  intros Hm Hk w. unfold mbind, M_bind.
  destruct (Hm w) as (l1 & E1 & S1).
  destruct (m w) as [[a|e] w1]; simpl in *.
  - destruct (Hk a w1) as (l2 & E2 & S2). exists (l1 ++ l2).
    rewrite E2, E1, app_assoc. split; [reflexivity|apply sequential_app; assumption].
  - exists l1. auto.
Qed.

Lemma appends_await {A} (src : Source) (r : outcome A) :
  appends_sequential (await src r).
Proof.
  intros w. unfold await. destruct r as [a|e]; simpl.
  - exists [Started src; Returned src]. rewrite <- app_assoc.
    split; [reflexivity|repeat constructor].
  - exists [Started src; Failed src]. rewrite <- app_assoc.
    split; [reflexivity|repeat constructor].
Qed.

(** A computation that leaves the log alone. *)
Lemma appends_silent {A} (m : M A) :
  (forall w, calls (snd (m w)) = calls w) -> appends_sequential m.
Proof.
  intros Hm w. exists []. rewrite app_nil_r, Hm. split; [reflexivity|constructor].
Qed.

End CallLog.

Section Pipeline.

Context {cache : CacheServices} {server : RedisServer} {planner : PlannerServices} {agents : RetrievalAgents}.
Variable settings : Settings.

Import UnifiedAgent.

(** An optional retrieval step: one awaited call, or nothing. *)
Ltac one_call :=
  first [ apply appends_ret
        | apply appends_bind; [apply appends_await|intros; apply appends_ret] ].

Lemma check_cache_calls (now : Q) (request : QueryRequest) (w : World) :
  calls (snd (_check_cache settings now request w)) = calls w.
Proof.
  unfold _check_cache.
  destruct (CAGAgent.check_cache _ _ _ _ _) as [[v|] s']; [|reflexivity].
  repeat case_match; reflexivity.
Qed.

Lemma retrieve_appends (request : QueryRequest) (strategy : QueryStrategy) :
  appends_sequential (retrieve request strategy).
Proof.
  unfold retrieve.
  apply appends_bind; [destruct (use_rag strategy); one_call|].
  intros [results used].
  apply appends_bind; [destruct (use_kag strategy); one_call|].
  intros [results' used'].
  destruct (use_temporal strategy); one_call.
Qed.

Lemma process_query_appends (start_time end_time : Q) (request : QueryRequest) :
  appends_sequential (process_query settings start_time end_time request).
Proof.
  unfold process_query.
  apply appends_bind.
  { destruct (use_cache request); [|apply appends_ret].
    apply appends_silent, check_cache_calls. }
  intros [response|]; [apply appends_ret|].
  apply appends_bind; [apply retrieve_appends|].
  intros [results used].
  destruct (_combine_results results (query request)) as [[ans srcs] conf].
  apply appends_bind; [|intros; apply appends_ret].
  destruct (use_cache request); [|apply appends_ret].
  apply appends_silent. reflexivity.
Qed.

(** C10 (what the code does).  Whatever the strategy and whatever the
    collaborators do, the retrieval calls of one request are made one
    after the other: each call has returned or failed before the next
    one starts, and no two of them overlap. *)
Theorem process_query_calls_are_sequential
        (start_time end_time : Q) (request : QueryRequest) (s : gmap string (pyval * Q)) :
  let log := calls (snd (process_query settings start_time end_time request
                           {| redis := s; calls := [] |})) in
  sequential log /\ ~ overlapping log.
Proof.
  intros log.
  destruct (process_query_appends start_time end_time request {| redis := s; calls := [] |})
    as (l & Hl & Hseq).
  simpl in Hl. fold log in Hl. rewrite Hl.
  split; [exact Hseq|apply sequential_not_overlapping, Hseq].
Qed.

End Pipeline.

(** The planner enables semantic and graph search; both calls succeed; the
    log shows the first call returning before the second one starts. *)
Example two_sources_run_in_turn :
  let run := UnifiedAgent.process_query
               (cache := Sample.cache_services) (planner := Sample.two_source_planner)
               (agents := Sample.all_up [9 # 10]%Q)
               default_settings 0 1 Sample.uncached_request Sample.empty_world in
  UnifiedAgent.strategy_used <$> fst run = Ok ["RAG"; "KAG"]
  /\ calls (snd run) = [Started SemanticSearch; Returned SemanticSearch;
                        Started GraphSearch; Returned GraphSearch].
Proof. split; vm_compute; reflexivity. Qed.

Section RetrievalFailures.

Context {cache : CacheServices} {server : RedisServer} {planner : PlannerServices}
        {agents : RetrievalAgents} {backends : SearchBackends}.
Variable settings : Settings.

Import UnifiedAgent.

Lemma retrieve_raises (request : QueryRequest) (strategy : QueryStrategy) (w : World) :
  (use_rag strategy = true
   /\ exists e, rag_search (query request) (filters request) (rag_limit strategy) = Raise e)
  \/ (use_kag strategy = true
      /\ exists e, kag_analyze_relationships (query request) (kg_depth strategy) = Raise e)
  \/ (use_temporal strategy = true
      /\ exists e, kag_temporal_search (query request) (time_range strategy) = Raise e) ->
  exists e, fst (retrieve request strategy w) = Raise e.
Proof.
  unfold retrieve, mbind, M_bind, mret, M_ret, await.
  intros [[Hf [e He]]|[[Hf [e He]]|[Hf [e He]]]]; rewrite Hf, He;
    repeat case_match; simpl in *; simplify_eq; eauto.
Qed.

Lemma cached_response_cached (d : gmap string pyval) (r : QueryResponse) :
  cached_response d = Ok r -> cached r = true.
Proof.
  unfold cached_response, mbind, outcome_bind, mret, outcome_ret.
  intros Hr. repeat (case_match; try discriminate).
  injection Hr as <-. reflexivity.
Qed.

Lemma check_cache_answer_is_cached (now : Q) (request : QueryRequest) (w : World)
      (r : QueryResponse) :
  fst (_check_cache settings now request w) = Ok (Some r) -> cached r = true.
Proof.
  unfold _check_cache.
  destruct (CAGAgent.check_cache _ _ _ _ _) as [[v|] s']; [|discriminate].
  repeat (case_match; try discriminate); simpl.
  unfold mbind, outcome_bind, mret, outcome_ret.
  destruct (cached_response _) as [r'|e] eqn:Hr; [|discriminate].
  intros [= <-]. exact (cached_response_cached _ _ Hr).
Qed.

(** With the agents of the repository every retrieval call returns. *)
Lemma retrieve_repository_agents (request : QueryRequest) (strategy : QueryStrategy)
      (w : World) :
  exists results w',
    retrieve (agents := repository_agents) request strategy w
    = (Ok (results, labels strategy), w').
Proof.
  unfold retrieve, labels, mbind, M_bind, mret, M_ret, await.
  destruct (use_rag strategy), (use_kag strategy), (use_temporal strategy);
    simpl; eauto.
Qed.

(** C1 (amended).  [process_query] does not catch a retrieval call that
    raises: when a call enabled by the strategy raises, the request ends
    with an exception (unless the cache had already answered it).  The
    agents of the repository catch the failures of their back ends
    themselves and return an empty result; with them, and a cache that
    does not answer, [process_query] returns a response that is not
    cached and whose [strategy_used] lists every enabled source, the
    failed ones included. *)
Theorem process_query_retrieval_failures
        (start_time end_time : Q) (request : QueryRequest) (w : World) :
  let strategy := OrchestratorAgent.analyze_query (query request) (context request) in
  ((use_rag strategy = true
    /\ exists e, rag_search (query request) (filters request) (rag_limit strategy) = Raise e)
   \/ (use_kag strategy = true
       /\ exists e, kag_analyze_relationships (query request) (kg_depth strategy) = Raise e)
   \/ (use_temporal strategy = true
       /\ exists e, kag_temporal_search (query request) (time_range strategy) = Raise e) ->
   (exists e, fst (process_query settings start_time end_time request w) = Raise e)
   \/ (exists r, fst (process_query settings start_time end_time request w) = Ok r
                 /\ cached r = true))
  /\ (fst ((if use_cache request then _check_cache settings start_time request
            else mret None) w) = Ok None ->
      exists r, fst (process_query (agents := repository_agents)
                       settings start_time end_time request w) = Ok r
                /\ strategy_used r = labels strategy
                /\ cached r = false).
Proof.
  intros strategy. split.
  - intros Hfail. unfold process_query. rewrite bind_run.
    destruct ((if use_cache request then _check_cache settings start_time request
               else mret None) w) as [[[r|]|e] w1] eqn:Hstep.
    + right. exists r. split; [reflexivity|].
      destruct (use_cache request); [|discriminate].
      apply (check_cache_answer_is_cached start_time request w). rewrite Hstep. reflexivity.
    + left. fold strategy.
      destruct (retrieve_raises request strategy w1 Hfail) as [e He].
      exists e. rewrite bind_run.
      destruct (retrieve request strategy w1) as [[x|e'] w2]; simpl in He; [discriminate|].
      simpl. injection He as ->. reflexivity.
    + left. exists e. reflexivity.
  - intros Hmiss. unfold process_query. rewrite bind_run.
    destruct ((if use_cache request then _check_cache settings start_time request
               else mret None) w) as [[[r|]|e] w1]; simpl in Hmiss; try discriminate.
    fold strategy.
    destruct (retrieve_repository_agents request strategy w1) as (results & w2 & Hret).
    rewrite bind_run, Hret.
    destruct (_combine_results results (query request)) as [[ans srcs] conf].
    rewrite bind_run.
    destruct (use_cache request); simpl; eexists; repeat split.
Qed.

End RetrievalFailures.

Section RetrievalFailureRuns.

Import UnifiedAgent.

Lemma process_query_retrieval_failures_witness :
  let strategy :=
    OrchestratorAgent.analyze_query (planner := Sample.two_source_planner) (query Sample.uncached_request) (context Sample.uncached_request) in
  (use_kag strategy = true
   /\ exists e, kag_analyze_relationships (RetrievalAgents := Sample.graph_down [9 # 10]%Q)
                  (query Sample.uncached_request) (kg_depth strategy) = Raise e)
  /\ ((exists e, fst (process_query (cache := Sample.cache_services) (planner := Sample.two_source_planner)
                        (agents := Sample.graph_down [9 # 10]%Q)
                        default_settings 0 1 Sample.uncached_request Sample.empty_world) = Raise e)
      \/ (exists r, fst (process_query (cache := Sample.cache_services) (planner := Sample.two_source_planner)
                           (agents := Sample.graph_down [9 # 10]%Q)
                           default_settings 0 1 Sample.uncached_request Sample.empty_world) = Ok r
                    /\ cached r = true)).
Proof.
  intros strategy.
  assert (Hkag : use_kag strategy = true
                 /\ exists e, kag_analyze_relationships
                                (RetrievalAgents := Sample.graph_down [9 # 10]%Q)
                                (query Sample.uncached_request) (kg_depth strategy) = Raise e).
  { split; [reflexivity|]. eexists. reflexivity. }
  split; [exact Hkag|].
  exact (proj1 (process_query_retrieval_failures
                  (cache := Sample.cache_services) (planner := Sample.two_source_planner)
                  (agents := Sample.graph_down [9 # 10]%Q)
                  (backends := Sample.graph_backend_down [9 # 10]%Q)
                  default_settings 0 1 Sample.uncached_request Sample.empty_world)
               (or_intror (or_introl Hkag))).
Defined.

(** C1, as stated, fails.  The strategy enables semantic and graph
    search.  When the graph call raises, [process_query] raises too and
    returns no response.  When instead the graph data base fails inside
    [KAGAgent], a response is returned, but its [strategy_used] is
    ["RAG"; "KAG"], not ["RAG"]. *)
Lemma process_query_graph_failure :
  fst (process_query (cache := Sample.cache_services) (planner := Sample.two_source_planner)
         (agents := Sample.graph_down [9 # 10]%Q)
         default_settings 0 1 Sample.uncached_request Sample.empty_world)
  = Raise (ServiceError "neo4j unavailable")
  /\ strategy_used <$>
       fst (process_query (cache := Sample.cache_services) (planner := Sample.two_source_planner)
              (agents := repository_agents (backends := Sample.graph_backend_down [9 # 10]%Q))
              default_settings 0 1 Sample.uncached_request Sample.empty_world)
     = Ok ["RAG"; "KAG"].
Proof. split; vm_compute; reflexivity. Qed.

End RetrievalFailureRuns.

Section CacheHit.

Context {cache : CacheServices} {server : RedisServer} {planner : PlannerServices} {agents : RetrievalAgents}.
Variable settings : Settings.

Import UnifiedAgent.

Lemma cached_response_no_answer (d : gmap string pyval) :
  d !! "answer" = None -> cached_response d = Raise (KeyError "answer").
Proof. intros Hd. unfold cached_response, getitem. rewrite Hd. reflexivity. Qed.

(** A lookup right after a write is answered by the exact key. *)
Lemma check_cache_after_update (t0 t1 : Q) (s : gmap string (pyval * Q)) (q : string)
      (result : gmap string pyval) (uc : option UserContext) (query_type : string) :
  (0 < CAGAgent.ttl_for settings query_type)%Z ->
  (t1 - t0 < inject_Z (CAGAgent.ttl_for settings query_type))%Q ->
  let s' := CAGAgent.update_cache settings t0 s q result uc query_type in
  CAGAgent.check_cache settings t1 s' q uc
  = (Some (PDict (<["cache_key" := PStr (CAGAgent.exact_key q)]>
                    (CAGAgent.make_cache_data settings t0 q result uc query_type))), s').
Proof.
  intros Httl Hage s'.
  assert (Hexact : CAGAgent.exact_key q ∈ CAGAgent._generate_cache_keys q uc)
    by apply list_elem_of_here.
  pose proof (update_cache_lookup settings t0 s q result uc query_type _ Httl Hexact)
    as Hlook.
  fold s' in Hlook.
  eapply (check_cache_hit settings t1 [] _ s' (CAGAgent.exact_key q)).
  - reflexivity.
  - intros k Hin. inversion Hin.
  - unfold Redis.get, Redis.alive. rewrite Hlook. simpl.
    assert (Hlive : Qltb t1 (t0 + inject_Z (CAGAgent.ttl_for settings query_type)) = true)
      by (apply Qltb_lt; lra).
    rewrite Hlive. reflexivity.
  - apply (is_fresh_stored_ttl settings t1 t0
             (inject_Z (CAGAgent.ttl_for settings query_type)));
      [reflexivity|reflexivity|exact Hage].
Qed.

(** C2 (what the code does).  The answer to a request is cached with a
    confidence above 0.9; the same request arrives again while the record
    is fresh.  The lookup finds the record, the confidence gate passes, and
    [_check_cache] then reads [cached_result['answer']]; but [update_cache]
    stored the answer one level down, under [result], so the read raises
    [KeyError] and [process_query] passes the exception on: no cached
    response is returned. *)
Theorem process_query_cache_hit_raises
        (t0 t1 t2 : Q) (request : QueryRequest) (response : QueryResponse) (w : World) :
  use_cache request = true ->
  (0 < CAGAgent.ttl_for settings (_determine_query_type (strategy_used response)))%Z ->
  (9 # 10 < confidence response)%Q ->
  (t1 - t0 < inject_Z (CAGAgent.ttl_for settings
                         (_determine_query_type (strategy_used response))))%Q ->
  fst (process_query settings t1 t2 request
         (snd (_update_cache settings t0 request response w)))
  = Raise (KeyError "answer").
Proof.
  intros Hcache Httl Hconf Hage.
  unfold process_query. rewrite Hcache, bind_run.
  unfold _check_cache, _update_cache. simpl redis.
  rewrite (check_cache_after_update t0 t1 (redis w) (query request)
             (response_payload response) (request_context request) _ Httl Hage).
  assert (Htruthy : forall (d : gmap string pyval) v,
             truthy (PDict (<["cache_key" := v]> d)) = true).
  { intros d v. simpl. apply negb_true_iff, bool_decide_eq_false, insert_non_empty. }
  rewrite Htruthy.
  change (dict_get _ "confidence" (PNum 0)) with (PNum (confidence response)).
  simpl as_number. cbv beta iota.
  assert (Hgate : Qltb (9 # 10) (confidence response) = true) by (apply Qltb_lt; exact Hconf).
  rewrite Hgate. rewrite cached_response_no_answer by reflexivity. reflexivity.
Qed.

End CacheHit.

Section CacheHitRuns.

Import UnifiedAgent.

Lemma process_query_cache_hit_raises_witness :
  let response :=
    {| answer := "DataLive is a retrieval system."; sources := [];
       confidence := 95 # 100; strategy_used := ["RAG"]; processing_time := 1;
       cached := false; metadata := None |} in
  use_cache Sample.cached_request = true
  /\ (0 < CAGAgent.ttl_for default_settings (_determine_query_type (strategy_used response)))%Z
  /\ (9 # 10 < confidence response)%Q
  /\ (2 - 1 < inject_Z (CAGAgent.ttl_for default_settings
                          (_determine_query_type (strategy_used response))))%Q
  /\ fst (process_query (cache := Sample.cache_services)
            (planner := Sample.two_source_planner) (agents := Sample.all_up [95 # 100]%Q)
            default_settings 2 3 Sample.cached_request
            (snd (_update_cache (cache := Sample.cache_services) default_settings 1
                    Sample.cached_request response Sample.empty_world)))
     = Raise (KeyError "answer").
Proof.
  intros response.
  assert (H1 : use_cache Sample.cached_request = true) by reflexivity.
  assert (H2 : (0 < CAGAgent.ttl_for default_settings
                       (_determine_query_type (strategy_used response)))%Z) by reflexivity.
  assert (H3 : (9 # 10 < confidence response)%Q) by reflexivity.
  assert (H4 : (2 - 1 < inject_Z (CAGAgent.ttl_for default_settings
                                    (_determine_query_type (strategy_used response))))%Q)
    by reflexivity.
  repeat (split; [assumption|]).
  exact (process_query_cache_hit_raises
           (cache := Sample.cache_services) (planner := Sample.two_source_planner)
           (agents := Sample.all_up [95 # 100]%Q)
           default_settings 1 2 3 Sample.cached_request response Sample.empty_world
           H1 H2 H3 H4).
Defined.

(** The same request twice, end to end: semantic search returns one hit
    scored 0.95, the first run answers with confidence 0.95 and caches the
    answer; the second run raises. *)
Example repeated_request_raises :
  let first := process_query (cache := Sample.cache_services)
                 (planner := Sample.planner (Ok "rag"))
                 (agents := Sample.all_up [95 # 100]%Q)
                 default_settings 0 1 Sample.cached_request Sample.empty_world in
  let second := process_query (cache := Sample.cache_services)
                  (planner := Sample.planner (Ok "rag"))
                  (agents := Sample.all_up [95 # 100]%Q)
                  default_settings 2 3 Sample.cached_request (snd first) in
  (cached <$> fst first = Ok false)
  /\ (Qred ∘ confidence <$> fst first = Ok (19 # 20)%Q)
  /\ fst second = Raise (KeyError "answer").
Proof. repeat split; vm_compute; reflexivity. Qed.

End CacheHitRuns.

(** * Further properties of the code *)

(** ** Writing to the cache *)

Section CacheWrites.

Context {cache : CacheServices} {server : RedisServer}.
Variable settings : Settings.
Implicit Types (s : gmap string (pyval * Q)) (k : string).

Import CAGAgent.

Lemma setex_all_frame (now : Q) (ks : list string) (ttl : Z) (v : pyval) s k :
  k ∉ ks -> snd (setex_all now ks ttl v s) !! k = s !! k.
Proof.
  revert s. induction ks as [|k0 ks IH]; intros s Hnin; [reflexivity|].
  simpl. unfold Redis.setex. destruct (ttl <=? 0)%Z; [reflexivity|].
  rewrite IH by (intros Hin; apply Hnin, list_elem_of_further, Hin).
  apply lookup_insert_ne. intros ->. apply Hnin, list_elem_of_here.
Qed.

Lemma store_semantic_cache_frame (now : Q) s (query : string)
      (cache_data : gmap string pyval) k :
  k <> semantic_embeddings_key query ->
  _store_semantic_cache settings now s query cache_data !! k = s !! k.
Proof.
  intros Hne. unfold _store_semantic_cache.
  destruct (embed_text query) as [e|err]; simpl; [|reflexivity].
  unfold Redis.setex. destruct (_ <=? 0)%Z; simpl; [reflexivity|].
  apply lookup_insert_ne. congruence.
Qed.

(** X1.  When the TTL selected for the query type is zero or negative,
    Redis rejects the first write and [update_cache] gives up: the store is
    left exactly as it was, without any record and without an index
    entry. *)
Theorem update_cache_rejected_ttl
        (now : Q) s (query : string) (result : gmap string pyval)
        (uc : option UserContext) (query_type : string) :
  (ttl_for settings query_type <= 0)%Z ->
  update_cache settings now s query result uc query_type = s.
Proof.
  intros Hle. unfold update_cache, _generate_cache_keys. simpl. unfold Redis.setex.
  apply Z.leb_le in Hle. rewrite Hle. reflexivity.
Qed.

Lemma update_cache_other_keys
      (now : Q) s (query : string) (result : gmap string pyval)
      (uc : option UserContext) (query_type : string) k :
  k ∉ _generate_cache_keys query uc ->
  k <> semantic_embeddings_key query ->
  update_cache settings now s query result uc query_type !! k = s !! k.
Proof.
  intros Hnin Hne. unfold update_cache.
  pose proof (setex_all_frame now (_generate_cache_keys query uc)
                (ttl_for settings query_type)
                (PDict (make_cache_data settings now query result uc query_type)) s k Hnin)
    as Hframe.
  destruct (setex_all _ _ _ _ s) as [[[]|err] s1]; simpl in Hframe.
  - rewrite store_semantic_cache_frame by exact Hne. exact Hframe.
  - exact Hframe.
Qed.

(** X2.  [update_cache] writes nowhere else: a key that is neither one of
    the generated keys of the query nor its index key holds after the call
    what it held before. *)
Theorem update_cache_frame
        (now : Q) s (query : string) (result : gmap string pyval)
        (uc : option UserContext) (query_type : string) k :
  k ∉ _generate_cache_keys query uc ->
  k <> semantic_embeddings_key query ->
  update_cache settings now s query result uc query_type !! k = s !! k.
Proof. apply update_cache_other_keys. Qed.


Lemma glob_generated_key_not_index (query : string) (uc : option UserContext) k :
  k ∈ _generate_cache_keys query uc -> Str.glob "semantic_embeddings:*" k = false.
Proof.
  unfold _generate_cache_keys, exact_key, normalized_key.
  destruct (ctx_field uc user_id), (ctx_field uc session_id), (_get_semantic_hash query);
    unfold user_key, session_key, semantic_key; intros Hin;
    repeat (apply elem_of_cons in Hin as [->|Hin]); try (inversion Hin; fail);
    reflexivity.
Qed.

(** X4.  The keys generated for a query are pairwise distinct and number
    between two and five; none of them lies in the namespace of the
    embedding index, and each of them is counted by exactly one of the five
    patterns of [get_cache_stats]. *)
Theorem generated_keys_namespaces (query : string) (uc : option UserContext) :
  NoDup (_generate_cache_keys query uc)
  /\ (2 <= length (_generate_cache_keys query uc) <= 5)%nat
  /\ forall k, k ∈ _generate_cache_keys query uc ->
               Str.glob "semantic_embeddings:*" k = false
               /\ length (List.filter (fun t => Str.glob (t +:+ ":*") k)
                                      CacheStats.cache_types) = 1%nat.
Proof.
  split; [apply NoDup_generated_keys|]. split.
  - unfold _generate_cache_keys.
    destruct (ctx_field uc user_id), (ctx_field uc session_id), (_get_semantic_hash query);
      simpl; lia.
  - intros k Hin. split; [apply (glob_generated_key_not_index query uc), Hin|].
    revert Hin. unfold _generate_cache_keys, exact_key, normalized_key.
    destruct (ctx_field uc user_id), (ctx_field uc session_id), (_get_semantic_hash query);
      unfold user_key, session_key, semantic_key; intros Hin;
      repeat (apply elem_of_cons in Hin as [->|Hin]); try (inversion Hin; fail);
      unfold CacheStats.cache_types; cbn -[Str.glob];
      repeat match goal with
             | |- context [Str.glob ?p ?key] =>
                 first [ replace (Str.glob p key) with false by reflexivity
                       | replace (Str.glob p key) with true
                           by (symmetry; simpl; apply glob_any) ]
             end;
      reflexivity.
Qed.

End CacheWrites.

Section CacheWriteRuns.

Import CAGAgent.

Lemma update_cache_rejected_ttl_witness :
  (ttl_for SampleMore.no_temporal_ttl "temporal" <= 0)%Z
  /\ update_cache (cache := Sample.cache_services) SampleMore.no_temporal_ttl 0 ∅
       "What changed last month?" (Sample.payload (95 # 100)) None "temporal" = ∅.
Proof.
  assert (H : (ttl_for SampleMore.no_temporal_ttl "temporal" <= 0)%Z)
    by (vm_compute; discriminate).
  split; [exact H|].
  exact (update_cache_rejected_ttl (cache := Sample.cache_services)
           SampleMore.no_temporal_ttl 0 ∅ "What changed last month?"
           (Sample.payload (95 # 100)) None "temporal" H).
Defined.

Lemma update_cache_frame_witness :
  let s : gmap string (pyval * Q) := {[ "exact:other question" := (PDict ∅, 50%Q) ]} in
  ("exact:other question" ∉ _generate_cache_keys (cache := Sample.cache_services)
                                                 "What is DataLive?" None)
  /\ "exact:other question"
     <> semantic_embeddings_key (cache := Sample.cache_services) "What is DataLive?"
  /\ update_cache (cache := Sample.cache_services) default_settings 0 s
       "What is DataLive?" (Sample.payload (95 # 100)) None "factual"
     !! "exact:other question" = s !! "exact:other question".
Proof.
  intros s.
  assert (H1 : "exact:other question"
               ∉ _generate_cache_keys (cache := Sample.cache_services)
                   "What is DataLive?" None).
  { vm_compute. intros Hin. repeat (apply elem_of_cons in Hin as [Hin|Hin]; [discriminate|]).
    inversion Hin. }
  assert (H2 : "exact:other question"
               <> semantic_embeddings_key (cache := Sample.cache_services)
                    "What is DataLive?") by discriminate.
  split; [exact H1|]. split; [exact H2|].
  exact (update_cache_frame (cache := Sample.cache_services) default_settings 0 s
           "What is DataLive?" (Sample.payload (95 # 100)) None "factual" _ H1 H2).
Defined.


Lemma generated_keys_namespaces_witness :
  user_key (cache := Sample.cache_services) "42" "What is DataLive?"
  ∈ _generate_cache_keys (cache := Sample.cache_services) "What is DataLive?"
      SampleMore.user_42
  /\ Str.glob "semantic_embeddings:*"
       (user_key (cache := Sample.cache_services) "42" "What is DataLive?") = false.
Proof.
  assert (H : user_key (cache := Sample.cache_services) "42" "What is DataLive?"
              ∈ _generate_cache_keys (cache := Sample.cache_services) "What is DataLive?"
                  SampleMore.user_42).
  { do 2 apply list_elem_of_further. apply list_elem_of_here. }
  split; [exact H|].
  exact (proj1 (proj2 (proj2 (generated_keys_namespaces (cache := Sample.cache_services)
                                "What is DataLive?" SampleMore.user_42)) _ H)).
Defined.

End CacheWriteRuns.

(** ** The semantic hash *)

Section SemanticHash.

Context {cache : CacheServices} {server : RedisServer}.

Import CAGAgent.












End SemanticHash.


(** ** Cosine similarity and freshness *)

Section SimilarityEdges.

Context {cache : CacheServices} {server : RedisServer}.
Variable settings : Settings.
Implicit Types (s : gmap string (pyval * Q)) (k : string).

Import CAGAgent.

Lemma as_vector_numbers (v : list Q) : as_vector (List.map PNum v) = Some v.
Proof.
  induction v as [|x v IH]; [reflexivity|]. simpl. rewrite IH. reflexivity.
Qed.

Lemma dot_comm (v1 v2 : list Q) : (dot v1 v2 == dot v2 v1)%Q.
Proof.
  revert v2. induction v1 as [|x v1 IH]; intros [|y v2]; simpl; try reflexivity.
  rewrite IH. ring.
Qed.

(** X7.  [_cosine_similarity] is symmetric: the similarity of a query
    embedding with a stored embedding equals that of the stored one with
    the query's. *)
Theorem cosine_similarity_symmetric (v1 v2 : list Q) :
  (_cosine_similarity v1 (PList (List.map PNum v2))
   == _cosine_similarity v2 (PList (List.map PNum v1)))%Q.
Proof.
  unfold _cosine_similarity. rewrite !as_vector_numbers.
  rewrite (Nat.eqb_sym (length v2) (length v1)).
  destruct (length v1 =? length v2)%nat; simpl; [|reflexivity].
  rewrite (orb_comm (Qeq_bool (norm v2) 0)).
  destruct (Qeq_bool (norm v1) 0 || Qeq_bool (norm v2) 0); [reflexivity|].
  rewrite (dot_comm v1 v2), (Qmult_comm (norm v1) (norm v2)). reflexivity.
Qed.

(** X8.  A stored embedding that is a flat list of numbers (a JSON boolean
    counting as 1 or 0) and whose length differs from the query
    embedding's, or for which one of the two norms is zero, has similarity
    0 with the query; the scan passes over such a document without changing
    its best match.  So the entries written before a change of the
    embedding dimension never match again. *)
Theorem degenerate_embedding_never_matches
        (qe : list Q) (l : list pyval) (v : list Q) :
  as_vector l = Some v ->
  length qe <> length v \/ (norm qe == 0)%Q \/ (norm v == 0)%Q ->
  _cosine_similarity qe (PList l) = 0%Q
  /\ forall (data : gmap string pyval) (st : option pyval * Q),
      data !! "embedding" = Some (PList l) -> scan_one qe (PDict data) st = st.
Proof.
  intros Hvec Hdeg.
  assert (Hzero : _cosine_similarity qe (PList l) = 0%Q).
  { unfold _cosine_similarity. rewrite Hvec.
    destruct (length qe =? length v)%nat eqn:Hlen; simpl; [|reflexivity].
    destruct Hdeg as [Hne|[Hn|Hn]].
    - apply Nat.eqb_eq in Hlen. contradiction.
    - apply Qeq_bool_iff in Hn. rewrite Hn. reflexivity.
    - apply Qeq_bool_iff in Hn. rewrite Hn, orb_true_r. reflexivity. }
  split; [exact Hzero|].
  intros data [bm bs] Hemb. unfold scan_one. rewrite Hemb, Hzero. reflexivity.
Qed.

(** X9.  A cached value is fresh exactly when it is a dictionary whose
    [cached_at] is a timestamp and whose age is below its [ttl]; a record
    without [ttl] is judged against the factual TTL of the configuration in
    force, and a [ttl] that is not a number makes the record stale. *)
Theorem is_fresh_iff (now : Q) (v : pyval) :
  _is_fresh settings now v = true
  <-> exists (d : gmap string pyval) (t n : Q),
      v = PDict d
      /\ d !! "cached_at" = Some (PTime t)
      /\ as_number (dict_get d "ttl" (PNum (inject_Z (cache_ttl_factual settings)))) = Ok n
      /\ (now - t < n)%Q.
Proof.
  split.
  - destruct v as [| | | | | |d]; try discriminate.
    unfold _is_fresh, getitem, ttl_general.
    destruct (d !! "cached_at") as [[| | | |t| |]|] eqn:Hat; try discriminate.
    simpl.
    destruct (as_number (dict_get d "ttl" (PNum (inject_Z (cache_ttl_factual settings)))))
      as [n|e] eqn:Hn; [|discriminate].
    simpl. intros Hlt. apply Qltb_lt in Hlt. exists d, t, n. auto.
  - intros (d & t & n & -> & Hat & Hn & Hlt).
    unfold _is_fresh, getitem, ttl_general. rewrite Hat. simpl. rewrite Hn. simpl.
    apply Qltb_lt, Hlt.
Qed.

(** The store after the probing loop: the original one without some
    candidate keys, each of which held a stale record. *)
Lemma probe_deletes (now : Q) (ks : list string) s :
  exists del,
    snd (probe settings now ks s) = Redis.delete del s
    /\ forall k, k ∈ del ->
                 k ∈ ks /\ exists v, Redis.get now s k = Some v
                                     /\ _is_fresh settings now v = false.
Proof.
  revert s. induction ks as [|k0 ks IH]; intros s.
  - exists []. split; [reflexivity|]. intros k Hin. inversion Hin.
  - simpl. destruct (Redis.get now s k0) as [v|] eqn:Hget.
    + destruct (_is_fresh settings now v) eqn:Hfresh.
      * exists []. split; [reflexivity|]. intros k Hin. inversion Hin.
      * change (Redis.delete [k0] s) with (base.delete k0 s).
        destruct (IH (base.delete k0 s)) as (del & Hs & Hdel).
        exists (k0 :: del). split.
        -- rewrite Hs. apply delete_list_delete.
        -- intros k Hin. apply elem_of_cons in Hin as [->|Hin].
           ++ split; [apply list_elem_of_here|]. eauto.
           ++ destruct (Hdel k Hin) as (Hks & v' & Hget' & Hst).
              split; [apply list_elem_of_further, Hks|].
              exists v'. split; [|exact Hst].
              destruct (decide (k0 = k)) as [->|Hne].
              ** unfold Redis.get in Hget'. rewrite lookup_delete_eq in Hget'. discriminate.
              ** rewrite get_delete_ne in Hget' by exact Hne. exact Hget'.
    + destruct (IH s) as (del & Hs & Hdel). exists del. split; [exact Hs|].
      intros k Hin. destruct (Hdel k Hin) as (Hks & Hv).
      split; [apply list_elem_of_further, Hks|exact Hv].
Qed.

Lemma check_cache_store (now : Q) s (query : string) (uc : option UserContext) :
  snd (check_cache settings now s query uc)
  = snd (probe settings now (_generate_cache_keys query uc) s).
Proof.
  unfold check_cache.
  destruct (probe settings now (_generate_cache_keys query uc) s) as [[[r|]|e] s']; simpl;
    try reflexivity.
  destruct (_find_similar_cached_query now s' query) as [r|]; [|reflexivity].
  destruct (truthy r); reflexivity.
Qed.

Lemma check_cache_deletes (now : Q) s (query : string) (uc : option UserContext) :
  exists del,
    snd (check_cache settings now s query uc) = Redis.delete del s
    /\ forall k, k ∈ del ->
                 k ∈ _generate_cache_keys query uc
                 /\ exists v, Redis.get now s k = Some v
                              /\ _is_fresh settings now v = false.
Proof. rewrite check_cache_store. apply probe_deletes. Qed.

(** X10.  A lookup never writes: after [check_cache] every key holds what
    it held before or has been deleted, and a deleted key is one of the
    candidate keys of the query and held a stale record.  Fresh records and
    the keys of other queries are never touched. *)
Theorem check_cache_only_deletes_stale
        (now : Q) s (query : string) (uc : option UserContext) k :
  snd (check_cache settings now s query uc) !! k = s !! k
  \/ (snd (check_cache settings now s query uc) !! k = None
      /\ k ∈ _generate_cache_keys query uc
      /\ exists v, Redis.get now s k = Some v /\ _is_fresh settings now v = false).
Proof.
  destruct (check_cache_deletes now s query uc) as (del & -> & Hdel).
  rewrite lookup_delete_list. destruct (decide (k ∈ del)) as [Hin|Hnin].
  - right. destruct (Hdel k Hin) as [Hks Hv]. auto.
  - left. reflexivity.
Qed.

End SimilarityEdges.

Lemma degenerate_embedding_never_matches_witness :
  CAGAgent.as_vector [PNum 1; PBool false; PNum 0] = Some [1; 0; 0]%Q
  /\ (length [1; 0; 0; 0; 0]%Q <> length [1; 0; 0]%Q
      \/ (CAGAgent.norm (cache := Sample.cache_services) [1; 0; 0; 0; 0]%Q == 0)%Q
      \/ (CAGAgent.norm (cache := Sample.cache_services) [1; 0; 0]%Q == 0)%Q)
  /\ CAGAgent._cosine_similarity (cache := Sample.cache_services)
       [1; 0; 0; 0; 0]%Q (PList [PNum 1; PBool false; PNum 0]) = 0%Q.
Proof.
  assert (H1 : CAGAgent.as_vector [PNum 1; PBool false; PNum 0] = Some [1; 0; 0]%Q)
    by reflexivity.
  assert (H2 : length [1; 0; 0; 0; 0]%Q <> length [1; 0; 0]%Q
               \/ (CAGAgent.norm (cache := Sample.cache_services) [1; 0; 0; 0; 0]%Q == 0)%Q
               \/ (CAGAgent.norm (cache := Sample.cache_services) [1; 0; 0]%Q == 0)%Q)
    by (left; simpl; lia).
  split; [exact H1|]. split; [exact H2|].
  exact (proj1 (degenerate_embedding_never_matches (cache := Sample.cache_services)
                  [1; 0; 0; 0; 0]%Q [PNum 1; PBool false; PNum 0] [1; 0; 0]%Q H1 H2)).
Defined.

(** ** Invalidation, statistics and the embedding index *)

Section Invalidation.

Context {cache : CacheServices} {server : RedisServer}.
Variable settings : Settings.
Implicit Types (s : gmap string (pyval * Q)) (k : string).

Import CAGAgent EmbeddingIndex.

Lemma keys_nil (now : Q) s (pattern : string) :
  (forall k, Redis.get now s k = None) -> Redis.keys now s pattern = [].
Proof.
  intros Hnone. destruct (Redis.keys now s pattern) as [|a l] eqn:Hkeys; [reflexivity|].
  assert (Hin : a ∈ Redis.keys now s pattern) by (rewrite Hkeys; apply list_elem_of_here).
  apply elem_of_keys in Hin as (e & Hs & Ha & _).
  specialize (Hnone a). unfold Redis.get in Hnone. rewrite Hs, Ha in Hnone. discriminate.
Qed.

Lemma invalidate_everything_get (now : Q) s k :
  Redis.get now (snd (invalidate_cache_pattern now s "*")) k = None.
Proof.
  unfold Redis.get. rewrite invalidate_lookup.
  destruct (s !! k) as [e|]; [|reflexivity].
  rewrite (key_matches_simple "*" k eq_refl), glob_any, andb_true_r.
  destruct (Redis.alive now e) eqn:Ha; [reflexivity|]. rewrite Ha. reflexivity.
Qed.

Lemma check_cache_empty (now : Q) s (query : string) (uc : option UserContext) :
  (forall k, Redis.get now s k = None) ->
  fst (check_cache settings now s query uc) = None.
Proof.
  intros Hnone. unfold check_cache.
  assert (Hpass : forall k, k ∈ _generate_cache_keys query uc -> passes settings now s k = true).
  { intros k _. unfold passes. rewrite Hnone. reflexivity. }
  rewrite (probe_miss settings now _ s (NoDup_generated_keys query uc) Hpass).
  rewrite (holding_nil now s _ (fun k _ => Hnone k)).
  change (Redis.delete [] s) with s.
  unfold _find_similar_cached_query.
  destruct (embed_text query) as [qe|e]; simpl; [|reflexivity].
  rewrite (keys_nil now s _ Hnone). reflexivity.
Qed.

(** X11.  After [invalidate_cache_pattern("*")] no key is readable any
    more, and a lookup of any query in any context finds nothing, neither
    by key nor by similarity. *)
Theorem lookup_after_invalidating_everything
        (now : Q) s (query : string) (uc : option UserContext) :
  (forall k, Redis.get now (snd (invalidate_cache_pattern now s "*")) k = None)
  /\ fst (check_cache settings now (snd (invalidate_cache_pattern now s "*")) query uc)
     = None.
Proof.
  split; [apply invalidate_everything_get|].
  apply check_cache_empty, invalidate_everything_get.
Qed.

(** X12.  Invalidating twice with the same pattern changes nothing more
    than invalidating once. *)
Theorem invalidate_cache_pattern_idempotent (now : Q) s (pattern : string) :
  snd (invalidate_cache_pattern now
         (snd (invalidate_cache_pattern now s pattern)) pattern)
  = snd (invalidate_cache_pattern now s pattern).
Proof.
  apply map_eq. intros k. rewrite !invalidate_lookup.
  destruct (s !! k) as [e|]; [|reflexivity].
  destruct (Redis.alive now e && key_matches pattern k) eqn:Hm; [reflexivity|].
  rewrite Hm. reflexivity.
Qed.

Lemma glob_literal (c : ascii) (p t : string) :
  Ascii.eqb c "*" = false -> Ascii.eqb c "?" = false ->
  Str.glob (String c p) t
  = match t with
    | EmptyString => false
    | String d t' => Ascii.eqb c d && Str.glob p t'
    end.
Proof.
  destruct c as [[] [] [] [] [] [] [] []]; intros H1 H2; try discriminate; reflexivity.
Qed.

Lemma plain_cons (c : ascii) (p : string) :
  plain (String c p) = true ->
  Ascii.eqb c "*" = false /\ Ascii.eqb c "?" = false
  /\ Str.simple (String c EmptyString) = true /\ plain p = true.
Proof.
  simpl. rewrite !andb_true_iff, !negb_true_iff.
  intros [[[[[H1 H2] H3] H4] H5] Hp]. rewrite H3, H4, H5.
  repeat split; assumption || reflexivity.
Qed.

Lemma simple_app (p q : string) :
  Str.simple (p +:+ q) = Str.simple p && Str.simple q.
Proof.
  induction p as [|c p IH]; [reflexivity|].
  change (String c p +:+ q) with (String c (p +:+ q)).
  simpl. rewrite IH, !andb_assoc. reflexivity.
Qed.

Lemma plain_simple (p : string) : plain p = true -> Str.simple p = true.
Proof.
  induction p as [|c p IH]; intros Hp; [reflexivity|].
  apply plain_cons in Hp as (_ & _ & Hc & Hp).
  change (String c p) with (String c EmptyString +:+ p).
  rewrite simple_app, Hc, (IH Hp). reflexivity.
Qed.

Lemma glob_plain_prefix (p rest t : string) :
  plain p = true -> Str.glob (p +:+ rest) (p +:+ t) = Str.glob rest t.
Proof.
  induction p as [|c p IH]; intros Hp; [reflexivity|].
  apply plain_cons in Hp as (H1 & H2 & _ & Hp).
  change (String c p +:+ rest) with (String c (p +:+ rest)).
  change (String c p +:+ t) with (String c (p +:+ t)).
  rewrite glob_literal by assumption. rewrite Ascii.eqb_refl. simpl. apply IH, Hp.
Qed.

(** X13.  Invalidating the pattern [user:<uid>:*], for a user id in which
    no character is special in a Redis pattern (none of [*], [?], [[], []]
    and [\]), makes every key scoped to that user unreadable and leaves
    the exact, normalized, session and semantic keys and the embedding index
    of every query as they were. *)
Theorem invalidate_user_scope (now : Q) s (uid : string) :
  plain uid = true ->
  let s' := snd (invalidate_cache_pattern now s ("user:" +:+ uid +:+ ":*")) in
  (forall query, Redis.get now s' (user_key uid query) = None)
  /\ (forall query sid h,
        s' !! exact_key query = s !! exact_key query
        /\ s' !! normalized_key query = s !! normalized_key query
        /\ s' !! session_key sid query = s !! session_key sid query
        /\ s' !! semantic_key h = s !! semantic_key h
        /\ s' !! semantic_embeddings_key query = s !! semantic_embeddings_key query).
Proof.
  intros Hplain s'.
  assert (Hsimple : Str.simple ("user:" +:+ uid +:+ ":*") = true).
  { rewrite !simple_app, (plain_simple uid Hplain). reflexivity. }
  split.
  - intros query. unfold Redis.get, s'. rewrite invalidate_lookup.
    rewrite (key_matches_simple _ _ Hsimple).
    destruct (s !! user_key uid query) as [e|]; [|reflexivity].
    assert (Hglob : Str.glob ("user:" +:+ uid +:+ ":*") (user_key uid query) = true).
    { unfold user_key.
      change (Str.glob ("user:" +:+ uid +:+ ":*") ("user:" +:+ uid +:+ ":" +:+ _hash_text query))
        with (Str.glob (uid +:+ ":*") (uid +:+ ":" +:+ _hash_text query)).
      rewrite glob_plain_prefix by exact Hplain. apply (glob_any (_hash_text query)). }
    rewrite Hglob, andb_true_r.
    destruct (Redis.alive now e) eqn:Ha; [reflexivity|]. rewrite Ha. reflexivity.
  - intros query sid h. unfold s'. rewrite !invalidate_lookup.
    rewrite !(key_matches_simple _ _ Hsimple).
    repeat split;
      match goal with
      | |- match s !! ?key with _ => _ end = _ =>
          destruct (s !! key) as [e|]; [|reflexivity];
          replace (Str.glob ("user:" +:+ uid +:+ ":*") key) with false by reflexivity;
          rewrite andb_false_r; reflexivity
      end.
Qed.

(** X14.  After [invalidate_cache_pattern("*")] the statistics report zero
    keys in each of the five namespaces. *)
Theorem stats_after_invalidating_everything
        (now : Q) s (info : gmap string pyval) (cache_type : string) :
  cache_type ∈ CacheStats.cache_types ->
  CacheStats.get_cache_stats now (snd (invalidate_cache_pattern now s "*")) (Ok info)
  !! cache_type = Some (PNum 0).
Proof.
  intros Hin. unfold CacheStats.get_cache_stats, CacheStats.count_keys. simpl.
  rewrite !(keys_nil now _ _ (invalidate_everything_get now s)).
  unfold CacheStats.cache_types in Hin.
  repeat (apply elem_of_cons in Hin as [->|Hin]); try reflexivity.
  inversion Hin.
Qed.

Lemma update_cache_index_key
      (now : Q) s (query : string) (result : gmap string pyval)
      (uc : option UserContext) (query_type : string) :
  let s' := update_cache settings now s query result uc query_type in
  s' !! semantic_embeddings_key query = s !! semantic_embeddings_key query
  \/ exists e, s' !! semantic_embeddings_key query
               = Some (PDict (make_semantic_data now query e
                                (make_cache_data settings now query result uc query_type)),
                       (now + inject_Z (cache_ttl_analytical settings))%Q).
Proof.
  intros s'. unfold s', update_cache.
  assert (Hnin : semantic_embeddings_key query ∉ _generate_cache_keys query uc).
  { intros Hin. exact (generated_keys_not_embedding query query uc _ Hin eq_refl). }
  pose proof (setex_all_frame now (_generate_cache_keys query uc)
                (ttl_for settings query_type)
                (PDict (make_cache_data settings now query result uc query_type)) s _ Hnin)
    as Hframe.
  destruct (setex_all _ _ _ _ s) as [[[]|err] s1]; simpl in Hframe; [|left; exact Hframe].
  unfold _store_semantic_cache.
  destruct (embed_text query) as [e|err]; simpl; [|left; exact Hframe].
  unfold Redis.setex. destruct (_ <=? 0)%Z; simpl; [left; exact Hframe|].
  right. exists e. apply lookup_insert_eq.
Qed.

(** X15.  The embedding index stays well formed: if every document under
    [semantic_embeddings:*] has an embedding, a cached record and a query,
    this is still so after any [update_cache], [check_cache] or
    [invalidate_cache_pattern], and every document that a similarity scan
    reads is well formed. *)
Theorem index_stays_well_formed s :
  index_well_formed s ->
  (forall now query result uc query_type,
      index_well_formed (update_cache settings now s query result uc query_type))
  /\ (forall now query uc, index_well_formed (snd (check_cache settings now s query uc)))
  /\ (forall now pattern, index_well_formed (snd (invalidate_cache_pattern now s pattern)))
  /\ (forall now, Forall (fun doc => is_Some (parts doc)) (scanned now s)).
Proof.
  intros Hwf. split; [|split; [|split]].
  - intros now query result uc query_type k e Hk Hglob.
    destruct (decide (k = semantic_embeddings_key query)) as [->|Hne].
    + destruct (update_cache_index_key now s query result uc query_type) as [Hsame|[v Hnew]].
      * rewrite Hsame in Hk. exact (Hwf _ _ Hk Hglob).
      * rewrite Hnew in Hk. injection Hk as <-. simpl. eexists. reflexivity.
    + destruct (decide (k ∈ _generate_cache_keys query uc)) as [Hin|Hnin].
      * rewrite (glob_generated_key_not_index query uc k Hin) in Hglob. discriminate.
      * rewrite (update_cache_other_keys settings now s query result uc query_type k Hnin Hne)
          in Hk.
        exact (Hwf _ _ Hk Hglob).
  - intros now query uc k e Hk Hglob.
    destruct (check_cache_deletes settings now s query uc) as (del & Hs & _).
    rewrite Hs, lookup_delete_list in Hk.
    destruct (decide (k ∈ del)); [discriminate|]. exact (Hwf _ _ Hk Hglob).
  - intros now pattern k e Hk Hglob. rewrite invalidate_lookup in Hk.
    destruct (s !! k) as [e'|] eqn:Hs; [|discriminate].
    destruct (Redis.alive now e' && key_matches pattern k); [discriminate|].
    injection Hk as <-. exact (Hwf _ _ Hs Hglob).
  - intros now. apply Forall_forall. intros doc Hin. unfold scanned in Hin.
    apply list_elem_of_omap in Hin as (k & Hk & Hget).
    apply (subseteq_take 50) in Hk.
    apply (elem_of_keys_simple now s "semantic_embeddings:*" k eq_refl) in Hk
      as (e & Hs & Ha & Hglob).
    unfold Redis.get in Hget. rewrite Hs, Ha in Hget. injection Hget as <-.
    exact (Hwf _ _ Hs Hglob).
Qed.

End Invalidation.

Section InvalidationRuns.

Import CAGAgent EmbeddingIndex.

Lemma invalidate_user_scope_witness :
  plain "42" = true
  /\ forall query,
      Redis.get 10 (snd (invalidate_cache_pattern 10 SampleMore.store_of_user_42
                           ("user:" +:+ "42" +:+ ":*")))
                (user_key (cache := Sample.cache_services) "42" query) = None.
Proof.
  assert (H : plain "42" = true) by reflexivity.
  split; [exact H|].
  exact (proj1 (invalidate_user_scope (cache := Sample.cache_services) 10
                  SampleMore.store_of_user_42 "42" H)).
Defined.

Lemma stats_after_invalidating_everything_witness :
  "exact" ∈ CacheStats.cache_types
  /\ CacheStats.get_cache_stats 10
       (snd (invalidate_cache_pattern 10 SampleMore.store_of_user_42 "*")) (Ok ∅)
     !! "exact" = Some (PNum 0).
Proof.
  assert (H : "exact" ∈ CacheStats.cache_types) by apply list_elem_of_here.
  split; [exact H|].
  exact (stats_after_invalidating_everything 10 SampleMore.store_of_user_42 ∅ "exact" H).
Defined.

Lemma index_stays_well_formed_witness :
  index_well_formed ∅
  /\ index_well_formed (Sample.store_after "What is DataLive?" "factual")
  /\ Forall (fun doc => is_Some (parts doc))
            (scanned 10 (Sample.store_after "What is DataLive?" "factual")).
Proof.
  assert (H0 : index_well_formed ∅).
  { intros k e Hk. rewrite lookup_empty in Hk. discriminate. }
  assert (H1 : index_well_formed (Sample.store_after "What is DataLive?" "factual")).
  { exact (proj1 (index_stays_well_formed (cache := Sample.cache_services)
                    default_settings ∅ H0)
                 0%Q "What is DataLive?" (Sample.payload (95 # 100)) None "factual"). }
  split; [exact H0|]. split; [exact H1|].
  exact (proj2 (proj2 (proj2 (index_stays_well_formed (cache := Sample.cache_services)
                                default_settings _ H1))) 10%Q).
Defined.

End InvalidationRuns.

(** ** The request pipeline, continued *)

Section PipelineMore.

Context {cache : CacheServices} {server : RedisServer} {planner : PlannerServices} {agents : RetrievalAgents}.
Variable settings : Settings.

Import UnifiedAgent.

(** X16.  The query type under which a response is cached follows from the
    strategy alone: temporal when temporal search ran, analytical when both
    semantic and graph search ran, factual when semantic search ran without
    graph search, general otherwise (graph search alone included).  Its
    TTL is the temporal, the analytical or else the factual one; no list
    of strategies is ever classified as personal. *)
Theorem cached_type_and_ttl_by_strategy (strategy : QueryStrategy) :
  _determine_query_type (labels strategy)
  = (if use_temporal strategy then "temporal"
     else if use_kag strategy && use_rag strategy then "analytical"
     else if use_rag strategy then "factual" else "general")
  /\ CAGAgent.ttl_for settings (_determine_query_type (labels strategy))
     = (if use_temporal strategy then cache_ttl_temporal settings
        else if use_kag strategy && use_rag strategy then cache_ttl_analytical settings
        else cache_ttl_factual settings)
  /\ forall strategies, _determine_query_type strategies <> "personal".
Proof.
  split; [|split].
  - unfold labels. destruct (use_rag strategy), (use_kag strategy), (use_temporal strategy);
      reflexivity.
  - unfold labels. destruct (use_rag strategy), (use_kag strategy), (use_temporal strategy);
      reflexivity.
  - intros strategies. unfold _determine_query_type.
    repeat case_match; discriminate.
Qed.

Lemma keeps_store_ret {A} (a : A) : keeps_store (mret a : M A).
Proof. intros w. reflexivity. Qed.

Lemma keeps_store_bind {A B} (m : M A) (k : A -> M B) :
  keeps_store m -> (forall a, keeps_store (k a)) -> keeps_store (m ≫= k).
Proof.
  intros Hm Hk w. rewrite bind_run. specialize (Hm w).
  destruct (m w) as [[a|e] w1]; simpl in *; [|exact Hm].
  rewrite Hk. exact Hm.
Qed.

Lemma keeps_store_await {A} (src : Source) (r : outcome A) : keeps_store (await src r).
Proof. intros w. unfold await. destruct r; reflexivity. Qed.

(** An optional retrieval step leaves the store alone. *)
Ltac one_quiet_call :=
  first [ apply keeps_store_ret
        | apply keeps_store_bind; [apply keeps_store_await|intros; apply keeps_store_ret] ].

Lemma retrieve_keeps_store (request : QueryRequest) (strategy : QueryStrategy) :
  keeps_store (retrieve request strategy).
Proof.
  unfold retrieve.
  apply keeps_store_bind; [destruct (use_rag strategy); one_quiet_call|].
  intros [results used].
  apply keeps_store_bind; [destruct (use_kag strategy); one_quiet_call|].
  intros [results' used'].
  destruct (use_temporal strategy); one_quiet_call.
Qed.

(** X17.  With [use_cache] off, [process_query] neither reads nor writes
    the cache: whatever the collaborators do, and whether the request ends
    with a response or an exception, the store is left as it was. *)
Theorem process_query_without_cache_keeps_store
        (start_time end_time : Q) (request : QueryRequest) (w : World) :
  use_cache request = false ->
  redis (snd (process_query settings start_time end_time request w)) = redis w.
Proof.
  intros Hoff. revert w. change (keeps_store (process_query settings start_time end_time request)).
  unfold process_query. rewrite Hoff.
  apply keeps_store_bind; [apply keeps_store_ret|].
  intros [response|]; [apply keeps_store_ret|].
  apply keeps_store_bind; [apply retrieve_keeps_store|].
  intros [results used].
  destruct (_combine_results results (query request)) as [[ans srcs] conf].
  apply keeps_store_bind; intros; apply keeps_store_ret.
Qed.

(** When the cache does not answer, a response is never marked cached, and
    with [use_cache] on it is written to the cache at [end_time]. *)
Lemma process_query_after_miss
      (start_time end_time : Q) (request : QueryRequest) (w w1 : World)
      (r : QueryResponse) :
  (if use_cache request then _check_cache settings start_time request else mret None) w
  = (Ok None, w1) ->
  fst (process_query settings start_time end_time request w) = Ok r ->
  cached r = false
  /\ (use_cache request = true ->
      redis (snd (process_query settings start_time end_time request w))
      = CAGAgent.update_cache settings end_time (redis w1) (query request)
          (response_payload r) (request_context request)
          (_determine_query_type (strategy_used r))).
Proof.
  intros Hstep. unfold process_query. rewrite bind_run, Hstep, bind_run.
  pose proof (retrieve_keeps_store request
                (OrchestratorAgent.analyze_query (query request) (context request)) w1)
    as Hkeep.
  destruct (retrieve request _ w1) as [[[results used]|e] w2]; [|discriminate].
  simpl in Hkeep.
  destruct (_combine_results results (query request)) as [[ans srcs] conf].
  rewrite bind_run.
  destruct (use_cache request); simpl; intros [= <-]; (split; [reflexivity|]).
  - intros _. rewrite Hkeep. reflexivity.
  - discriminate.
Qed.

(** X18.  A response that [process_query] computes with [use_cache] on is
    what the cache then holds: a lookup of the same request made before the
    record expires returns the record built from that very response,
    answered by the exact key. *)
Theorem process_query_caches_its_response
        (start_time end_time later : Q) (request : QueryRequest) (w : World)
        (r : QueryResponse) :
  use_cache request = true ->
  fst (process_query settings start_time end_time request w) = Ok r ->
  cached r = false ->
  (0 < CAGAgent.ttl_for settings (_determine_query_type (strategy_used r)))%Z ->
  (later - end_time
   < inject_Z (CAGAgent.ttl_for settings (_determine_query_type (strategy_used r))))%Q ->
  fst (CAGAgent.check_cache settings later
         (redis (snd (process_query settings start_time end_time request w)))
         (query request) (request_context request))
  = Some (PDict (<["cache_key" := PStr (CAGAgent.exact_key (query request))]>
                   (CAGAgent.make_cache_data settings end_time (query request)
                      (response_payload r) (request_context request)
                      (_determine_query_type (strategy_used r))))).
Proof.
  intros Hon Hrun Hfresh Httl Hage.
  destruct ((if use_cache request then _check_cache settings start_time request
             else mret None) w) as [[[r'|]|e] w1] eqn:Hstep.
  - exfalso. assert (Hr : fst (process_query settings start_time end_time request w) = Ok r').
    { unfold process_query. rewrite bind_run, Hstep. reflexivity. }
    rewrite Hrun in Hr. injection Hr as ->.
    rewrite Hon in Hstep.
    assert (Hc : cached r' = true).
    { apply (check_cache_answer_is_cached settings start_time request w). rewrite Hstep.
      reflexivity. }
    congruence.
  - destruct (process_query_after_miss start_time end_time request w w1 r Hstep Hrun)
      as [_ Hstore].
    rewrite (Hstore Hon).
    rewrite (check_cache_after_update settings end_time later (redis w1) (query request)
               (response_payload r) (request_context request) _ Httl Hage).
    reflexivity.
  - exfalso. unfold process_query in Hrun. rewrite bind_run, Hstep in Hrun. discriminate.
Qed.

(** X19.  A request repeated while the record of its first answer is fresh
    is never answered from the cache: if [process_query] returns a response
    at all, the response is not marked cached and the stored confidence was
    at most 0.9, so the whole pipeline ran again. *)
Theorem repeated_request_never_served_from_cache
        (t0 t1 t2 : Q) (request : QueryRequest) (response r : QueryResponse) (w : World) :
  use_cache request = true ->
  (0 < CAGAgent.ttl_for settings (_determine_query_type (strategy_used response)))%Z ->
  (t1 - t0 < inject_Z (CAGAgent.ttl_for settings
                         (_determine_query_type (strategy_used response))))%Q ->
  fst (process_query settings t1 t2 request
         (snd (_update_cache settings t0 request response w))) = Ok r ->
  cached r = false /\ (confidence response <= 9 # 10)%Q.
Proof.
  intros Hon Httl Hage Hrun.
  set (w1 := snd (_update_cache settings t0 request response w)) in *.
  assert (Hstep : _check_cache settings t1 request w1
                  = (if Qltb (9 # 10) (confidence response)
                     then Raise (KeyError "answer") else Ok None,
                     w1)).
  { unfold w1, _check_cache, _update_cache. simpl redis.
    rewrite (check_cache_after_update settings t0 t1 (redis w) (query request)
               (response_payload response) (request_context request) _ Httl Hage).
    assert (Htruthy : forall (d : gmap string pyval) v,
               truthy (PDict (<["cache_key" := v]> d)) = true).
    { intros d v. simpl. apply negb_true_iff, bool_decide_eq_false, insert_non_empty. }
    rewrite Htruthy.
    change (dict_get _ "confidence" (PNum 0)) with (PNum (confidence response)).
    simpl as_number. cbv beta iota.
    destruct (Qltb (9 # 10) (confidence response)); [|reflexivity].
    rewrite cached_response_no_answer by reflexivity. reflexivity. }
  destruct (Qltb (9 # 10) (confidence response)) eqn:Hgate.
  - exfalso. unfold process_query in Hrun. rewrite Hon, bind_run, Hstep in Hrun. discriminate.
  - split; [|apply Qltb_ge, Hgate].
    refine (proj1 (process_query_after_miss t1 t2 request w1 w1 r _ Hrun)).
    rewrite Hon. exact Hstep.
Qed.

End PipelineMore.

Section PipelineMoreRuns.

Import UnifiedAgent.

Lemma process_query_without_cache_keeps_store_witness :
  use_cache Sample.uncached_request = false
  /\ redis (snd (process_query (cache := Sample.cache_services)
                   (planner := Sample.two_source_planner)
                   (agents := Sample.graph_down [9 # 10]%Q)
                   default_settings 0 1 Sample.uncached_request Sample.empty_world))
     = redis Sample.empty_world.
Proof.
  assert (H : use_cache Sample.uncached_request = false) by reflexivity.
  split; [exact H|].
  exact (process_query_without_cache_keeps_store
           (cache := Sample.cache_services) (planner := Sample.two_source_planner)
           (agents := Sample.graph_down [9 # 10]%Q)
           default_settings 0 1 Sample.uncached_request Sample.empty_world H).
Defined.

Lemma process_query_caches_its_response_witness :
  use_cache Sample.cached_request = true
  /\ fst SampleMore.first_run = Ok SampleMore.first_response
  /\ cached SampleMore.first_response = false
  /\ (0 < CAGAgent.ttl_for default_settings
            (_determine_query_type (strategy_used SampleMore.first_response)))%Z
  /\ (10 - 1 < inject_Z (CAGAgent.ttl_for default_settings
                           (_determine_query_type
                              (strategy_used SampleMore.first_response))))%Q
  /\ fst (CAGAgent.check_cache (cache := Sample.cache_services) default_settings 10
            (redis (snd SampleMore.first_run))
            (query Sample.cached_request) (request_context Sample.cached_request))
     = Some (PDict (<["cache_key" :=
                        PStr (CAGAgent.exact_key (cache := Sample.cache_services)
                                (query Sample.cached_request))]>
                      (CAGAgent.make_cache_data default_settings 1
                         (query Sample.cached_request)
                         (response_payload SampleMore.first_response)
                         (request_context Sample.cached_request)
                         (_determine_query_type
                            (strategy_used SampleMore.first_response))))).
Proof.
  assert (H1 : use_cache Sample.cached_request = true) by reflexivity.
  assert (H2 : fst SampleMore.first_run = Ok SampleMore.first_response)
    by (vm_compute; reflexivity).
  assert (H3 : cached SampleMore.first_response = false) by (vm_compute; reflexivity).
  assert (H4 : (0 < CAGAgent.ttl_for default_settings
                       (_determine_query_type
                          (strategy_used SampleMore.first_response)))%Z)
    by (vm_compute; reflexivity).
  assert (H5 : (10 - 1 < inject_Z (CAGAgent.ttl_for default_settings
                                     (_determine_query_type
                                        (strategy_used SampleMore.first_response))))%Q)
    by (vm_compute; reflexivity).
  repeat (split; [assumption|]).
  exact (process_query_caches_its_response
           (cache := Sample.cache_services) (planner := Sample.planner (Ok "rag"))
           (agents := Sample.all_up [8 # 10]%Q)
           default_settings 0 1 10 Sample.cached_request Sample.empty_world
           SampleMore.first_response H1 H2 H3 H4 H5).
Defined.

Lemma repeated_request_never_served_from_cache_witness :
  use_cache Sample.cached_request = true
  /\ (0 < CAGAgent.ttl_for default_settings
             (_determine_query_type (strategy_used SampleMore.first_response)))%Z
  /\ (2 - 1 < inject_Z (CAGAgent.ttl_for default_settings
                          (_determine_query_type
                             (strategy_used SampleMore.first_response))))%Q
  /\ fst SampleMore.second_run = Ok SampleMore.second_response
  /\ cached SampleMore.second_response = false
  /\ (confidence SampleMore.first_response <= 9 # 10)%Q.
Proof.
  assert (H1 : use_cache Sample.cached_request = true) by reflexivity.
  assert (H2 : (0 < CAGAgent.ttl_for default_settings
                       (_determine_query_type
                          (strategy_used SampleMore.first_response)))%Z)
    by (vm_compute; reflexivity).
  assert (H3 : (2 - 1 < inject_Z (CAGAgent.ttl_for default_settings
                                    (_determine_query_type
                                       (strategy_used SampleMore.first_response))))%Q)
    by (vm_compute; reflexivity).
  assert (H4 : fst SampleMore.second_run = Ok SampleMore.second_response)
    by (vm_compute; reflexivity).
  repeat (split; [assumption|]).
  exact (repeated_request_never_served_from_cache
           (cache := Sample.cache_services) (planner := Sample.planner (Ok "rag"))
           (agents := Sample.all_up [8 # 10]%Q)
           default_settings 1 2 3 Sample.cached_request SampleMore.first_response
           SampleMore.second_response Sample.empty_world H1 H2 H3 H4).
Defined.

End PipelineMoreRuns.
(** ** Degraded collaborators and the keyword fallback *)

Section AnswerContext.

Context {cache : CacheServices} {server : RedisServer} {planner : PlannerServices} {agents : RetrievalAgents}.

Import UnifiedAgent.

(** X20.  The answer is generated from the first five content strings and
    the first five sources only.  Document hits come first in both lists,
    so once semantic search has returned five hits or more, nothing that
    graph or temporal search returned reaches the answer. *)
Theorem answer_ignores_graph_after_five_documents
        (r : RagResult) (k1 k2 : option KagResult) (t1 t2 : option TemporalResult)
        (query : string) :
  (5 <= length (rag_results r))%nat ->
  fst (fst (_combine_results {| rag := Some r; kag := k1; temporal := t1 |} query))
  = fst (fst (_combine_results {| rag := Some r; kag := k2; temporal := t2 |} query)).
Proof.
  intros Hfive. unfold _combine_results, OrchestratorAgent.generate_answer,
                  all_content, all_sources. simpl.
  rewrite !take_take. change (5 `min` 10)%nat with 5%nat.
  rewrite !take_app_le by (rewrite length_map; exact Hfive).
  reflexivity.
Qed.

End AnswerContext.

Section Degraded.

Context {cache : CacheServices} {server : RedisServer} {planner : PlannerServices} {backends : SearchBackends}.
Variable settings : Settings.

Import UnifiedAgent.

Lemma retrieve_retrieved (request : QueryRequest) (strategy : QueryStrategy) (w : World) :
  fst (retrieve (agents := repository_agents) request strategy w)
  = Ok (retrieved request strategy, labels strategy).
Proof.
  unfold retrieve, retrieved, labels, mbind, M_bind, mret, M_ret, await.
  destruct (use_rag strategy), (use_kag strategy), (use_temporal strategy);
    reflexivity.
Qed.

(** Without the cache, and with the agents of the repository,
    [process_query] always returns a response, built from [retrieved]. *)
Lemma process_query_uncached_run
      (start_time end_time : Q) (request : QueryRequest) (w : World) :
  use_cache request = false ->
  let strategy := OrchestratorAgent.analyze_query (query request) (context request) in
  let results := retrieved request strategy in
  fst (process_query (agents := repository_agents) settings start_time end_time request w)
  = Ok {| answer := fst (fst (_combine_results results (query request)));
          sources := all_sources results;
          confidence := _calculate_confidence results;
          strategy_used := labels strategy;
          processing_time := (end_time - start_time)%Q;
          cached := false;
          metadata :=
            Some (PDict (<["strategy" := OrchestratorAgent.strategy_dict strategy]>
                        (<["result_counts" := result_counts results]> ∅))) |}.
Proof.
  intros Hoff strategy results.
  pose proof (retrieve_retrieved request strategy w) as Hret.
  unfold process_query. rewrite Hoff. rewrite bind_run. simpl.
  rewrite bind_run. fold strategy.
  destruct (retrieve request strategy w) as [[[res used]|e] w'] eqn:Hrun;
    simpl in Hret; [|discriminate].
  injection Hret as -> ->. reflexivity.
Qed.

(** X21.  When the language model fails on every prompt, a request that
    does not use the cache is still answered: the default strategy runs
    semantic search alone with limit 10, the answer is the fixed apology,
    and the sources are the document hits.  If the vector store fails as
    well, the response has no sources and confidence 0.5. *)
Theorem process_query_when_model_is_down
        (start_time end_time : Q) (request : QueryRequest) (w : World) :
  (forall p, exists e, agent_run p = Raise e) ->
  use_cache request = false ->
  exists r,
    fst (process_query (agents := repository_agents) settings start_time end_time request w)
    = Ok r
    /\ answer r = OrchestratorAgent.apology
    /\ strategy_used r = ["RAG"]
    /\ cached r = false
    /\ sources r
       = List.map source_of_item
           (rag_results (RAGAgent.search (query request) (filters request) 10))
    /\ ((exists e, vector_rows (query request) (filters request) 10 = Raise e) ->
        sources r = [] /\ confidence r = 1 # 2).
Proof.
  intros Hdown Hoff.
  assert (Hplan : OrchestratorAgent.analyze_query (query request) (context request)
                  = OrchestratorAgent.default_strategy).
  { unfold OrchestratorAgent.analyze_query.
    destruct (Hdown (AnalysisPrompt (query request) (context request))) as [e ->].
    reflexivity. }
  eexists. split; [apply process_query_uncached_run; exact Hoff|].
  rewrite Hplan. simpl.
  split; [|split; [reflexivity|split; [reflexivity|split]]].
  - unfold OrchestratorAgent.generate_answer.
    match goal with |- context [agent_run ?p] => destruct (Hdown p) as [e ->] end.
    reflexivity.
  - unfold all_sources, retrieved. simpl. rewrite app_nil_r. reflexivity.
  - intros [e He]. unfold all_sources, _calculate_confidence, retrieved, RAGAgent.search.
    simpl. rewrite He. simpl. split; reflexivity.
Qed.

(** X22.  When all three data bases fail, a request that does not use the
    cache is still answered, with no sources, and [strategy_used] lists
    every source the strategy enabled.  The confidence is 0 as soon as
    graph or temporal search was enabled, and 0.5 otherwise: failed
    semantic search alone leaves the default, a failed graph or temporal
    search counts as a signal of 0. *)
Theorem process_query_when_backends_are_down
        (start_time end_time : Q) (request : QueryRequest) (w : World) :
  use_cache request = false ->
  (forall limit, exists e, vector_rows (query request) (filters request) limit = Raise e) ->
  (forall depth, exists e, graph_rows (query request) depth = Raise e) ->
  (forall range, exists e, timeline_rows (query request) range = Raise e) ->
  exists r,
    fst (process_query (agents := repository_agents) settings start_time end_time request w)
    = Ok r
    /\ sources r = []
    /\ strategy_used r
       = labels (OrchestratorAgent.analyze_query (query request) (context request))
    /\ (confidence r
        == if use_kag (OrchestratorAgent.analyze_query (query request) (context request))
              || use_temporal (OrchestratorAgent.analyze_query (query request)
                                 (context request))
           then 0 else 1 # 2)%Q.
Proof.
  intros Hoff Hvec Hgraph Htime.
  eexists. split; [apply process_query_uncached_run; exact Hoff|].
  set (strategy := OrchestratorAgent.analyze_query (query request) (context request)).
  simpl.
  destruct (Hvec (rag_limit strategy)) as [e1 H1].
  destruct (Hgraph (kg_depth strategy)) as [e2 H2].
  destruct (Htime (time_range strategy)) as [e3 H3].
  unfold all_sources, _calculate_confidence, retrieved, RAGAgent.search,
    KAGAgent.analyze_relationships, KAGAgent.temporal_search.
  rewrite H1, H2, H3.
  split; [|split; [reflexivity|]];
    destruct (use_rag strategy), (use_kag strategy), (use_temporal strategy);
    reflexivity.
Qed.

End Degraded.

Section KeywordFallback.

Context {planner : PlannerServices}.

Import OrchestratorAgent.

Lemma lower_app (a b : string) : Str.lower (a +:+ b) = Str.lower a +:+ Str.lower b.
Proof. induction a as [|c a IH]; simpl; [reflexivity|]. rewrite IH. reflexivity. Qed.

(** A lowered text splits where the original does. *)
Lemma lower_split (s a b : string) :
  Str.lower s = a +:+ b ->
  exists a' b', s = a' +:+ b' /\ Str.lower a' = a /\ Str.lower b' = b.
Proof.
  revert s. induction a as [|c a IH]; intros s Hs.
  - exists EmptyString, s. simpl in *. auto.
  - destruct s as [|d s]; simpl in Hs; [discriminate|].
    injection Hs as Hc Hs. destruct (IH s Hs) as (a' & b' & -> & Ha & Hb).
    exists (String d a'), b'. simpl. rewrite Hc, Ha. auto.
Qed.

Lemma prefix_iff (n h : string) :
  String.prefix n h = true <-> exists b, h = n +:+ b.
Proof.
  revert h. induction n as [|c n IH]; intros h.
  - destruct h; simpl; split; eauto.
  - destruct h as [|d h]; simpl.
    + split; [discriminate|]. intros [b Hb]. discriminate.
    + destruct (Ascii.ascii_dec c d) as [->|Hne].
      * rewrite IH. split; intros [b Hb]; exists b.
        -- simpl. rewrite Hb. reflexivity.
        -- simpl in Hb. injection Hb as Hb. exact Hb.
      * split; [discriminate|]. intros [b Hb]. simpl in Hb. injection Hb as Hc _.
        symmetry in Hc. contradiction.
Qed.

(** [needle in hay] holds exactly when [hay] can be cut around [needle]. *)
Lemma contains_iff (n h : string) :
  Str.contains n h = true <-> exists a b, h = a +:+ n +:+ b.
Proof.
  induction h as [|d h IH].
  - change (Str.contains n EmptyString) with (String.prefix n EmptyString || false).
    rewrite orb_false_r, prefix_iff. split.
    + intros [b Hb]. exists EmptyString, b. exact Hb.
    + intros (a & b & Hab). destruct a; [exists b; exact Hab|discriminate].
  - change (Str.contains n (String d h))
      with (String.prefix n (String d h) || Str.contains n h).
    rewrite orb_true_iff, prefix_iff, IH. split.
    + intros [[b Hb]|(a & b & Hab)].
      * exists EmptyString, b. exact Hb.
      * exists (String d a), b. simpl. rewrite Hab. reflexivity.
    + intros (a & b & Hab). destruct a as [|c a].
      * left. exists b. exact Hab.
      * right. simpl in Hab. injection Hab as _ Hab. eauto.
Qed.

Lemma contains_lower_mentions (kw out : string) :
  Str.contains kw (Str.lower out) = true <-> mentions kw out.
Proof.
  rewrite contains_iff. unfold mentions. split.
  - intros (a & b & Hab).
    destruct (lower_split out a (kw +:+ b) Hab) as (pre & rest & -> & _ & Hrest).
    destruct (lower_split rest kw b Hrest) as (word & post & -> & Hword & _).
    eauto.
  - intros (pre & word & post & -> & Hword).
    exists (Str.lower pre), (Str.lower post). rewrite !lower_app, Hword. reflexivity.
Qed.

Lemma analyze_query_keyword (query : string) (context : option pyval) (out : string) :
  agent_run (AnalysisPrompt query context) = Ok out ->
  Str.search_braces out = None ->
  analyze_query query context = keyword_strategy out.
Proof.
  intros Hrun Hm. unfold analyze_query. rewrite Hrun. simpl.
  unfold _parse_strategy. rewrite Hm. simpl.
  rewrite QueryStrategy_init_fallback. reflexivity.
Qed.

(** X23.  When the model's plan contains no pair of braces, a source is
    enabled exactly when the plan mentions one of its keywords, in any
    letter case and also inside a longer word (time in Sometimes, rag in
    storage).  The limit, the depth and the time range are the defaults,
    and the reasoning is the first 200 characters of the plan. *)
Theorem keyword_fallback_matches_substrings
        (query : string) (context : option pyval) (out : string) :
  agent_run (AnalysisPrompt query context) = Ok out ->
  Str.search_braces out = None ->
  (use_rag (analyze_query query context) = true
   <-> mentions "rag" out \/ mentions "vector" out)
  /\ (use_kag (analyze_query query context) = true
      <-> mentions "knowledge graph" out \/ mentions "relationship" out)
  /\ (use_temporal (analyze_query query context) = true
      <-> mentions "temporal" out \/ mentions "time" out)
  /\ rag_limit (analyze_query query context) = 10%Z
  /\ kg_depth (analyze_query query context) = 2%Z
  /\ time_range (analyze_query query context) = None
  /\ reasoning (analyze_query query context) = Str.take 200 out.
Proof.
  intros Hrun Hm. rewrite (analyze_query_keyword query context out Hrun Hm).
  unfold keyword_strategy. simpl.
  rewrite !orb_true_iff, !contains_lower_mentions.
  repeat split; tauto.
Qed.

End KeywordFallback.

Section DegradedRuns.

Import UnifiedAgent.

Lemma answer_ignores_graph_after_five_documents_witness :
  (5 <= length (rag_results SampleMore.five_hits))%nat
  /\ fst (fst (_combine_results (planner := Sample.planner (Ok "rag"))
                 {| rag := Some SampleMore.five_hits; kag := None; temporal := None |}
                 "What is DataLive?"))
     = fst (fst (_combine_results (planner := Sample.planner (Ok "rag"))
                   {| rag := Some SampleMore.five_hits;
                      kag := Some SampleMore.graph_answer; temporal := None |}
                   "What is DataLive?")).
Proof.
  assert (H : (5 <= length (rag_results SampleMore.five_hits))%nat) by (simpl; lia).
  split; [exact H|].
  exact (answer_ignores_graph_after_five_documents
           (planner := Sample.planner (Ok "rag"))
           SampleMore.five_hits None (Some SampleMore.graph_answer) None None
           "What is DataLive?" H).
Defined.

Lemma process_query_when_model_is_down_witness :
  (forall p, exists e, agent_run (PlannerServices := SampleMore.model_down) p = Raise e)
  /\ use_cache Sample.uncached_request = false
  /\ exists r,
       fst (process_query (cache := Sample.cache_services)
              (planner := SampleMore.model_down)
              (agents := repository_agents (backends := SampleMore.all_backends_down))
              default_settings 0 1 Sample.uncached_request Sample.empty_world)
       = Ok r
       /\ answer r = OrchestratorAgent.apology
       /\ strategy_used r = ["RAG"]
       /\ cached r = false
       /\ sources r
          = List.map source_of_item
              (rag_results (RAGAgent.search (backends := SampleMore.all_backends_down)
                              (query Sample.uncached_request)
                              (filters Sample.uncached_request) 10))
       /\ ((exists e, vector_rows (SearchBackends := SampleMore.all_backends_down)
                        (query Sample.uncached_request)
                        (filters Sample.uncached_request) 10 = Raise e) ->
           sources r = [] /\ confidence r = 1 # 2).
Proof.
  assert (H1 : forall p,
             exists e, agent_run (PlannerServices := SampleMore.model_down) p = Raise e)
    by (intros p; eexists; reflexivity).
  assert (H2 : use_cache Sample.uncached_request = false) by reflexivity.
  split; [exact H1|]. split; [exact H2|].
  exact (process_query_when_model_is_down
           (cache := Sample.cache_services) (planner := SampleMore.model_down)
           (backends := SampleMore.all_backends_down)
           default_settings 0 1 Sample.uncached_request Sample.empty_world H1 H2).
Defined.

Lemma process_query_when_backends_are_down_witness :
  use_cache Sample.uncached_request = false
  /\ exists r,
       fst (process_query (cache := Sample.cache_services)
              (planner := Sample.two_source_planner)
              (agents := repository_agents (backends := SampleMore.all_backends_down))
              default_settings 0 1 Sample.uncached_request Sample.empty_world)
       = Ok r
       /\ sources r = []
       /\ strategy_used r
          = labels (OrchestratorAgent.analyze_query (planner := Sample.two_source_planner)
                      (query Sample.uncached_request) (context Sample.uncached_request))
       /\ (confidence r
           == if use_kag (OrchestratorAgent.analyze_query
                            (planner := Sample.two_source_planner)
                            (query Sample.uncached_request)
                            (context Sample.uncached_request))
                 || use_temporal (OrchestratorAgent.analyze_query
                                    (planner := Sample.two_source_planner)
                                    (query Sample.uncached_request)
                                    (context Sample.uncached_request))
              then 0 else 1 # 2)%Q.
Proof.
  assert (H1 : use_cache Sample.uncached_request = false) by reflexivity.
  assert (H2 : forall limit,
             exists e, vector_rows (SearchBackends := SampleMore.all_backends_down)
                         (query Sample.uncached_request)
                         (filters Sample.uncached_request) limit = Raise e)
    by (intros limit; eexists; reflexivity).
  assert (H3 : forall depth,
             exists e, graph_rows (SearchBackends := SampleMore.all_backends_down)
                         (query Sample.uncached_request) depth = Raise e)
    by (intros depth; eexists; reflexivity).
  assert (H4 : forall range,
             exists e, timeline_rows (SearchBackends := SampleMore.all_backends_down)
                         (query Sample.uncached_request) range = Raise e)
    by (intros range; eexists; reflexivity).
  split; [exact H1|].
  exact (process_query_when_backends_are_down
           (cache := Sample.cache_services) (planner := Sample.two_source_planner)
           (backends := SampleMore.all_backends_down)
           default_settings 0 1 Sample.uncached_request Sample.empty_world H1 H2 H3 H4).
Defined.

Lemma keyword_fallback_matches_substrings_witness :
  agent_run (PlannerServices := SampleMore.wordy_planner)
    (AnalysisPrompt "What is DataLive?" None)
  = Ok SampleMore.wordy_plan
  /\ Str.search_braces SampleMore.wordy_plan = None
  /\ (use_rag (OrchestratorAgent.analyze_query (planner := SampleMore.wordy_planner)
                 "What is DataLive?" None) = true
      <-> mentions "rag" SampleMore.wordy_plan \/ mentions "vector" SampleMore.wordy_plan)
  /\ (use_kag (OrchestratorAgent.analyze_query (planner := SampleMore.wordy_planner)
                 "What is DataLive?" None) = true
      <-> mentions "knowledge graph" SampleMore.wordy_plan
          \/ mentions "relationship" SampleMore.wordy_plan)
  /\ (use_temporal (OrchestratorAgent.analyze_query (planner := SampleMore.wordy_planner)
                      "What is DataLive?" None) = true
      <-> mentions "temporal" SampleMore.wordy_plan
          \/ mentions "time" SampleMore.wordy_plan)
  /\ rag_limit (OrchestratorAgent.analyze_query (planner := SampleMore.wordy_planner)
                  "What is DataLive?" None) = 10%Z
  /\ kg_depth (OrchestratorAgent.analyze_query (planner := SampleMore.wordy_planner)
                 "What is DataLive?" None) = 2%Z
  /\ time_range (OrchestratorAgent.analyze_query (planner := SampleMore.wordy_planner)
                   "What is DataLive?" None) = None
  /\ reasoning (OrchestratorAgent.analyze_query (planner := SampleMore.wordy_planner)
                  "What is DataLive?" None)
     = Str.take 200 SampleMore.wordy_plan.
Proof.
  assert (H1 : agent_run (PlannerServices := SampleMore.wordy_planner)
                 (AnalysisPrompt "What is DataLive?" None)
               = Ok SampleMore.wordy_plan) by reflexivity.
  assert (H2 : Str.search_braces SampleMore.wordy_plan = None) by reflexivity.
  split; [exact H1|]. split; [exact H2|].
  exact (keyword_fallback_matches_substrings
           (planner := SampleMore.wordy_planner) "What is DataLive?" None
           SampleMore.wordy_plan H1 H2).
Defined.

End DegradedRuns.
(** ** Insights from the knowledge graph *)

Section Insights.

Import KAGInsights.

Lemma get_bump (k k' : string) (d : list (string * nat)) :
  get k (bump k' d) = (if String.eqb k k' then S (get k d) else get k d).
Proof.
  induction d as [|[k0 n] d IH]; simpl.
  - destruct (String.eqb k k'); reflexivity.
  - destruct (String.eqb k' k0) eqn:E0; simpl.
    + apply String.eqb_eq in E0 as ->. destruct (String.eqb k k0); reflexivity.
    + rewrite IH. destruct (String.eqb k k0) eqn:E1; [|reflexivity].
      apply String.eqb_eq in E1 as ->.
      rewrite String.eqb_sym, E0. reflexivity.
Qed.

(** Counting a key keeps the keys, or appends a new one. *)
Lemma bump_keys (k : string) (d : list (string * nat)) :
  (bump k d).*1 = d.*1 \/ ((k ∉ d.*1) /\ (bump k d).*1 = d.*1 ++ [k]).
Proof.
  induction d as [|[k0 n] d IH]; csimpl.
  - right. split; [apply not_elem_of_nil|reflexivity].
  - destruct (String.eqb k k0) eqn:E; csimpl; [left; reflexivity|].
    apply String.eqb_neq in E.
    destruct IH as [->|[Hk ->]]; [left; reflexivity|right].
    split; [|reflexivity]. rewrite not_elem_of_cons. auto.
Qed.

(** A counter never holds a key twice. *)
Lemma bump_NoDup (k : string) (d : list (string * nat)) :
  NoDup (d.*1) -> NoDup ((bump k d).*1).
Proof.
  intros Hd. destruct (bump_keys k d) as [->|[Hk ->]]; [exact Hd|].
  apply NoDup_app. split; [exact Hd|]. split; [|apply NoDup_singleton].
  intros x Hx Hxk. apply list_elem_of_singleton in Hxk as ->. contradiction.
Qed.

Lemma get_elem_of (k : string) (n : nat) (d : list (string * nat)) :
  NoDup (d.*1) -> (k, n) ∈ d -> get k d = n.
Proof.
  induction d as [|[k0 n0] d IH]; simpl; intros Hd Hin.
  - apply elem_of_nil in Hin. contradiction.
  - apply NoDup_cons in Hd as [Hk0 Hd].
    apply elem_of_cons in Hin as [[= -> ->]|Hin].
    + rewrite String.eqb_refl. reflexivity.
    + destruct (String.eqb k k0) eqn:E; [|auto].
      apply String.eqb_eq in E as ->. exfalso. apply Hk0.
      apply list_elem_of_fmap. exists (k0, n). auto.
Qed.

Lemma get_zero_or_elem_of (k : string) (d : list (string * nat)) :
  get k d = 0%nat \/ (k, get k d) ∈ d.
Proof.
  induction d as [|[k0 n0] d IH]; simpl; [left; reflexivity|].
  destruct (String.eqb k k0) eqn:E.
  - apply String.eqb_eq in E as ->. right. left.
  - destruct IH as [IH|IH]; [left; exact IH|right; right; exact IH].
Qed.

(** The loop of [max]: the result is an entry of the dictionary and no entry
    has a greater count. *)
Lemma max_loop (rest : list (string * nat)) (first : string * nat) :
  let best := fold_left (fun best kv => if (snd best <? snd kv)%nat then kv else best)
                        rest first in
  best ∈ first :: rest
  /\ forall kv, kv ∈ first :: rest -> (snd kv <= snd best)%nat.
Proof.
  revert first. induction rest as [|kv rest IH]; intros first; simpl.
  - split; [left|]. intros kv Hkv. apply list_elem_of_singleton in Hkv as ->. lia.
  - destruct (IH (if (snd first <? snd kv)%nat then kv else first)) as [Hin Hmax].
    simpl in Hin, Hmax. split.
    + apply elem_of_cons in Hin as [Heq|Hin].
      * rewrite Heq. destruct (snd first <? snd kv)%nat; [right; left|left].
      * right. right. exact Hin.
    + intros x Hx.
      assert (Hhead : (snd first <= snd (if (snd first <? snd kv)%nat then kv else first)
                       /\ snd kv <= snd (if (snd first <? snd kv)%nat then kv else first))%nat).
      { destruct (Nat.ltb_spec (snd first) (snd kv)); simpl; lia. }
      pose proof (Hmax _ (list_elem_of_here _ _)) as Hb.
      apply elem_of_cons in Hx as [->|Hx]; [lia|].
      apply elem_of_cons in Hx as [->|Hx]; [lia|].
      apply Hmax. right. exact Hx.
Qed.

(** Over a counter [max_key] finds a key whose count no other key exceeds. *)
Lemma max_key_greatest (d : list (string * nat)) (k0 : string) :
  NoDup (d.*1) -> (0 < get k0 d)%nat ->
  exists k, max_key d = Some (k, get k d) /\ forall k', (get k' d <= get k d)%nat.
Proof.
  intros Hd Hpos. destruct d as [|first rest]; [simpl in Hpos; lia|].
  unfold max_key. destruct (max_loop rest first) as [Hin Hmax].
  set (best := fold_left _ rest first) in *.
  destruct best as [k n] eqn:Hbest. exists k.
  rewrite (get_elem_of k n _ Hd Hin). split; [reflexivity|].
  intros k'. destruct (get_zero_or_elem_of k' (first :: rest)) as [->|Hk']; [lia|].
  exact (Hmax _ Hk').
Qed.

Lemma entity_connections_from (relationships : list RelationshipResult)
      (d : list (string * nat)) :
  NoDup (d.*1) ->
  let d' := fold_left (fun d rel => bump (target rel) (bump (source rel) d))
                      relationships d in
  NoDup (d'.*1) /\ forall e, get e d' = (get e d + connections e relationships)%nat.
Proof.
  revert d. induction relationships as [|rel rels IH]; intros d Hd; simpl.
  - split; [exact Hd|]. intros e. unfold connections. simpl. lia.
  - destruct (IH (bump (target rel) (bump (source rel) d))) as [Hnd Hget].
    { apply bump_NoDup, bump_NoDup, Hd. }
    split; [exact Hnd|]. intros e. rewrite Hget, !get_bump.
    unfold connections. simpl.
    destruct (String.eqb e (source rel)), (String.eqb e (target rel)); simpl; lia.
Qed.

Lemma rel_types_from (relationships : list RelationshipResult) (d : list (string * nat)) :
  NoDup (d.*1) ->
  let d' := fold_left (fun d rel => bump (relationship_type rel) d) relationships d in
  NoDup (d'.*1) /\ forall t, get t d' = (get t d + occurrences t relationships)%nat.
Proof.
  revert d. induction relationships as [|rel rels IH]; intros d Hd; simpl.
  - split; [exact Hd|]. intros t. unfold occurrences. simpl. lia.
  - destruct (IH (bump (relationship_type rel) d)) as [Hnd Hget].
    { apply bump_NoDup, Hd. }
    split; [exact Hnd|]. intros t. rewrite Hget, get_bump.
    unfold occurrences. simpl.
    destruct (String.eqb t (relationship_type rel)); simpl; lia.
Qed.

(** X24.  When entities and relationships were found, [_generate_insights]
    names an entity that is an end of as many relationships as any other
    (at least one), with that number, then a relationship type that occurs
    as often as any other, with its number of occurrences, and then, only
    if some relationship has a confidence above 0.8, the number of such
    relationships. *)
Theorem generate_insights_reports_maxima
        (entities : list EntityResult) (relationships : list RelationshipResult) :
  entities <> [] -> relationships <> [] ->
  exists most_connected common_rel,
    _generate_insights entities relationships
    = [most_connected_line most_connected (connections most_connected relationships);
       common_rel_line common_rel (occurrences common_rel relationships)]
      ++ match high_conf_rels relationships with
         | [] => []
         | l => [high_conf_line (length l)]
         end
    /\ (forall e, connections e relationships <= connections most_connected relationships)%nat
    /\ (0 < connections most_connected relationships)%nat
    /\ (forall t, occurrences t relationships <= occurrences common_rel relationships)%nat
    /\ (0 < occurrences common_rel relationships)%nat.
Proof.
  intros He Hr.
  destruct entities as [|entity entities]; [contradiction|].
  destruct relationships as [|rel rels]; [contradiction|].
  set (relationships := rel :: rels).
  destruct (entity_connections_from relationships [] (NoDup_nil_2 (A := string))) as [Hnd1 Hget1].
  destruct (rel_types_from relationships [] (NoDup_nil_2 (A := string))) as [Hnd2 Hget2].
  fold (entity_connections relationships) in Hnd1, Hget1.
  fold (rel_types relationships) in Hnd2, Hget2.
  simpl in Hget1, Hget2.
  assert (Hsrc : (0 < connections (source rel) relationships)%nat).
  { unfold connections, relationships. simpl. rewrite String.eqb_refl. simpl. lia. }
  assert (Htyp : (0 < occurrences (relationship_type rel) relationships)%nat).
  { unfold occurrences, relationships. simpl. rewrite String.eqb_refl. simpl. lia. }
  destruct (max_key_greatest (entity_connections relationships) (source rel) Hnd1)
    as (e & Hmax1 & Hall1); [rewrite Hget1; exact Hsrc|].
  destruct (max_key_greatest (rel_types relationships) (relationship_type rel) Hnd2)
    as (t & Hmax2 & Hall2); [rewrite Hget2; exact Htyp|].
  exists e, t. split; [|split; [|split; [|split]]].
  - unfold _generate_insights. fold relationships.
    rewrite Hmax1, Hmax2, Hget1, Hget2.
    destruct (high_conf_rels relationships); reflexivity.
  - intros e'. rewrite <- !Hget1. apply Hall1.
  - specialize (Hall1 (source rel)). rewrite !Hget1 in Hall1. lia.
  - intros t'. rewrite <- !Hget2. apply Hall2.
  - specialize (Hall2 (relationship_type rel)). rewrite !Hget2 in Hall2. lia.
Qed.

End Insights.

Lemma generate_insights_reports_maxima_witness :
  [SampleMore.datalive_entity] <> []
  /\ SampleMore.datalive_relationships <> []
  /\ exists most_connected common_rel,
       KAGInsights._generate_insights [SampleMore.datalive_entity]
         SampleMore.datalive_relationships
       = [KAGInsights.most_connected_line most_connected
            (KAGInsights.connections most_connected SampleMore.datalive_relationships);
          KAGInsights.common_rel_line common_rel
            (KAGInsights.occurrences common_rel SampleMore.datalive_relationships)]
         ++ match KAGInsights.high_conf_rels SampleMore.datalive_relationships with
            | [] => []
            | l => [KAGInsights.high_conf_line (length l)]
            end
       /\ (forall e, KAGInsights.connections e SampleMore.datalive_relationships
                     <= KAGInsights.connections most_connected
                          SampleMore.datalive_relationships)%nat
       /\ (0 < KAGInsights.connections most_connected
                 SampleMore.datalive_relationships)%nat
       /\ (forall t, KAGInsights.occurrences t SampleMore.datalive_relationships
                     <= KAGInsights.occurrences common_rel
                          SampleMore.datalive_relationships)%nat
       /\ (0 < KAGInsights.occurrences common_rel
                 SampleMore.datalive_relationships)%nat.
Proof.
  assert (H1 : [SampleMore.datalive_entity] <> []) by discriminate.
  assert (H2 : SampleMore.datalive_relationships <> []) by discriminate.
  split; [exact H1|]. split; [exact H2|].
  exact (generate_insights_reports_maxima [SampleMore.datalive_entity]
           SampleMore.datalive_relationships H1 H2).
Defined.
(** ** The cache during an outage of the embedding provider *)

Section EmbeddingOutage.

Context {server : RedisServer}.
Variables (md5 : string -> string) (sqrt : Q -> Q).
Variables (provider : string -> outcome (list Q)) (vector_dimension : nat).
Variable settings : Settings.

Import CAGAgent.

Lemma dot_zeros (n : nat) : dot (repeat 0%Q n) (repeat 0%Q n) = 0%Q.
Proof. induction n as [|n IH]; simpl; [reflexivity|]. rewrite IH. reflexivity. Qed.

Lemma cosine_zero_left {cache : CacheServices} (qe : list Q) (embedding : pyval) :
  (norm qe == 0)%Q -> _cosine_similarity qe embedding = 0%Q.
Proof.
  intros Hn. unfold _cosine_similarity.
  destruct embedding; try reflexivity.
  destruct (as_vector _); [|reflexivity].
  destruct (negb _); [reflexivity|].
  apply Qeq_bool_iff in Hn. rewrite Hn. reflexivity.
Qed.

Lemma cosine_zero_right {cache : CacheServices} (qe v : list Q) :
  (norm v == 0)%Q -> _cosine_similarity qe (PList (List.map PNum v)) = 0%Q.
Proof.
  intros Hn. unfold _cosine_similarity. rewrite as_vector_numbers.
  destruct (negb _); [reflexivity|].
  apply Qeq_bool_iff in Hn. rewrite Hn, orb_true_r. reflexivity.
Qed.

Lemma scan_one_no_similarity {cache : CacheServices} (qe : list Q) (doc : pyval)
      (st : option pyval * Q) :
  (forall embedding, _cosine_similarity qe embedding = 0%Q) ->
  scan_one qe doc st = st.
Proof.
  intros Hzero. destruct st as [bm bs]. unfold scan_one.
  destruct doc; try reflexivity.
  destruct (_ !! "embedding"); [|reflexivity].
  rewrite Hzero. reflexivity.
Qed.

Lemma scan_no_similarity {cache : CacheServices} (now : Q) s (qe : list Q)
      (keys : list string) :
  (forall embedding, _cosine_similarity qe embedding = 0%Q) ->
  scan now s qe keys = (None, 0%Q).
Proof.
  intros Hzero. unfold scan. generalize (@None pyval, 0%Q).
  induction keys as [|k keys IH]; intros st; simpl; [reflexivity|].
  destruct (Redis.get now s k); [rewrite scan_one_no_similarity by exact Hzero|];
    apply IH.
Qed.

(** X25.  While the embedding provider fails for a query, the embedding
    client hands the cache a vector of zeros, and (numpy's square root of 0
    being 0) the similarity search finds nothing for that query whatever
    the store holds: a lookup is answered by the candidate keys or not at
    all.  The zero vector that a write stores in the index during the outage
    has similarity 0 with every later query. *)
Theorem embedding_outage_disables_similarity (query : string) (e : exn) :
  (sqrt 0 == 0)%Q ->
  provider query = Raise e ->
  (forall now s,
      _find_similar_cached_query
        (cache := client_services md5 sqrt provider vector_dimension) now s query
      = None)
  /\ (forall now s uc,
         fst (check_cache (cache := client_services md5 sqrt provider vector_dimension)
                settings now s query uc)
         = match fst (probe settings now
                        (_generate_cache_keys
                           (cache := client_services md5 sqrt provider vector_dimension)
                           query uc) s) with
           | Ok (Some result) => Some result
           | _ => None
           end)
  /\ (forall qe,
         _cosine_similarity (cache := client_services md5 sqrt provider vector_dimension)
           qe (PList (List.map PNum
                        (EmbeddingClient.embed_text provider vector_dimension query)))
         = 0%Q).
Proof.
  intros Hsqrt Hdown.
  set (services := client_services md5 sqrt provider vector_dimension).
  assert (Hemb : EmbeddingClient.embed_text provider vector_dimension query
                 = repeat 0%Q vector_dimension).
  { unfold EmbeddingClient.embed_text. rewrite Hdown. reflexivity. }
  assert (Hnorm : (norm (cache := services) (repeat 0%Q vector_dimension) == 0)%Q).
  { unfold norm. rewrite dot_zeros. exact Hsqrt. }
  assert (Hfind : forall now s,
             _find_similar_cached_query (cache := services) now s query = None).
  { intros now s. unfold _find_similar_cached_query.
    change (embed_text query)
      with (Ok (EmbeddingClient.embed_text provider vector_dimension query)).
    rewrite Hemb. simpl.
    rewrite scan_no_similarity; [reflexivity|].
    intros embedding. apply cosine_zero_left. exact Hnorm. }
  split; [exact Hfind|]. split.
  - intros now s uc. unfold check_cache.
    destruct (probe _ _ _ _) as [[[r|]|e'] s']; simpl; try reflexivity.
    rewrite Hfind. reflexivity.
  - intros qe. rewrite Hemb. apply cosine_zero_right. exact Hnorm.
Qed.

End EmbeddingOutage.

Lemma embedding_outage_disables_similarity_witness :
  (Sample.sqrt_exact 0 == 0)%Q
  /\ SampleMore.provider_down "What is DataLive?"
     = Raise (ServiceError "embedding provider unavailable")
  /\ (forall now s,
         CAGAgent._find_similar_cached_query
           (cache := client_services (fun text => text) Sample.sqrt_exact
                       SampleMore.provider_down 4)
           now s "What is DataLive?"
         = None).
Proof.
  assert (H1 : (Sample.sqrt_exact 0 == 0)%Q) by reflexivity.
  assert (H2 : SampleMore.provider_down "What is DataLive?"
               = Raise (ServiceError "embedding provider unavailable")) by reflexivity.
  split; [exact H1|]. split; [exact H2|].
  exact (proj1 (embedding_outage_disables_similarity
                  (fun text => text) Sample.sqrt_exact SampleMore.provider_down 4
                  default_settings "What is DataLive?"
                  (ServiceError "embedding provider unavailable") H1 H2)).
Defined.
